(** * Memora: visibility store, AI provider dispatcher and application handlers

    A shallow embedding of [services/dbService.ts], [services/ai] and the
    handlers of [App.tsx] / [views/DashboardView.tsx] that the properties
    below are about.

    Conventions of the embedding.
    - A JavaScript string is a [string]; each character stands for one code
      unit below 256, on which [trim] and [toLowerCase] are defined as in
      ECMAScript.
    - An optional property ([x?: T], [Partial<T>]) is an [option]; [None] is
      both [undefined] and "property absent".
    - The Firestore database is the [World]: one map of documents per
      collection, the clock read by [Date.now()], the outcomes of the coming
      requests ([faults]) and the [trace] of the requests that were served.
    - An [async] function is a computation in the monad [M], which threads
      the world and either returns or throws. *)

From Stdlib Require Import ZArith Ascii String List Bool Lia.
From stdpp Require Import base option list gmap strings fin_maps sorting.

Open Scope string_scope.
Open Scope Z_scope.

(** ** JavaScript values *)

Module JS.

(** Truthiness of an optional string: [undefined] and [""] are falsy. *)
Definition truthy (o : option string) : bool :=
  match o with
  | Some s => negb (String.eqb s "")
  | None => false
  end.

(** Truthiness of an optional boolean. *)
Definition truthyB (o : option bool) : bool :=
  match o with
  | Some b => b
  | None => false
  end.

(** [s || undefined] / [s || null] on an optional string: a falsy operand
    gives the right-hand side (here [None]). *)
Definition orElseNone (o : option string) : option string :=
  if truthy o then o else None.

(** WhiteSpace and LineTerminator code units below 256:
    TAB, LF, VT, FF, CR, SP and NBSP. *)
Definition isWhiteSpace (c : ascii) : bool :=
  let n := nat_of_ascii c in
  ((9 <=? n) && (n <=? 13) || (n =? 32) || (n =? 160))%nat.

Fixpoint trimStart (s : string) : string :=
  match s with
  | EmptyString => EmptyString
  | String c r => if isWhiteSpace c then trimStart r else s
  end.

(** [trimEnd]: a character is kept when it is not white space or when
    something is kept after it. *)
Fixpoint trimEnd (s : string) : string :=
  match s with
  | EmptyString => EmptyString
  | String c r =>
      match trimEnd r with
      | EmptyString => if isWhiteSpace c then EmptyString else String c EmptyString
      | r' => String c r'
      end
  end.

(** [String.prototype.trim] *)
Definition trim (s : string) : string := trimEnd (trimStart s).

(** Lower-case mapping of one code unit below 256: A-Z, and the Latin-1
    capitals U+00C0..U+00DE except the multiplication sign U+00D7. *)
Definition lowerChar (c : ascii) : ascii :=
  let n := nat_of_ascii c in
  if ((65 <=? n) && (n <=? 90)
      || (192 <=? n) && (n <=? 222) && negb (n =? 215))%nat
  then ascii_of_nat (n + 32) else c.

(** [String.prototype.toLowerCase] *)
Fixpoint toLowerCase (s : string) : string :=
  match s with
  | EmptyString => EmptyString
  | String c r => String (lowerChar c) (toLowerCase r)
  end.

(** [a.startsWith(b)] *)
Fixpoint startsWith (s p : string) : bool :=
  match p, s with
  | EmptyString, _ => true
  | String _ _, EmptyString => false
  | String b p', String a s' => Ascii.eqb a b && startsWith s' p'
  end.

(** [String.prototype.includes]: [sub] occurs in [s] at some position. *)
Fixpoint includes (s sub : string) : bool :=
  startsWith s sub ||
  match s with
  | EmptyString => false
  | String _ s' => includes s' sub
  end.

End JS.

(** ** Data model ([types.ts], [services/ai/types.ts]) *)

(** [interface Category] *)
Record Category := mkCategory {
  c_id : string;
  c_name : string;
  c_color : string;
  c_icon : string;
  c_isPublic : option bool;
  c_ownerId : option string
}.

(** A category document as stored or as returned by [doc.data()], and the
    objects built from it by the read paths: every property is optional. *)
Record CategoryData := mkCategoryData {
  cd_id : option string;
  cd_name : option string;
  cd_color : option string;
  cd_icon : option string;
  cd_isPublic : option bool;
  cd_ownerId : option string;
  cd_createdAt : option Z
}.

(** [interface Note] *)
Record Note := mkNote {
  n_id : string;
  n_categoryId : string;
  n_title : string;
  n_content : string;
  n_imageUrl : option string;
  n_images : option (list string);
  n_createdAt : Z;
  n_updatedAt : Z;
  n_tags : option (list string);
  n_isPublic : option bool;
  n_ownerId : option string
}.

(** [Partial<Note>] and note documents. *)
Record NoteData := mkNoteData {
  nd_id : option string;
  nd_categoryId : option string;
  nd_title : option string;
  nd_content : option string;
  nd_imageUrl : option string;
  nd_images : option (list string);
  nd_createdAt : option Z;
  nd_updatedAt : option Z;
  nd_tags : option (list string);
  nd_isPublic : option bool;
  nd_ownerId : option string
}.

(** [type AIProviderType = 'gemini' | 'chatgpt'] *)
Inductive AIProviderType := gemini | chatgpt.

Global Instance AIProviderType_eq_dec : EqDecision AIProviderType.
Proof. solve_decision. Defined.

(** [interface UserAISettings] *)
Record UserAISettings := mkUserAISettings {
  geminiApiKey : option string;
  chatgptApiKey : option string;
  preferredProvider : option AIProviderType
}.

(** A property of the stored settings document: absent, [null] or a value. *)
Inductive Field (A : Type) :=
  | Absent
  | Null
  | Val (a : A).
Arguments Absent {A}.
Arguments Null {A}.
Arguments Val {A} a.

(** The document [users/{uid}/private/aiSettings]. *)
Record AISettingsDoc := mkAISettingsDoc {
  sd_geminiApiKey : Field string;
  sd_chatgptApiKey : Field string;
  sd_preferredProvider : Field AIProviderType;
  sd_updatedAt : Field Z
}.

(** [interface AIRequestContext] *)
Record AIRequestContext := mkAIRequestContext {
  ctx_title : option string;
  ctx_content : option string;
  ctx_imageBase64 : option string;
  ctx_customPrompt : option string
}.

(** [interface AIResponse] *)
Record AIResponse := mkAIResponse {
  r_title : option string;
  r_content : string;
  r_tags : option (list string)
}.

(** What an asynchronous computation throws, and how it ends. *)
Inductive Error :=
  | StoreError
  | NotFound
  | JsError (msg : string).

Inductive result (A : Type) :=
  | Ok (a : A)
  | Throw (e : Error).
Arguments Ok {A} a.
Arguments Throw {A} e.

(** What a backend does with one request.
    - [Rejects e]: [fetch], [response.json()] or [generateContent] rejects
      with the error [e].
    - [NotOk message sdkError]: an HTTP answer whose status is not ok.
      [message] is [error.error?.message] of its body, which
      [ChatGPTProvider] reads; the Gemini client rejects such an answer
      itself, with [sdkError].
    - [Answers resultText parsed]: an answer whose result text
      ([data.choices?.[0]?.message?.content], [response.text]) is
      [resultText]; [parsed] is what [JSON.parse] makes of that text. *)
Inductive BackendReply :=
  | Rejects (e : Error)
  | NotOk (message : option string) (sdkError : Error)
  | Answers (resultText : option string) (parsed : result AIResponse).

(** ** The document store *)

(** The note and category collections:
    [users/{uid}/notes], [public/data/notes],
    [users/{uid}/categories], [public/data/categories]. *)
Inductive NotesRef := UserNotes (uid : string) | PublicNotes.
Inductive CatsRef := UserCategories (uid : string) | PublicCategories.

Global Instance NotesRef_eq_dec : EqDecision NotesRef.
Proof. solve_decision. Defined.
Global Instance CatsRef_eq_dec : EqDecision CatsRef.
Proof. solve_decision. Defined.

(** Requests served by the store and by the AI backends. *)
Inductive Event :=
  | EvAddNote (r : NotesRef) (id : string) (d : NoteData)
  | EvUpdateNote (r : NotesRef) (id : string)
  | EvDeleteNote (r : NotesRef) (id : string)
  | EvQueryNotes (r : NotesRef)
  | EvAddCategory (r : CatsRef) (id : string)
  | EvDeleteCategory (r : CatsRef) (id : string)
  | EvQueryCategories (r : CatsRef)
  | EvSetSettings (uid : string)
  | EvGetSettings (uid : string)
  | EvBackend (t : AIProviderType).

Record World := mkWorld {
  userCategories : gmap string (gmap string CategoryData);
  userNotes : gmap string (gmap string NoteData);
  publicCategories : gmap string CategoryData;
  publicNotes : gmap string NoteData;
  aiSettings : gmap string AISettingsDoc;
  clock : Z;
  (** outcome of each coming request: [true] is a failure *)
  faults : list bool;
  (** what the AI backends do with the coming requests *)
  replies : list BackendReply;
  trace : list Event
}.

Definition notesOf (r : NotesRef) (w : World) : gmap string NoteData :=
  match r with
  | UserNotes uid => default ∅ (userNotes w !! uid)
  | PublicNotes => publicNotes w
  end.

Definition catsOf (r : CatsRef) (w : World) : gmap string CategoryData :=
  match r with
  | UserCategories uid => default ∅ (userCategories w !! uid)
  | PublicCategories => publicCategories w
  end.

Definition setNotes (r : NotesRef) (m : gmap string NoteData) (w : World) : World :=
  match r with
  | UserNotes uid =>
      mkWorld (userCategories w) (<[uid := m]> (userNotes w)) (publicCategories w)
        (publicNotes w) (aiSettings w) (clock w) (faults w) (replies w) (trace w)
  | PublicNotes =>
      mkWorld (userCategories w) (userNotes w) (publicCategories w)
        m (aiSettings w) (clock w) (faults w) (replies w) (trace w)
  end.

Definition setCats (r : CatsRef) (m : gmap string CategoryData) (w : World) : World :=
  match r with
  | UserCategories uid =>
      mkWorld (<[uid := m]> (userCategories w)) (userNotes w) (publicCategories w)
        (publicNotes w) (aiSettings w) (clock w) (faults w) (replies w) (trace w)
  | PublicCategories =>
      mkWorld (userCategories w) (userNotes w) m
        (publicNotes w) (aiSettings w) (clock w) (faults w) (replies w) (trace w)
  end.

Definition setAISettings (m : gmap string AISettingsDoc) (w : World) : World :=
  mkWorld (userCategories w) (userNotes w) (publicCategories w)
    (publicNotes w) m (clock w) (faults w) (replies w) (trace w).

Definition setFaults (fs : list bool) (w : World) : World :=
  mkWorld (userCategories w) (userNotes w) (publicCategories w)
    (publicNotes w) (aiSettings w) (clock w) fs (replies w) (trace w).

Definition setReplies (rs : list BackendReply) (w : World) : World :=
  mkWorld (userCategories w) (userNotes w) (publicCategories w)
    (publicNotes w) (aiSettings w) (clock w) (faults w) rs (trace w).

Definition record (e : Event) (w : World) : World :=
  mkWorld (userCategories w) (userNotes w) (publicCategories w)
    (publicNotes w) (aiSettings w) (clock w) (faults w) (replies w) (trace w ++ [e]).

(** ** The monad of asynchronous computations *)

Definition M (A : Type) : Type := World -> result A * World.

Definition ret {A} (a : A) : M A := fun w => (Ok a, w).

Definition bind {A B} (m : M A) (k : A -> M B) : M B :=
  fun w =>
    match m w with
    | (Ok a, w') => k a w'
    | (Throw e, w') => (Throw e, w')
    end.

Definition throw {A} (e : Error) : M A := fun w => (Throw e, w).

(** [try { m } catch (error) { h error }] *)
Definition tryCatch {A} (m : M A) (h : Error -> M A) : M A :=
  fun w =>
    match m w with
    | (Ok a, w') => (Ok a, w')
    | (Throw e, w') => h e w'
    end.

Notation "'let*' x ':=' m 'in' k" := (bind m (fun x => k))
  (at level 10, x name, m at level 100, k at level 200).
Notation "'do' m 'then' k" := (bind m (fun _ => k))
  (at level 10, m at level 100, k at level 200).

(** [Date.now()] *)
Definition Date_now : M Z := fun w => (Ok (clock w), w).

(** One round trip to the store: it is served, or it fails as the next
    entry of [faults] says. *)
Definition served (w : World) : World := setFaults (tl (faults w)) w.

Definition request : M unit :=
  fun w => (if hd false (faults w) then Throw StoreError else Ok tt, served w).

(** [addDoc(collection, data)]: the store picks an identifier that is not
    in use in the collection. *)
Definition addDocNote (r : NotesRef) (d : NoteData) : M string :=
  do request then
  fun w =>
    let id := fresh (dom (notesOf r w)) in
    (Ok id, record (EvAddNote r id d) (setNotes r (<[id := d]> (notesOf r w)) w)).

Definition addDocCategory (r : CatsRef) (d : CategoryData) : M string :=
  do request then
  fun w =>
    let id := fresh (dom (catsOf r w)) in
    (Ok id, record (EvAddCategory r id) (setCats r (<[id := d]> (catsOf r w)) w)).

(** [deleteDoc(doc(collection, id))]: deleting a missing document succeeds. *)
Definition deleteDocNote (r : NotesRef) (id : string) : M unit :=
  do request then
  fun w => (Ok tt, record (EvDeleteNote r id) (setNotes r (delete id (notesOf r w)) w)).

Definition deleteDocCategory (r : CatsRef) (id : string) : M unit :=
  do request then
  fun w => (Ok tt, record (EvDeleteCategory r id) (setCats r (delete id (catsOf r w)) w)).

(** The properties of [upd] that are present replace those of [old]. *)
Definition orOld {A} (new old : option A) : option A :=
  match new with
  | Some a => Some a
  | None => old
  end.

Definition mergeNote (upd old : NoteData) : NoteData :=
  mkNoteData (orOld (nd_id upd) (nd_id old))
    (orOld (nd_categoryId upd) (nd_categoryId old))
    (orOld (nd_title upd) (nd_title old))
    (orOld (nd_content upd) (nd_content old))
    (orOld (nd_imageUrl upd) (nd_imageUrl old))
    (orOld (nd_images upd) (nd_images old))
    (orOld (nd_createdAt upd) (nd_createdAt old))
    (orOld (nd_updatedAt upd) (nd_updatedAt old))
    (orOld (nd_tags upd) (nd_tags old))
    (orOld (nd_isPublic upd) (nd_isPublic old))
    (orOld (nd_ownerId upd) (nd_ownerId old)).

(** [updateDoc(doc(collection, id), data)]: fails when the document does
    not exist. *)
Definition updateDocNote (r : NotesRef) (id : string) (upd : NoteData) : M unit :=
  do request then
  fun w =>
    match notesOf r w !! id with
    | Some old =>
        (Ok tt, record (EvUpdateNote r id)
                  (setNotes r (<[id := mergeNote upd old]> (notesOf r w)) w))
    | None => (Throw NotFound, w)
    end.

(** [getDocs(query(collection, where("categoryId", "==", cid)))]:
    the documents of the collection whose [categoryId] is [cid]. *)
Definition getDocsNotesWhere (r : NotesRef) (cid : string) : M (list (string * NoteData)) :=
  do request then
  fun w =>
    (Ok (map_to_list (filter (fun kv => nd_categoryId kv.2 = Some cid) (notesOf r w))),
     record (EvQueryNotes r) w).

(** [orderBy(field)] keeps the documents that have the field and sorts
    them on it; the order of documents with equal keys is the one the
    store enumerates them in, which the model does not fix further. *)
Definition createdAtLe (a b : string * CategoryData) : Prop :=
  default 0 (cd_createdAt a.2) <= default 0 (cd_createdAt b.2).

Definition updatedAtGe (a b : string * NoteData) : Prop :=
  default 0 (nd_updatedAt b.2) <= default 0 (nd_updatedAt a.2).

Global Instance createdAtLe_dec a b : Decision (createdAtLe a b).
Proof. unfold createdAtLe. apply _. Defined.
Global Instance updatedAtGe_dec a b : Decision (updatedAtGe a b).
Proof. unfold updatedAtGe. apply _. Defined.

Definition hasCreatedAt (kv : string * CategoryData) : bool :=
  bool_decide (is_Some (cd_createdAt kv.2)).

Definition hasUpdatedAt (kv : string * NoteData) : bool :=
  bool_decide (is_Some (nd_updatedAt kv.2)).

Definition byCreatedAtAsc (m : gmap string CategoryData) : list (string * CategoryData) :=
  merge_sort createdAtLe (List.filter hasCreatedAt (map_to_list m)).

Definition byUpdatedAtDesc (m : gmap string NoteData) : list (string * NoteData) :=
  merge_sort updatedAtGe (List.filter hasUpdatedAt (map_to_list m)).

(** [getDocs(query(collection, orderBy("createdAt", "asc")))] *)
Definition getDocsCategoriesOrdered (r : CatsRef) : M (list (string * CategoryData)) :=
  do request then
  fun w => (Ok (byCreatedAtAsc (catsOf r w)), record (EvQueryCategories r) w).

(** [getDocs(query(collection, orderBy("updatedAt", "desc")))] *)
Definition getDocsNotesOrdered (r : NotesRef) : M (list (string * NoteData)) :=
  do request then
  fun w => (Ok (byUpdatedAtDesc (notesOf r w)), record (EvQueryNotes r) w).

(** [setDoc(ref, data, { merge: true })] on the settings document: the
    properties present in [data] replace the stored ones. *)
Definition mergeField {A} (new old : Field A) : Field A :=
  match new with
  | Absent => old
  | _ => new
  end.

Definition mergeSettings (new old : AISettingsDoc) : AISettingsDoc :=
  mkAISettingsDoc
    (mergeField (sd_geminiApiKey new) (sd_geminiApiKey old))
    (mergeField (sd_chatgptApiKey new) (sd_chatgptApiKey old))
    (mergeField (sd_preferredProvider new) (sd_preferredProvider old))
    (mergeField (sd_updatedAt new) (sd_updatedAt old)).

Definition setDocSettingsMerge (uid : string) (d : AISettingsDoc) : M unit :=
  do request then
  fun w =>
    let d' := match aiSettings w !! uid with
              | Some old => mergeSettings d old
              | None => d
              end in
    (Ok tt, record (EvSetSettings uid) (setAISettings (<[uid := d']> (aiSettings w)) w)).

(** [getDoc(ref)]: [None] when [snapshot.exists()] is false. *)
Definition getDocSettings (uid : string) : M (option AISettingsDoc) :=
  do request then
  fun w => (Ok (aiSettings w !! uid), record (EvGetSettings uid) w).

(** ** [services/dbService.ts] *)

(** [removeUndefined]: drops the properties whose value is [undefined].
    An undefined property and an absent one are both [None] (resp.
    [Absent]) here, so the cleaned object is the object itself. *)
Definition removeUndefined {A} (obj : A) : A := obj.

(** [{ id: doc.id, ...doc.data(), isPublic: flag }] *)
Definition categoryOfDoc (flag : bool) (kv : string * CategoryData) : CategoryData :=
  let d := kv.2 in
  mkCategoryData (orOld (cd_id d) (Some kv.1)) (cd_name d) (cd_color d) (cd_icon d)
    (Some flag) (cd_ownerId d) (cd_createdAt d).

Definition noteOfDoc (flag : bool) (kv : string * NoteData) : NoteData :=
  let d := kv.2 in
  mkNoteData (orOld (nd_id d) (Some kv.1)) (nd_categoryId d) (nd_title d) (nd_content d)
    (nd_imageUrl d) (nd_images d) (nd_createdAt d) (nd_updatedAt d) (nd_tags d)
    (Some flag) (nd_ownerId d).

(** The [try] block of [fetchCategories]. *)
Definition fetchCategories_try (userId : string) : M (list CategoryData) :=
  let* privateSnapshot := getDocsCategoriesOrdered (UserCategories userId) in
  let privateCategories := map (categoryOfDoc false) privateSnapshot in
  let* publicSnapshot := getDocsCategoriesOrdered PublicCategories in
  let publicCategories := map (categoryOfDoc true) publicSnapshot in
  ret (publicCategories ++ privateCategories)%list.

Definition fetchCategories (userId : string) : M (list CategoryData) :=
  tryCatch (fetchCategories_try userId) (fun _ => ret []).

Definition fetchNotes_try (userId : string) : M (list NoteData) :=
  let* privateSnapshot := getDocsNotesOrdered (UserNotes userId) in
  let privateNotes := map (noteOfDoc false) privateSnapshot in
  let* publicSnapshot := getDocsNotesOrdered PublicNotes in
  let publicNotes := map (noteOfDoc true) publicSnapshot in
  ret (publicNotes ++ privateNotes)%list.

Definition fetchNotes (userId : string) : M (list NoteData) :=
  tryCatch (fetchNotes_try userId) (fun _ => ret []).

Definition fetchPublicCategories_try : M (list CategoryData) :=
  let* snapshot := getDocsCategoriesOrdered PublicCategories in
  ret (map (categoryOfDoc true) snapshot).

Definition fetchPublicCategories : M (list CategoryData) :=
  tryCatch fetchPublicCategories_try (fun _ => ret []).

Definition fetchPublicNotes_try : M (list NoteData) :=
  let* snapshot := getDocsNotesOrdered PublicNotes in
  ret (map (noteOfDoc true) snapshot).

Definition fetchPublicNotes : M (list NoteData) :=
  tryCatch fetchPublicNotes_try (fun _ => ret []).

(** [deleteCategory] *)
Definition deleteCategory (userId categoryId : string) (isPublic : option bool) : M unit :=
  if JS.truthyB isPublic then throw (JsError "Cannot delete public categories")
  else deleteDocCategory (UserCategories userId) categoryId.

(** Object updates used by [saveNote]. *)
Definition withoutId (d : NoteData) : NoteData :=
  mkNoteData None (nd_categoryId d) (nd_title d) (nd_content d) (nd_imageUrl d)
    (nd_images d) (nd_createdAt d) (nd_updatedAt d) (nd_tags d) (nd_isPublic d)
    (nd_ownerId d).

Definition withUpdatedAt (t : Z) (d : NoteData) : NoteData :=
  mkNoteData (nd_id d) (nd_categoryId d) (nd_title d) (nd_content d) (nd_imageUrl d)
    (nd_images d) (nd_createdAt d) (Some t) (nd_tags d) (nd_isPublic d)
    (nd_ownerId d).

(** [{ ...note, ownerId, isPublic, createdAt, updatedAt }] *)
Definition stamped (note : NoteData) (owner : string) (flag : bool) (c u : Z) : NoteData :=
  mkNoteData (nd_id note) (nd_categoryId note) (nd_title note) (nd_content note)
    (nd_imageUrl note) (nd_images note) (Some c) (Some u) (nd_tags note)
    (Some flag) (Some owner).

(** [saveNote]; the result is [{ id, isPublic }]. *)
Definition saveNote (userId : string) (note : NoteData)
    (isAdmin categoryIsPublic : option bool) : M (string * bool) :=
  if JS.truthy (nd_id note) then
    let note_id := default "" (nd_id note) in
    if JS.truthyB (nd_isPublic note) then
      if negb (JS.truthyB isAdmin) then
        throw (JsError "Only admin can edit public notes")
      else
        let data := withoutId note in
        let* now := Date_now in
        let cleanData := removeUndefined (withUpdatedAt now data) in
        do updateDocNote PublicNotes note_id cleanData then
        ret (note_id, true)
    else
      let data := withoutId note in
      let* now := Date_now in
      let cleanData := removeUndefined (withUpdatedAt now data) in
      do updateDocNote (UserNotes userId) note_id cleanData then
      ret (note_id, false)
  else
    let shouldBePublic := JS.truthyB isAdmin && JS.truthyB categoryIsPublic in
    if shouldBePublic then
      let* c := Date_now in
      let* u := Date_now in
      let cleanNote := removeUndefined (stamped note userId true c u) in
      let* docRef_id := addDocNote PublicNotes cleanNote in
      ret (docRef_id, true)
    else
      let* c := Date_now in
      let* u := Date_now in
      let cleanNote := removeUndefined (stamped note userId false c u) in
      let* docRef_id := addDocNote (UserNotes userId) cleanNote in
      ret (docRef_id, false).

(** [Promise.all(promises)]: every request has been issued when the
    promises are awaited, so all of them run; the result is rejected when
    one of them is. *)
Fixpoint promiseAll (ps : list (M unit)) : M unit :=
  match ps with
  | [] => ret tt
  | p :: rest =>
      fun w =>
        match p w with
        | (Ok _, w') => promiseAll rest w'
        | (Throw e, w') => (Throw e, (promiseAll rest w').2)
        end
  end.

(** [{ categoryId: toCatId }] *)
Definition onlyCategoryId (cid : string) : NoteData :=
  mkNoteData None (Some cid) None None None None None None None None None.

(** [migrateNotesToCategory] *)
Definition migrateNotesToCategory (userId fromCatId toCatId : string) : M unit :=
  let* snapshot := getDocsNotesWhere (UserNotes userId) fromCatId in
  let promises :=
    map (fun d => updateDocNote (UserNotes userId) d.1 (onlyCategoryId toCatId)) snapshot in
  promiseAll promises.

(** The sanitized copy built by [toggleNotePublish]. *)
Definition cleanNoteOf (userId : string) (note : Note) (now : Z) : NoteData :=
  removeUndefined
    (mkNoteData None (Some (n_categoryId note)) (Some (n_title note))
       (Some (n_content note)) (n_imageUrl note) None (Some (n_createdAt note))
       (Some now) (n_tags note) None (Some userId)).

Definition withIsPublic (flag : bool) (d : NoteData) : NoteData :=
  mkNoteData (nd_id d) (nd_categoryId d) (nd_title d) (nd_content d) (nd_imageUrl d)
    (nd_images d) (nd_createdAt d) (nd_updatedAt d) (nd_tags d) (Some flag)
    (nd_ownerId d).

(** [toggleNotePublish]; the result is [{ newId, isPublic }]. *)
Definition toggleNotePublish (userId : string) (note : Note) (makePublic : bool)
    : M (string * bool) :=
  let* now := Date_now in
  let cleanNote := cleanNoteOf userId note now in
  if makePublic then
    let* newDoc_id := addDocNote PublicNotes (withIsPublic true cleanNote) in
    do (if negb (JS.truthyB (n_isPublic note))
        then deleteDocNote (UserNotes userId) (n_id note)
        else ret tt) then
    ret (newDoc_id, true)
  else
    let* newDoc_id := addDocNote (UserNotes userId) (withIsPublic false cleanNote) in
    do (if JS.truthyB (n_isPublic note)
        then deleteDocNote PublicNotes (n_id note)
        else ret tt) then
    ret (newDoc_id, false).

(** The copy of a note document built in the loops of
    [toggleCategoryPublish]. *)
Definition migratedCopy (userId newCategoryId : string) (flag : bool) (now : Z)
    (noteData : NoteData) : NoteData :=
  removeUndefined
    (mkNoteData None (Some newCategoryId) (nd_title noteData) (nd_content noteData)
       (nd_imageUrl noteData) None (nd_createdAt noteData) (Some now)
       (nd_tags noteData) (Some flag) (Some userId)).

(** [for (const noteDoc of notesSnapshot.docs) { ... }]: copy into [dst],
    record the renaming, delete from [src]. *)
Fixpoint migrateLoop (src dst : NotesRef) (userId newCategoryId : string) (flag : bool)
    (docs : list (string * NoteData)) (migratedNoteIds : gmap string string)
    : M (gmap string string) :=
  match docs with
  | [] => ret migratedNoteIds
  | noteDoc :: rest =>
      let* now := Date_now in
      let cleanNote := migratedCopy userId newCategoryId flag now noteDoc.2 in
      let* newNoteDoc_id := addDocNote dst cleanNote in
      let migratedNoteIds := <[noteDoc.1 := newNoteDoc_id]> migratedNoteIds in
      do deleteDocNote src noteDoc.1 then
      migrateLoop src dst userId newCategoryId flag rest migratedNoteIds
  end.

Record ToggleCategoryResult := mkToggleCategoryResult {
  newId : string;
  isPublic : bool;
  migratedNoteIds : gmap string string
}.

(** [{ ...cleanCategory, isPublic: flag }] *)
Definition cleanCategoryOf (userId : string) (category : Category) (flag : bool) (now : Z)
    : CategoryData :=
  removeUndefined
    (mkCategoryData None (Some (c_name category)) (Some (c_color category))
       (Some (c_icon category)) (Some flag) (Some userId) (Some now)).

(** [toggleCategoryPublish] *)
Definition toggleCategoryPublish (userId : string) (category : Category) (makePublic : bool)
    : M ToggleCategoryResult :=
  let* now := Date_now in
  let migrated : gmap string string := ∅ in
  if makePublic then
    let* newCategoryId :=
      addDocCategory PublicCategories (cleanCategoryOf userId category true now) in
    let* migrated :=
      (if negb (JS.truthyB (c_isPublic category)) then
         let* docs := getDocsNotesWhere (UserNotes userId) (c_id category) in
         let* migrated :=
           migrateLoop (UserNotes userId) PublicNotes userId newCategoryId true docs migrated in
         do deleteDocCategory (UserCategories userId) (c_id category) then
         ret migrated
       else ret migrated) in
    ret (mkToggleCategoryResult newCategoryId true migrated)
  else
    let* newCategoryId :=
      addDocCategory (UserCategories userId) (cleanCategoryOf userId category false now) in
    let* migrated :=
      (if JS.truthyB (c_isPublic category) then
         let* docs := getDocsNotesWhere PublicNotes (c_id category) in
         let* migrated :=
           migrateLoop PublicNotes (UserNotes userId) userId newCategoryId false docs migrated in
         do deleteDocCategory PublicCategories (c_id category) then
         ret migrated
       else ret migrated) in
    ret (mkToggleCategoryResult newCategoryId false migrated).

(** [x || null] on the settings properties. *)
Definition orNull (o : option string) : Field string :=
  match JS.orElseNone o with
  | Some s => Val s
  | None => Null
  end.

Definition orNullProvider (o : option AIProviderType) : Field AIProviderType :=
  match o with
  | Some p => Val p
  | None => Null
  end.

(** [saveUserAISettings] *)
Definition saveUserAISettings (userId : string) (settings : UserAISettings) : M unit :=
  let* now := Date_now in
  let cleanSettings :=
    removeUndefined
      (mkAISettingsDoc (orNull (geminiApiKey settings)) (orNull (chatgptApiKey settings))
         (orNullProvider (preferredProvider settings)) (Val now)) in
  setDocSettingsMerge userId cleanSettings.

(** [data.key || undefined] *)
Definition orUndefined (f : Field string) : option string :=
  match f with
  | Val s => JS.orElseNone (Some s)
  | _ => None
  end.

Definition orUndefinedProvider (f : Field AIProviderType) : option AIProviderType :=
  match f with
  | Val p => Some p
  | _ => None
  end.

Definition fetchUserAISettings_try (userId : string) : M (option UserAISettings) :=
  let* snapshot := getDocSettings userId in
  match snapshot with
  | Some data =>
      ret (Some (mkUserAISettings (orUndefined (sd_geminiApiKey data))
                   (orUndefined (sd_chatgptApiKey data))
                   (orUndefinedProvider (sd_preferredProvider data))))
  | None => ret None
  end.

(** [fetchUserAISettings] *)
Definition fetchUserAISettings (userId : string) : M (option UserAISettings) :=
  tryCatch (fetchUserAISettings_try userId) (fun _ => ret None).

(** ** [services/ai]: providers and the [AIService] dispatcher *)

(** A provider instance: its kind, the key given to the constructor, and
    for Gemini whether the constructor created the client. *)
Record Provider := mkProvider {
  p_type : AIProviderType;
  p_apiKey : string;
  p_client : bool
}.

(** [BaseAIProvider.isConfigured]:
    [Boolean(this.apiKey && this.apiKey.trim().length > 0)] *)
Definition isConfigured (p : Provider) : bool :=
  JS.truthy (Some (p_apiKey p)) && (0 <? String.length (JS.trim (p_apiKey p)))%nat.

(** [new GeminiProvider(apiKey)] *)
Definition newGeminiProvider (key : string) : Provider :=
  let p := mkProvider gemini key false in
  if isConfigured p then mkProvider gemini key true else p.

(** [new ChatGPTProvider(apiKey)] *)
Definition newChatGPTProvider (key : string) : Provider :=
  mkProvider chatgpt key false.

(** One request to the backend of kind [t]: what the backend does with it
    is the next entry of [replies]; past the end of [replies] the request is
    rejected. The prompt and the image of the request do not enter the
    model. *)
Definition backendRequest (t : AIProviderType) (context : AIRequestContext)
    : M BackendReply :=
  fun w =>
    match replies w with
    | reply :: rs => (Ok reply, record (EvBackend t) (setReplies rs w))
    | [] => (Ok (Rejects StoreError), record (EvBackend t) w)
    end.

(** [JSON.parse(resultText) as AIResponse] *)
Definition JSON_parse (parsed : result AIResponse) : M AIResponse :=
  match parsed with
  | Ok response => ret response
  | Throw e => throw e
  end.

(** The [try] block of [GeminiProvider.enhance]. *)
Definition geminiGenerate (context : AIRequestContext) : M AIResponse :=
  let* reply := backendRequest gemini context in
  match reply with
  | Rejects e => throw e
  | NotOk _ sdkError => throw sdkError
  | Answers resultText parsed =>
      if negb (JS.truthy resultText) then throw (JsError "No response from Gemini")
      else JSON_parse parsed
  end.

(** The [try] block of [ChatGPTProvider.enhance]. *)
Definition chatgptFetch (context : AIRequestContext) : M AIResponse :=
  let* reply := backendRequest chatgpt context in
  match reply with
  | Rejects e => throw e
  | NotOk message _ =>
      throw (JsError (if JS.truthy message then default "" message
                      else "ChatGPT API request failed"))
  | Answers resultText parsed =>
      if negb (JS.truthy resultText) then throw (JsError "No response from ChatGPT")
      else JSON_parse parsed
  end.

(** [GeminiProvider.enhance] / [ChatGPTProvider.enhance] *)
Definition providerEnhance (p : Provider) (context : AIRequestContext) : M AIResponse :=
  match p_type p with
  | gemini =>
      if negb (p_client p) || negb (isConfigured p)
      then throw (JsError "Gemini API Key is not configured.")
      else tryCatch (geminiGenerate context) (fun e => throw e)
  | chatgpt =>
      if negb (isConfigured p)
      then throw (JsError "ChatGPT API Key is not configured.")
      else tryCatch (chatgptFetch context) (fun e => throw e)
  end.

(** [class AIService]: the [Map] of providers in insertion order and the
    preferred kind. *)
Record AIService := mkAIService {
  providers : list (AIProviderType * Provider);
  preferred : option AIProviderType
}.

(** [Map.prototype.set]: an existing key keeps its position. *)
Fixpoint mapSet (k : AIProviderType) (v : Provider) (m : list (AIProviderType * Provider))
    : list (AIProviderType * Provider) :=
  match m with
  | [] => [(k, v)]
  | (k', v') :: rest =>
      if decide (k' = k) then (k, v) :: rest else (k', v') :: mapSet k v rest
  end.

(** [Map.prototype.get] *)
Fixpoint mapGet (k : AIProviderType) (m : list (AIProviderType * Provider)) : option Provider :=
  match m with
  | [] => None
  | (k', v) :: rest => if decide (k' = k) then Some v else mapGet k rest
  end.

(** [AIService.configure] *)
Definition configure (svc : AIService) (settings : UserAISettings) : AIService :=
  let ps : list (AIProviderType * Provider) := [] in
  let ps :=
    if JS.truthy (geminiApiKey settings) then
      let gemini_ := newGeminiProvider (default "" (geminiApiKey settings)) in
      if isConfigured gemini_ then mapSet gemini gemini_ ps else ps
    else ps in
  let ps :=
    if JS.truthy (chatgptApiKey settings) then
      let chatgpt_ := newChatGPTProvider (default "" (chatgptApiKey settings)) in
      if isConfigured chatgpt_ then mapSet chatgpt chatgpt_ ps else ps
    else ps in
  mkAIService ps (preferredProvider settings).

(** [AIService.getAvailableProviders], [hasAnyProvider] *)
Definition getAvailableProviders (svc : AIService) : list Provider :=
  map snd (providers svc).

Definition hasAnyProvider (svc : AIService) : bool :=
  (0 <? length (providers svc))%nat.

(** [AIService.getPreferredProvider] *)
Definition getPreferredProvider (svc : AIService) : option Provider :=
  match preferred svc with
  | Some t =>
      match mapGet t (providers svc) with
      | Some p => Some p
      | None => head (map snd (providers svc))
      end
  | None => head (map snd (providers svc))
  end.

(** [AIService.enhance] *)
Definition enhance (svc : AIService) (context : AIRequestContext)
    (providerType : option AIProviderType) : M AIResponse :=
  match providerType with
  | Some t =>
      match mapGet t (providers svc) with
      | Some provider => providerEnhance provider context
      | None =>
          throw (JsError
                   match t with
                   | gemini => "Provider gemini is not configured"
                   | chatgpt => "Provider chatgpt is not configured"
                   end)
      end
  | None =>
      match getPreferredProvider svc with
      | Some provider => providerEnhance provider context
      | None =>
          throw (JsError "No AI provider is configured. Please add your API key in Settings.")
      end
  end.

(** ** [App.tsx]: the state of [AuthenticatedApp] and its handlers *)

Inductive ViewState :=
  | DASHBOARD | CATEGORY_DETAIL | NOTE_EDITOR | NOTE_VIEWER | CATEGORY_EDITOR | SETTINGS.

Record AppState := mkAppState {
  user : option string;
  view : ViewState;
  activeCategoryId : option string;
  searchQuery : string;
  notes : list Note;
  categories : list Category
}.

(** [filteredNotes] *)
Definition filteredNotes (st : AppState) : list Note :=
  List.filter
    (fun n =>
       JS.includes (JS.toLowerCase (n_title n)) (JS.toLowerCase (searchQuery st))
       || JS.includes (JS.toLowerCase (n_content n)) (JS.toLowerCase (searchQuery st)))
    (List.filter
       (fun n =>
          if JS.truthy (activeCategoryId st)
          then String.eqb (n_categoryId n) (default "" (activeCategoryId st))
          else true)
       (notes st)).

(** [DashboardView]: [searchResults]; [None] is [null]. *)
Definition searchResults (searchQuery : string) (categories : list Category)
    (notes : list Note) : option (list Category * list Note) :=
  if negb (JS.truthy (Some (JS.trim searchQuery))) then None
  else
    let query := JS.trim (JS.toLowerCase searchQuery) in
    let matchedCategories :=
      List.filter (fun cat => JS.includes (JS.toLowerCase (c_name cat)) query) categories in
    let matchedNotes :=
      List.filter
        (fun note =>
           let category :=
             List.find (fun c => String.eqb (c_id c) (n_categoryId note)) categories in
           let categoryName :=
             match category with
             | Some c => JS.toLowerCase (c_name c)
             | None => ""
             end in
           JS.includes (JS.toLowerCase (n_title note)) query
           || JS.includes (JS.toLowerCase (n_content note)) query
           || JS.includes categoryName query
           || match n_tags note with
              | Some tags =>
                  existsb (fun tag => JS.includes (JS.toLowerCase tag) query) tags
              | None => false
              end)
        notes in
    Some (matchedCategories, matchedNotes).

Definition withCategoryId (cid : string) (n : Note) : Note :=
  mkNote (n_id n) cid (n_title n) (n_content n) (n_imageUrl n) (n_images n)
    (n_createdAt n) (n_updatedAt n) (n_tags n) (n_isPublic n) (n_ownerId n).

Definition appSetNotes (ns : list Note) (st : AppState) : AppState :=
  mkAppState (user st) (view st) (activeCategoryId st) (searchQuery st) ns (categories st).

(** [handleDeleteCategory]; [confirmed] is the answer to the [confirm]
    dialog. The handler changes the application state and the world, and
    returns or throws. *)
Definition handleDeleteCategory (confirmed : bool) (id : string) (st : AppState)
    (w : World) : result unit * AppState * World :=
  match user st with
  | None => (Ok tt, st, w)
  | Some uid =>
      if (length (categories st) <=? 0)%nat then (Ok tt, st, w)
      else if confirmed then
        let fallbackCat :=
          List.find (fun c => negb (String.eqb (c_id c) id)) (categories st) in
        let '(r1, st1, w1) :=
          match fallbackCat with
          | Some fb =>
              match migrateNotesToCategory uid id (c_id fb) w with
              | (Ok _, w') =>
                  (Ok tt,
                   appSetNotes
                     (map (fun n => if String.eqb (n_categoryId n) id
                                    then withCategoryId (c_id fb) n else n)
                        (notes st)) st,
                   w')
              | (Throw e, w') => (Throw e, st, w')
              end
          | None => (Ok tt, st, w)
          end in
        match r1 with
        | Throw e => (Throw e, st1, w1)
        | Ok _ =>
            match deleteCategory uid id None w1 with
            | (Ok _, w2) =>
                (Ok tt,
                 mkAppState (user st1) DASHBOARD None (searchQuery st1) (notes st1)
                   (List.filter (fun c => negb (String.eqb (c_id c) id)) (categories st1)),
                 w2)
            | (Throw e, w2) => (Throw e, st1, w2)
            end
        end
      else (Ok tt, st, w)
  end.

(** ** Vocabulary of the properties *)

(** A credential that is absent, empty or blank after trimming. *)
Definition blank (o : option string) : Prop :=
  match o with
  | Some s => JS.trim s = ""
  | None => True
  end.

(** What a save followed by a fetch gives back: a falsy credential is
    absent. *)
Definition normalised (settings : UserAISettings) : UserAISettings :=
  mkUserAISettings (JS.orElseNone (geminiApiKey settings))
    (JS.orElseNone (chatgptApiKey settings)) (preferredProvider settings).

(** [sub] is a substring of [s]. *)
Definition substringOf (sub s : string) : Prop :=
  exists pre post, s = String.append pre (String.append sub post).

(** [q] occurs in [s] when case is ignored. *)
Definition occursIn (q s : string) : Prop :=
  substringOf (JS.toLowerCase q) (JS.toLowerCase s).

(** The name under which the dashboard search looks up the category of a
    note: lower-cased, and empty when the category is not in the list. *)
Definition categoryNameOf (categories : list Category) (note : Note) : string :=
  match List.find (fun c => String.eqb (c_id c) (n_categoryId note)) categories with
  | Some c => JS.toLowerCase (c_name c)
  | None => ""
  end.

(** Every coming request is served. *)
Definition allServed (w : World) : Prop := Forall (fun b => b = false) (faults w).

(** The in-memory mirror of the migration. *)
Definition reassigned (id to : string) (ns : list Note) : list Note :=
  map (fun n => if String.eqb (n_categoryId n) id then withCategoryId to n else n) ns.

(** Creation order on the categories returned by the read paths. *)
Definition createdNotAfter (a b : CategoryData) : Prop :=
  default 0 (cd_createdAt a) <= default 0 (cd_createdAt b).

(** The category [c] that a read path returns for the document [kv.2]
    stored under the identifier [kv.1] of a partition whose flag is [flag]:
    [c] has the name, color, icon, owner and creation time of the document,
    the [isPublic] of the partition, and as [id] the identifier of the
    document (or the [id] property of its data, if it has one). *)
Definition listedCategory (flag : bool) (kv : string * CategoryData) (c : CategoryData)
    : Prop :=
  cd_id c = Some (default kv.1 (cd_id kv.2))
  /\ cd_name c = cd_name kv.2
  /\ cd_color c = cd_color kv.2
  /\ cd_icon c = cd_icon kv.2
  /\ cd_ownerId c = cd_ownerId kv.2
  /\ cd_createdAt c = cd_createdAt kv.2
  /\ cd_isPublic c = Some flag.

(** The notes of the collection [r] that refer to the category [cid]. *)
Definition notesOfCategory (r : NotesRef) (cid : string) (w : World) : gmap string NoteData :=
  filter (fun kv => nd_categoryId kv.2 = Some cid) (notesOf r w).

(** [copy] is what the cascade of [toggleCategoryPublish] writes for the
    note document [d]: the title, content, [imageUrl], tags and creation
    time of [d], the new category, the flag of the destination, the caller
    as owner and the time of the call as [updatedAt]. The [images] list of
    [d] is not copied. *)
Definition copiedNote (owner newCategoryId : string) (flag : bool) (now : Z)
    (d copy : NoteData) : Prop :=
  nd_title copy = nd_title d
  /\ nd_content copy = nd_content d
  /\ nd_imageUrl copy = nd_imageUrl d
  /\ nd_tags copy = nd_tags d
  /\ nd_createdAt copy = nd_createdAt d
  /\ nd_categoryId copy = Some newCategoryId
  /\ nd_isPublic copy = Some flag
  /\ nd_ownerId copy = Some owner
  /\ nd_updatedAt copy = Some now
  /\ nd_images copy = None
  /\ nd_id copy = None.

(** [c] is the document that [toggleCategoryPublish] writes for the
    category: its name, color and icon, the flag of the destination, the
    caller as owner and the time of the call as [createdAt]. *)
Definition copiedCategory (owner : string) (flag : bool) (now : Z) (category : Category)
    (c : CategoryData) : Prop :=
  cd_name c = Some (c_name category)
  /\ cd_color c = Some (c_color category)
  /\ cd_icon c = Some (c_icon category)
  /\ cd_isPublic c = Some flag
  /\ cd_ownerId c = Some owner
  /\ cd_createdAt c = Some now
  /\ cd_id c = None.

(** What is required of the event [e] of a migration, given the events
    [seen] before it. [docs] are the notes of the category in the collection
    [src] it leaves, and [ids] gives each of them the identifier of its own
    copy.
    - A note is created only in [dst], as the copy of one of the notes
      [docs], under the identifier that [ids] gives that note.
    - A note is deleted only from [src], only if it is one of the notes
      [docs], and only after its own copy was created in [dst].
    - The category is deleted only from [srcC], and only after the copy of
      each of the notes [docs] was created in [dst]. *)
Definition okAt (src dst : NotesRef) (srcC : CatsRef) (cid : string)
    (docs : list (string * NoteData)) (isCopy : NoteData -> NoteData -> Prop)
    (ids : gmap string string) (seen : list Event) (e : Event) : Prop :=
  match e with
  | EvAddNote r newNoteId copy =>
      r = dst
      /\ exists nid d, (nid, d) ∈ docs /\ ids !! nid = Some newNoteId /\ isCopy d copy
  | EvDeleteNote r nid =>
      r = src
      /\ exists d newNoteId copy,
           (nid, d) ∈ docs /\ ids !! nid = Some newNoteId /\ isCopy d copy
           /\ EvAddNote dst newNoteId copy ∈ seen
  | EvDeleteCategory r c =>
      r = srcC /\ c = cid
      /\ forall nid d, (nid, d) ∈ docs ->
           exists newNoteId copy,
             ids !! nid = Some newNoteId /\ isCopy d copy
             /\ EvAddNote dst newNoteId copy ∈ seen
  | _ => True
  end.

(** Every event of [es] meets [okAt] with the events before it, [seen]
    being the events before [es]. *)
Definition createBeforeDeleteFrom (src dst : NotesRef) (srcC : CatsRef) (cid : string)
    (docs : list (string * NoteData)) (isCopy : NoteData -> NoteData -> Prop)
    (ids : gmap string string) (seen es : list Event) : Prop :=
  forall pre e post,
    es = (pre ++ e :: post)%list ->
    okAt src dst srcC cid docs isCopy ids (seen ++ pre)%list e.

Definition createBeforeDelete (src dst : NotesRef) (srcC : CatsRef) (cid : string)
    (docs : list (string * NoteData)) (isCopy : NoteData -> NoteData -> Prop)
    (ids : gmap string string) (es : list Event) : Prop :=
  createBeforeDeleteFrom src dst srcC cid docs isCopy ids [] es.

(** The part of [toggleCategoryPublish] that both branches share: query
    the notes of the category, migrate them, delete the category. *)
Definition cascade (src dst : NotesRef) (srcC : CatsRef) (userId cid newCategoryId : string)
    (flag : bool) : M (gmap string string) :=
  let* docs := getDocsNotesWhere src cid in
  let* migrated := migrateLoop src dst userId newCategoryId flag docs ∅ in
  do deleteDocCategory srcC cid then
  ret migrated.

(** ** Scenarios *)

(** A world with no documents, in which every request is served. *)
Definition emptyWorld : World := mkWorld ∅ ∅ ∅ ∅ ∅ 1700000000000 [] [] [].

(** A private note with two images, as the editor saves it. *)
Definition galleryNote : Note :=
  mkNote "n1" "catA" "Trip" "Photos" (Some "img1") (Some ["img1"; "img2"])
    1600000000000 1600000000000 None (Some false) (Some "u1").

Definition galleryDoc : NoteData :=
  mkNoteData None (Some "catA") (Some "Trip") (Some "Photos") (Some "img1")
    (Some ["img1"; "img2"]) (Some 1600000000000) (Some 1600000000000) None
    (Some false) (Some "u1").

Definition galleryWorld : World :=
  setNotes (UserNotes "u1") {["n1" := galleryDoc]} emptyWorld.

(** A public note and the world that holds its document. *)
Definition publishedNote : Note :=
  mkNote "n1" "catP" "X" "Y" None None 1600000000000 1600000000000 None
    (Some true) (Some "admin").

Definition publishedDoc : NoteData :=
  mkNoteData None (Some "catP") (Some "X") (Some "Y") None None
    (Some 1600000000000) (Some 1600000000000) None (Some true) (Some "admin").

Definition publishedWorld : World :=
  setNotes PublicNotes {["n1" := publishedDoc]} emptyWorld.

(** Scenario A: a non-admin saves a new note in a public category. *)
Definition scenarioA_note : NoteData :=
  mkNoteData None (Some "catA") (Some "X") (Some "Y") None None None None None None None.

(** A note on algebra tagged "math", in the category "Science". *)
Definition algebraNote : Note :=
  mkNote "n1" "c1" "Algebra" "x + y" None None 1600000000000 1600000000000
    (Some ["math"]) (Some false) (Some "u1").

Definition scienceCategory : Category :=
  mkCategory "c1" "Science" "bg-red-500" "Book" (Some false) (Some "u1").

(** A user whose only category is [scienceCategory], holding
    [algebraNote]. *)
Definition algebraDoc : NoteData :=
  mkNoteData None (Some "c1") (Some "Algebra") (Some "x + y") None None
    (Some 1600000000000) (Some 1600000000000) (Some ["math"]) (Some false) (Some "u1").

Definition scienceDoc : CategoryData :=
  mkCategoryData None (Some "Science") (Some "bg-red-500") (Some "Book") (Some false)
    (Some "u1") (Some 1500000000000).

Definition lonelyWorld : World :=
  setCats (UserCategories "u1") {["c1" := scienceDoc]}
    (setNotes (UserNotes "u1") {["n1" := algebraDoc]} emptyWorld).

Definition lonelyState : AppState :=
  mkAppState (Some "u1") CATEGORY_EDITOR (Some "c1") "" [algebraNote] [scienceCategory].

(** The same user with a second category, "Inbox". *)
Definition inboxCategory : Category :=
  mkCategory "c2" "Inbox" "bg-blue-500" "Inbox" (Some false) (Some "u1").

Definition twoCategoriesState : AppState :=
  mkAppState (Some "u1") CATEGORY_EDITOR (Some "c1") "" [algebraNote]
    [scienceCategory; inboxCategory].

(** Scenario B: an admin publishes a private category that holds three
    notes; a fourth note belongs to another category. *)
Definition scenarioB_doc (t : string) (cid : string) : NoteData :=
  mkNoteData None (Some cid) (Some t) (Some "body") None None
    (Some 1600000000000) (Some 1600000000000) None (Some false) (Some "admin").

Definition scenarioB_category : Category :=
  mkCategory "catA" "Physics" "bg-red-500" "Atom" (Some false) (Some "admin").

Definition scenarioB_world : World :=
  setCats (UserCategories "admin") {["catA" := scienceDoc]}
    (setNotes (UserNotes "admin")
       (<["n1" := scenarioB_doc "one" "catA"]>
          (<["n2" := scenarioB_doc "two" "catA"]>
             (<["n3" := scenarioB_doc "three" "catA"]>
                {["n4" := scenarioB_doc "four" "catB"]})))
       emptyWorld).

(** Scenario B when the sixth request fails: the category is created and
    queried, the first note is copied and deleted, the second is copied,
    and its deletion fails. *)
Definition scenarioB_failing : World :=
  setFaults [false; false; false; false; false; true] scenarioB_world.

(** Two public categories, the younger one stored under the smaller
    identifier, and one private category of the user "u1". *)
Definition shelfDoc (name : string) (flag : bool) (created : Z) : CategoryData :=
  mkCategoryData None (Some name) (Some "bg-red-500") (Some "Book") (Some flag)
    (Some "admin") (Some created).

Definition shelfWorld : World :=
  setCats (UserCategories "u1") {["p1" := shelfDoc "Mine" false 150]}
    (setCats PublicCategories
       (<["a" := shelfDoc "Younger" true 200]> {["b" := shelfDoc "Older" true 100]})
       emptyWorld).

(** ** Further functions of [services/dbService.ts], [services/ai] and [App.tsx] *)

(** [Omit<Category, 'id'>], the argument of [addCategory]. *)
Record CategoryInput := mkCategoryInput {
  ci_name : string;
  ci_color : string;
  ci_icon : string;
  ci_isPublic : option bool;
  ci_ownerId : option string
}.

(** [{ ...category, ownerId: userId, isPublic: false, createdAt: Date.now() }] *)
Definition privateCategoryDoc (userId : string) (category : CategoryInput) (now : Z)
    : CategoryData :=
  mkCategoryData None (Some (ci_name category)) (Some (ci_color category))
    (Some (ci_icon category)) (Some false) (Some userId) (Some now).

(** [addCategory] *)
Definition addCategory (userId : string) (category : CategoryInput) : M string :=
  let* now := Date_now in
  addDocCategory (UserCategories userId) (privateCategoryDoc userId category now).

(** [deleteNote] *)
Definition deleteNote (userId noteId : string) (isPublic isAdmin : option bool) : M unit :=
  if JS.truthyB isPublic then
    if negb (JS.truthyB isAdmin) then
      throw (JsError "Only admin can delete public notes")
    else deleteDocNote PublicNotes noteId
  else deleteDocNote (UserNotes userId) noteId.

(** [AIService.hasMultipleProviders] *)
Definition hasMultipleProviders (svc : AIService) : bool :=
  (1 <? length (providers svc))%nat.

(** [NoteEditor]: the initial value of the [images] state, from the
    [images] and the [imageUrl] of the note that is opened. *)
Definition openedImages (images : option (list string)) (imageUrl : option string)
    : list string :=
  match images with
  | Some imgs =>
      if (0 <? length imgs)%nat then imgs
      else if JS.truthy imageUrl then [default "" imageUrl] else []
  | None => if JS.truthy imageUrl then [default "" imageUrl] else []
  end.

Definition initialImages (note : option Note) : list string :=
  match note with
  | Some n => openedImages (n_images n) (n_imageUrl n)
  | None => []
  end.

(** [NoteEditor.handleSave]: the [images] and [imageUrl] properties of the
    object passed to [onSave]. *)
Definition savedImages (images : list string) : option (list string) * option string :=
  (if (0 <? length images)%nat then Some images else None,
   if (0 <? length images)%nat then head images else None).

(** The object that [NoteEditor.handleSave] passes to [onSave]: the
    properties [title], [content], [images], [imageUrl] and [tags] are all
    set, [images] and [imageUrl] possibly to [undefined]. *)
Record EditorData := mkEditorData {
  e_title : string;
  e_content : string;
  e_images : option (list string);
  e_imageUrl : option string;
  e_tags : list string
}.

(** [untitled] stands for the default title of the editor, a literal with
    characters beyond code unit 255. *)
Definition handleSave_data (untitled title content : string) (images tags : list string)
    : EditorData :=
  mkEditorData (if JS.truthy (Some title) then title else untitled) content
    (savedImages images).1 (savedImages images).2 tags.

(** [{ ...n, ...data, updatedAt }]: every property of [data] replaces the
    one of [n], also when it is [undefined]. *)
Definition withEditorData (data : EditorData) (now : Z) (n : Note) : Note :=
  mkNote (n_id n) (n_categoryId n) (e_title data) (e_content data) (e_imageUrl data)
    (e_images data) (n_createdAt n) now (Some (e_tags data)) (n_isPublic n) (n_ownerId n).

(** [handleSaveNote] for a note that is being edited: [activeNote] is that
    note, and [isAdmin] comes from the authentication context. (Without an
    active note the handler creates a note; that branch is not modelled.)
    The change of view that the handler schedules for later is not part of
    it. *)
Definition handleSaveNote (isAdmin : bool) (activeNote : Note) (data : EditorData)
    (st : AppState) (w : World) : result unit * AppState * World :=
  match user st with
  | None => (Ok tt, st, w)
  | Some uid =>
      let currentCategory :=
        match activeCategoryId st with
        | Some a => List.find (fun c => String.eqb (c_id c) a) (categories st)
        | None => None
        end in
      let categoryIsPublic :=
        match currentCategory with
        | Some c => JS.truthyB (c_isPublic c)
        | None => false
        end in
      let categoryId :=
        if JS.truthy (activeCategoryId st) then default "" (activeCategoryId st)
        else match categories st with
             | c :: _ => c_id c
             | [] => ""
             end in
      let noteData :=
        mkNoteData (Some (n_id activeNote)) (Some categoryId) (Some (e_title data))
          (Some (e_content data)) (e_imageUrl data) (e_images data) None None
          (Some (e_tags data)) (n_isPublic activeNote) None in
      match saveNote uid noteData (Some isAdmin) (Some categoryIsPublic) w with
      | (Ok result, w') =>
          (Ok tt,
           appSetNotes
             (map (fun n => if String.eqb (n_id n) (n_id activeNote)
                            then withEditorData data (clock w') n else n)
                (notes st)) st,
           w')
      | (Throw e, w') => (Throw e, st, w')
      end
  end.

(** [setNotes(prev => prev.filter(n => n.id !== id))] *)
Definition appRemoveNote (id : string) (st : AppState) : AppState :=
  appSetNotes (List.filter (fun n => negb (String.eqb (n_id n) id)) (notes st)) st.

(** [handleDeleteNoteDirectly]; [isAdmin] comes from the authentication
    context. The [catch] block logs the error: the handler never throws. *)
Definition handleDeleteNoteDirectly (isAdmin : bool) (id : string) (st : AppState)
    (w : World) : AppState * World :=
  match user st with
  | None => (st, w)
  | Some uid =>
      let noteToDelete := List.find (fun n => String.eqb (n_id n) id) (notes st) in
      let isPublic :=
        match noteToDelete with
        | Some n => n_isPublic n
        | None => None
        end in
      match deleteNote uid id isPublic (Some isAdmin) w with
      | (Ok _, w') => (appRemoveNote id st, w')
      | (Throw _, w') => (st, w')
      end
  end.

(** ** Vocabulary of the further properties *)

(** A document with its [categoryId] set to [cid] and nothing else
    changed. *)
Definition withCategory (cid : string) (d : NoteData) : NoteData :=
  mkNoteData (nd_id d) (Some cid) (nd_title d) (nd_content d) (nd_imageUrl d)
    (nd_images d) (nd_createdAt d) (nd_updatedAt d) (nd_tags d) (nd_isPublic d)
    (nd_ownerId d).

(** A credential that registers a provider: present, and not blank after
    trimming. *)
Definition usable (o : option string) : bool :=
  match o with
  | Some s => negb (String.eqb s "") && (0 <? String.length (JS.trim s))%nat
  | None => false
  end.

(** The credential of a provider kind in the settings. *)
Definition keyOf (settings : UserAISettings) (t : AIProviderType) : option string :=
  match t with
  | gemini => geminiApiKey settings
  | chatgpt => chatgptApiKey settings
  end.

(** ** Further vocabulary, scenarios and the server functions *)

(** A private category "catA" of the admin that holds the private note
    "n1", with two images; and the public note "p1" of another category. *)
Definition strandedBase : World :=
  setCats (UserCategories "admin")
    {["catA" := mkCategoryData None (Some "Physics") (Some "bg-red-500") (Some "Atom")
                  (Some false) (Some "admin") (Some 1500000000000)]}
    (setNotes (UserNotes "admin")
       {["n1" := mkNoteData None (Some "catA") (Some "Trip") (Some "Photos") (Some "img1")
                   (Some ["img1"; "img2"]) (Some 1600000000000) (Some 1600000000000) None
                   (Some false) (Some "admin")]}
       (setNotes PublicNotes {["p1" := publishedDoc]} emptyWorld)).

(** The public note "p1" in memory, and the application while the admin
    edits it, after picking the category "catA" in the editor. *)
Definition strandedNote : Note :=
  mkNote "p1" "catP" "X" "Y" None None 1600000000000 1600000000000 None
    (Some true) (Some "admin").

Definition strandingState : AppState :=
  mkAppState (Some "admin") NOTE_EDITOR (Some "catA") "" [strandedNote]
    [scenarioB_category].

(** The store after the admin saved the note from the editor:
    [handleSaveNote] writes the new [categoryId] and keeps the [isPublic] of
    the note. *)
Definition strandedWorld : World :=
  (handleSaveNote true strandedNote (handleSave_data "Untitled" "X" "Y" [] [])
     strandingState strandedBase).2.




(** A highlight edit of the published note by an admin. *)
Definition highlightEdit : NoteData :=
  mkNoteData (Some "n1") None None (Some "<mark>Y</mark>") None None None None None
    (Some true) None.

(** A public category with one public note, published by "admin". *)
Definition unpublishWorld : World :=
  setCats PublicCategories {["catP" := shelfDoc "Physics" true 100]} publishedWorld.

Definition unpublishCategory : Category :=
  mkCategory "catP" "Physics" "bg-red-500" "Book" (Some true) (Some "admin").

(** The kind that [getPreferredProvider] falls back to: the first
    registered one. *)
Definition firstUsable (settings : UserAISettings) : option AIProviderType :=
  if usable (geminiApiKey settings) then Some gemini
  else if usable (chatgptApiKey settings) then Some chatgpt
  else None.

(** The kind that [enhance] dispatches to after [configure]. *)
Definition chosenKind (settings : UserAISettings) (providerType : option AIProviderType)
    : option AIProviderType :=
  match providerType with
  | Some t => if usable (keyOf settings t) then Some t else None
  | None =>
      match preferredProvider settings with
      | Some t => if usable (keyOf settings t) then Some t else firstUsable settings
      | None => firstUsable settings
      end
  end.

(** [{}] as [UserAISettings] *)
Definition emptySettings : UserAISettings := mkUserAISettings None None None.

(** [AIContextProvider.loadSettings]: the service after the settings of the
    user were (re)loaded. The [catch] block configures the service with
    [{}]; the callback never throws. *)
Definition loadSettings (user : option string) (aiService : AIService) : M AIService :=
  match user with
  | None => ret (configure aiService emptySettings)
  | Some uid =>
      tryCatch
        (let* settings := fetchUserAISettings uid in
         match settings with
         | Some s => ret (configure aiService s)
         | None => ret (configure aiService emptySettings)
         end)
        (fun _ => ret (configure aiService emptySettings))
  end.

(** The document written by [saveUserAISettings]. *)
Definition settingsDoc (settings : UserAISettings) (now : Z) : AISettingsDoc :=
  mkAISettingsDoc (orNull (geminiApiKey settings)) (orNull (chatgptApiKey settings))
    (orNullProvider (preferredProvider settings)) (Val now).

(** ** The callable functions of the server

    [setAdminRole], [setupInitialAdmin] and [createUserProfile], found in
    [services/ai/providers/BaseAIProvider.ts] after the provider class.
    [isAdmin] is typed [boolean], so the [typeof] test of [setAdminRole] is
    not modelled. The trigger [onUserProfileCreated] returns at once for a
    document that has [isAdmin], as every profile written here has. *)

(** A profile document [users/{uid}]. *)
Record ProfileDoc := mkProfileDoc {
  pf_email : option string;
  pf_displayName : option string;
  pf_isAdmin : option bool;
  pf_createdAt : option Z
}.

(** The record of a user in the authentication service. *)
Record UserRecord := mkUserRecord {
  ur_email : option string;
  ur_displayName : option string
}.

(** The state the functions work on: the profile documents, the users and
    their custom [admin] claim in the authentication service, the server
    time, and the outcomes of the coming requests ([true] is a failure). *)
Record Server := mkServer {
  profiles : gmap string ProfileDoc;
  authUsers : gmap string UserRecord;
  customClaims : gmap string bool;
  serverTime : Z;
  serverFaults : list bool
}.

Inductive ServerError :=
  | HttpsError (code message : string)
  | RequestFailed.

Inductive outcome (A : Type) :=
  | Done (a : A)
  | Failed (e : ServerError).
Arguments Done {A} a.
Arguments Failed {A} e.

Definition Srv (A : Type) : Type := Server -> outcome A * Server.

Definition sret {A} (a : A) : Srv A := fun s => (Done a, s).

Definition sbind {A B} (m : Srv A) (k : A -> Srv B) : Srv B :=
  fun s =>
    match m s with
    | (Done a, s') => k a s'
    | (Failed e, s') => (Failed e, s')
    end.

Definition sfail {A} (e : ServerError) : Srv A := fun s => (Failed e, s).

Notation "'let+' x ':=' m 'in' k" := (sbind m (fun x => k))
  (at level 10, x name, m at level 100, k at level 200).
Notation "'exec' m 'then' k" := (sbind m (fun _ => k))
  (at level 10, m at level 100, k at level 200).

Definition withProfiles (m : gmap string ProfileDoc) (s : Server) : Server :=
  mkServer m (authUsers s) (customClaims s) (serverTime s) (serverFaults s).

Definition withClaims (m : gmap string bool) (s : Server) : Server :=
  mkServer (profiles s) (authUsers s) m (serverTime s) (serverFaults s).

(** One request to the database or to the authentication service. *)
Definition srvRequest : Srv unit :=
  fun s =>
    (if hd false (serverFaults s) then Failed RequestFailed else Done tt,
     mkServer (profiles s) (authUsers s) (customClaims s) (serverTime s)
       (tl (serverFaults s))).

(** [db.doc(`users/${uid}`).get()] followed by [.data()] *)
Definition getProfile (uid : string) : Srv (option ProfileDoc) :=
  exec srvRequest then fun s => (Done (profiles s !! uid), s).

(** [db.collection("users").where("isAdmin", "==", true).limit(1).get()];
    the result is [!adminsSnapshot.empty]. *)
Definition anyAdmin : Srv bool :=
  exec srvRequest then
  fun s =>
    (Done (match map_to_list (filter (fun kv => pf_isAdmin kv.2 = Some true) (profiles s)) with
           | [] => false
           | _ :: _ => true
           end), s).

(** [db.doc(`users/${uid}`).update({ isAdmin })]: fails when the document
    does not exist. *)
Definition updateIsAdmin (uid : string) (isAdmin : bool) : Srv unit :=
  exec srvRequest then
  fun s =>
    match profiles s !! uid with
    | Some d =>
        (Done tt,
         withProfiles
           (<[uid := mkProfileDoc (pf_email d) (pf_displayName d) (Some isAdmin)
                       (pf_createdAt d)]> (profiles s)) s)
    | None => (Failed RequestFailed, s)
    end.

(** [db.doc(`users/${uid}`).set(doc, { merge: true })] with a document that
    gives all four properties. *)
Definition setProfile (uid : string) (d : ProfileDoc) : Srv unit :=
  exec srvRequest then
  fun s =>
    let old := default (mkProfileDoc None None None None) (profiles s !! uid) in
    (Done tt,
     withProfiles
       (<[uid := mkProfileDoc (orOld (pf_email d) (pf_email old))
                   (orOld (pf_displayName d) (pf_displayName old))
                   (orOld (pf_isAdmin d) (pf_isAdmin old))
                   (orOld (pf_createdAt d) (pf_createdAt old))]> (profiles s)) s).

(** [admin.auth().getUser(uid)]: fails when there is no such user. *)
Definition getUser (uid : string) : Srv UserRecord :=
  exec srvRequest then
  fun s =>
    match authUsers s !! uid with
    | Some u => (Done u, s)
    | None => (Failed RequestFailed, s)
    end.

(** [admin.auth().setCustomUserClaims(uid, { admin })] *)
Definition setCustomUserClaims (uid : string) (admin : bool) : Srv unit :=
  exec srvRequest then
  fun s =>
    match authUsers s !! uid with
    | Some _ => (Done tt, withClaims (<[uid := admin]> (customClaims s)) s)
    | None => (Failed RequestFailed, s)
    end.

(** [s.split(",")] *)
Fixpoint splitComma (s : string) : list string :=
  match s with
  | EmptyString => [EmptyString]
  | String c r =>
      if Ascii.eqb c "," then EmptyString :: splitComma r
      else match splitComma r with
           | h :: t => String c h :: t
           | [] => [String c EmptyString]
           end
  end.

(** [s.split("@")[0]] *)
Fixpoint beforeAt (s : string) : string :=
  match s with
  | EmptyString => EmptyString
  | String c r => if Ascii.eqb c "@" then EmptyString else String c (beforeAt r)
  end.

(** [ADMIN_EMAILS], from the value of [process.env.VITE_ADMIN_EMAILS]. *)
Definition ADMIN_EMAILS (env : option string) : list string :=
  List.filter (fun email => (0 <? String.length email)%nat)
    (map (fun email => JS.toLowerCase (JS.trim email))
       (splitComma (if JS.truthy env then default "" env else ""))).

(** [Array.prototype.includes] on strings *)
Definition arrayIncludes (l : list string) (x : string) : bool :=
  existsb (String.eqb x) l.

(** [setAdminRole]; [auth] is the identifier of the caller, if any, and the
    result stands for [{ success: true, targetUserId, isAdmin }]. *)
Definition setAdminRole (auth : option string) (targetUserId : string) (isAdmin : bool)
    : Srv (string * bool) :=
  match auth with
  | None => sfail (HttpsError "unauthenticated" "Must be authenticated to call this function")
  | Some uid =>
      let+ callerData := getProfile uid in
      if negb (JS.truthyB (callerData ≫= pf_isAdmin)) then
        sfail (HttpsError "permission-denied" "Only admins can set admin roles")
      else if negb (JS.truthy (Some targetUserId)) then
        sfail (HttpsError "invalid-argument" "Must provide targetUserId and isAdmin boolean")
      else
        exec updateIsAdmin targetUserId isAdmin then
        exec setCustomUserClaims targetUserId isAdmin then
        sret (targetUserId, isAdmin)
  end.

(** [userRecord.displayName || userRecord.email.split("@")[0]] *)
Definition displayNameOf (u : UserRecord) (email : string) : string :=
  if JS.truthy (ur_displayName u) then default "" (ur_displayName u) else beforeAt email.

(** [setupInitialAdmin]; the result stands for
    [{ success: true, message: "You are now an admin" }]. *)
Definition setupInitialAdmin (env : option string) (auth : option string) : Srv unit :=
  match auth with
  | None => sfail (HttpsError "unauthenticated" "Must be authenticated")
  | Some uid =>
      let+ notEmpty := anyAdmin in
      if notEmpty then
        sfail (HttpsError "already-exists" "An admin already exists. Use setAdminRole instead.")
      else
        let+ userRecord := getUser uid in
        if negb (JS.truthy (ur_email userRecord))
           || negb (arrayIncludes (ADMIN_EMAILS env)
                      (JS.toLowerCase (default "" (ur_email userRecord))))
        then sfail (HttpsError "permission-denied" "Your email is not in the admin list")
        else
          let email := default "" (ur_email userRecord) in
          let+ now := (fun s => (Done (serverTime s), s)) in
          exec setProfile uid
                (mkProfileDoc (Some email) (Some (displayNameOf userRecord email))
                   (Some true) (Some now)) then
          exec setCustomUserClaims uid true then
          sret tt
  end.

(** [createUserProfile] (the callable function); the result is the
    [isAdmin] of [{ success: true, isAdmin }]. *)
Definition createUserProfileCallable (env : option string) (auth : option string)
    : Srv bool :=
  match auth with
  | None => sfail (HttpsError "unauthenticated" "Must be authenticated")
  | Some uid =>
      let+ userRecord := getUser uid in
      let email :=
        if JS.truthy (ur_email userRecord)
        then JS.toLowerCase (default "" (ur_email userRecord)) else "" in
      let isAdmin := arrayIncludes (ADMIN_EMAILS env) email in
      let displayName :=
        if JS.truthy (ur_displayName userRecord) then default "" (ur_displayName userRecord)
        else if JS.truthy (Some (beforeAt email)) then beforeAt email
        else "User" in
      let+ now := (fun s => (Done (serverTime s), s)) in
      exec setProfile uid
            (mkProfileDoc
               (Some (if JS.truthy (ur_email userRecord)
                      then default "" (ur_email userRecord) else ""))
               (Some displayName) (Some isAdmin) (Some now)) then
      exec (if isAdmin then setCustomUserClaims uid true else sret tt) then
      sret isAdmin
  end.

(** The profile documents whose [isAdmin] is [true]. *)
Definition adminProfiles (s : Server) : gmap string ProfileDoc :=
  filter (fun kv => pf_isAdmin kv.2 = Some true) (profiles s).

(** A server with two registered users and no profile yet; the admin list
    names the first user, in another letter case and with spaces around. *)
Definition officeServer : Server :=
  mkServer ∅
    (<["u1" := mkUserRecord (Some "Ada@Example.com") None]>
       (<["u2" := mkUserRecord (Some "bob@elsewhere.org") (Some "Bob")]> ∅))
    ∅ 100 [].

Definition officeEnv : option string := Some " ada@example.com ,root@example.com".

(** The same server after both users got a profile and the first one the
    admin role. *)
Definition staffedServer : Server :=
  mkServer
    (<["u1" := mkProfileDoc (Some "Ada@Example.com") (Some "Ada") (Some true) (Some 100)]>
       (<["u2" := mkProfileDoc (Some "bob@elsewhere.org") (Some "Bob") (Some false)
                    (Some 101)]> ∅))
    (authUsers officeServer) (<["u1" := true]> ∅) 102 [].

(** * Properties *)

(** ** The world under its updates *)

Lemma notesOf_setNotes r m w : notesOf r (setNotes r m w) = m.
Proof. destruct r; simpl; [by rewrite lookup_insert_eq | done]. Qed.

Lemma notesOf_setNotes_ne r r' m w : r ≠ r' -> notesOf r' (setNotes r m w) = notesOf r' w.
Proof.
  intros Hne. destruct r as [u|], r' as [u'|]; simpl; try done.
  rewrite lookup_insert_ne; [done | congruence].
Qed.

Lemma notesOf_setCats r c m w : notesOf r (setCats c m w) = notesOf r w.
Proof. by destruct r, c. Qed.

Lemma notesOf_setFaults r fs w : notesOf r (setFaults fs w) = notesOf r w.
Proof. by destruct r. Qed.

Lemma notesOf_record r e w : notesOf r (record e w) = notesOf r w.
Proof. by destruct r. Qed.

Lemma catsOf_setCats r m w : catsOf r (setCats r m w) = m.
Proof. destruct r; simpl; [by rewrite lookup_insert_eq | done]. Qed.

Lemma catsOf_setCats_ne r r' m w : r ≠ r' -> catsOf r' (setCats r m w) = catsOf r' w.
Proof.
  intros Hne. destruct r as [u|], r' as [u'|]; simpl; try done.
  rewrite lookup_insert_ne; [done | congruence].
Qed.

Lemma catsOf_setNotes r c m w : catsOf c (setNotes r m w) = catsOf c w.
Proof. by destruct r, c. Qed.

Lemma catsOf_setFaults c fs w : catsOf c (setFaults fs w) = catsOf c w.
Proof. by destruct c. Qed.

Lemma catsOf_record c e w : catsOf c (record e w) = catsOf c w.
Proof. by destruct c. Qed.

Lemma faults_setNotes r m w : faults (setNotes r m w) = faults w.
Proof. by destruct r. Qed.

Lemma faults_setCats r m w : faults (setCats r m w) = faults w.
Proof. by destruct r. Qed.

Lemma clock_setNotes r m w : clock (setNotes r m w) = clock w.
Proof. by destruct r. Qed.

Lemma clock_setCats r m w : clock (setCats r m w) = clock w.
Proof. by destruct r. Qed.

Lemma trace_setNotes r m w : trace (setNotes r m w) = trace w.
Proof. by destruct r. Qed.

Lemma trace_setCats r m w : trace (setCats r m w) = trace w.
Proof. by destruct r. Qed.

Create Rewrite HintDb world.
#[export] Hint Rewrite notesOf_setNotes notesOf_setCats notesOf_setFaults notesOf_record
  catsOf_setCats catsOf_setNotes catsOf_setFaults catsOf_record
  faults_setNotes faults_setCats clock_setNotes clock_setCats
  trace_setNotes trace_setCats : world.

(** The identifier picked by [addDoc] is not in use in the collection. *)
Lemma fresh_not_used {A} (m : gmap string A) : m !! fresh (dom m) = None.
Proof. apply not_elem_of_dom, is_fresh. Qed.

Global Arguments notesOf : simpl never.
Global Arguments catsOf : simpl never.
Global Arguments setNotes : simpl never.
Global Arguments setCats : simpl never.
Global Arguments served : simpl never.
Global Arguments record : simpl never.

(** ** The requests, by the outcome of the next fault *)

Lemma notesOf_served r w : notesOf r (served w) = notesOf r w.
Proof. apply notesOf_setFaults. Qed.

Lemma catsOf_served c w : catsOf c (served w) = catsOf c w.
Proof. apply catsOf_setFaults. Qed.

Lemma faults_served w : faults (served w) = tl (faults w).
Proof. reflexivity. Qed.

Lemma faults_record e w : faults (record e w) = faults w.
Proof. reflexivity. Qed.

Lemma trace_served w : trace (served w) = trace w.
Proof. reflexivity. Qed.

Lemma trace_record e w : trace (record e w) = (trace w ++ [e])%list.
Proof. reflexivity. Qed.

Lemma clock_served w : clock (served w) = clock w.
Proof. reflexivity. Qed.

Lemma clock_record e w : clock (record e w) = clock w.
Proof. reflexivity. Qed.

#[export] Hint Rewrite notesOf_served catsOf_served faults_served faults_record
  trace_served trace_record clock_served clock_record : world.

Lemma addDocNote_eq r d w :
  addDocNote r d w =
    if hd false (faults w) then (Throw StoreError, served w)
    else (Ok (fresh (dom (notesOf r w))),
          record (EvAddNote r (fresh (dom (notesOf r w))) d)
            (setNotes r (<[fresh (dom (notesOf r w)) := d]> (notesOf r w)) (served w))).
Proof.
  unfold addDocNote, bind, request. destruct (hd false (faults w)); [done|].
  by rewrite notesOf_served.
Qed.

Lemma deleteDocNote_eq r id w :
  deleteDocNote r id w =
    if hd false (faults w) then (Throw StoreError, served w)
    else (Ok tt, record (EvDeleteNote r id) (setNotes r (delete id (notesOf r w)) (served w))).
Proof.
  unfold deleteDocNote, bind, request. destruct (hd false (faults w)); [done|].
  by rewrite notesOf_served.
Qed.

Lemma addDocCategory_eq r d w :
  addDocCategory r d w =
    if hd false (faults w) then (Throw StoreError, served w)
    else (Ok (fresh (dom (catsOf r w))),
          record (EvAddCategory r (fresh (dom (catsOf r w))))
            (setCats r (<[fresh (dom (catsOf r w)) := d]> (catsOf r w)) (served w))).
Proof.
  unfold addDocCategory, bind, request. destruct (hd false (faults w)); [done|].
  by rewrite catsOf_served.
Qed.

Lemma deleteDocCategory_eq r id w :
  deleteDocCategory r id w =
    if hd false (faults w) then (Throw StoreError, served w)
    else (Ok tt,
          record (EvDeleteCategory r id) (setCats r (delete id (catsOf r w)) (served w))).
Proof.
  unfold deleteDocCategory, bind, request. destruct (hd false (faults w)); [done|].
  by rewrite catsOf_served.
Qed.

Lemma getDocsNotesWhere_eq r cid w :
  getDocsNotesWhere r cid w =
    if hd false (faults w) then (Throw StoreError, served w)
    else (Ok (map_to_list (filter (fun kv => nd_categoryId kv.2 = Some cid) (notesOf r w))),
          record (EvQueryNotes r) (served w)).
Proof.
  unfold getDocsNotesWhere, bind, request. destruct (hd false (faults w)); [done|].
  by rewrite notesOf_served.
Qed.

Lemma updateDocNote_eq r id upd w :
  updateDocNote r id upd w =
    if hd false (faults w) then (Throw StoreError, served w)
    else match notesOf r w !! id with
         | Some old =>
             (Ok tt, record (EvUpdateNote r id)
                       (setNotes r (<[id := mergeNote upd old]> (notesOf r w)) (served w)))
         | None => (Throw NotFound, served w)
         end.
Proof.
  unfold updateDocNote, bind, request. destruct (hd false (faults w)); [done|].
  by rewrite notesOf_served.
Qed.

(** ** Visibility of a created note *)

(** C4. On the create path of [saveNote] (no usable [note.id]) a served
    write creates the note in the public collection exactly when [isAdmin]
    and [categoryIsPublic] are both true, and in the user's private
    collection otherwise; the returned [isPublic] is that choice, the other
    collection is left as it was, and a non-admin always gets a private
    note. *)
Theorem saveNote_create_visibility userId note isAdmin categoryIsPublic w :
  JS.truthy (nd_id note) = false ->
  hd false (faults w) = false ->
  let pub := JS.truthyB isAdmin && JS.truthyB categoryIsPublic in
  let target := if pub then PublicNotes else UserNotes userId in
  let other := if pub then UserNotes userId else PublicNotes in
  (exists id w',
      saveNote userId note isAdmin categoryIsPublic w = (Ok (id, pub), w')
      /\ notesOf target w !! id = None
      /\ notesOf target w' = <[id := stamped note userId pub (clock w) (clock w)]> (notesOf target w)
      /\ nd_isPublic (stamped note userId pub (clock w) (clock w)) = Some pub
      /\ notesOf other w' = notesOf other w)
  /\ (JS.truthyB isAdmin = false -> pub = false).
Proof.
  intros Hid Hf pub target other. split.
  - unfold saveNote. rewrite Hid. fold pub.
    destruct pub eqn:Hpub; subst target other;
      unfold bind, Date_now, ret, removeUndefined;
      rewrite addDocNote_eq, Hf;
      eexists _, _; (split; [reflexivity|]);
      autorewrite with world; repeat split; try done;
      try apply fresh_not_used; by rewrite notesOf_setNotes_ne, notesOf_served.
  - intros Hadm. subst pub. by rewrite Hadm.
Qed.

(** ** AI configuration gating *)

Lemma isConfigured_blank t key c : JS.trim key = "" -> isConfigured (mkProvider t key c) = false.
Proof. intros H. unfold isConfigured; simpl. rewrite H. apply andb_false_r. Qed.

Lemma configure_blank svc settings :
  blank (geminiApiKey settings) -> blank (chatgptApiKey settings) ->
  providers (configure svc settings) = [].
Proof.
  intros Hg Hc. unfold configure, newGeminiProvider, newChatGPTProvider.
  destruct (geminiApiKey settings) as [g|], (chatgptApiKey settings) as [c|];
    simpl in *; repeat rewrite (isConfigured_blank _ _ _ Hg);
    repeat rewrite (isConfigured_blank _ _ _ Hc);
    repeat match goal with |- context [if ?b then _ else _] => destruct b end;
    reflexivity.
Qed.

(** C7. With no registered provider, [enhance(context)] throws the
    no-provider error and leaves the world as it was: no backend is called
    and no reply is consumed. [configure] with credentials that are blank
    after trimming registers no provider; so does [geminiApiKey = "   "]. *)
Theorem enhance_gated_by_configuration svc context w svc0 settings :
  providers svc = [] ->
  blank (geminiApiKey settings) ->
  blank (chatgptApiKey settings) ->
  enhance svc context None w
    = (Throw (JsError "No AI provider is configured. Please add your API key in Settings."), w)
  /\ providers (configure svc0 settings) = []
  /\ hasAnyProvider (configure svc0 settings) = false
  /\ providers (configure svc0 (mkUserAISettings (Some "   ") None None)) = [].
Proof.
  intros Hp Hg Hc. split; [|split; [|split]].
  - unfold enhance, getPreferredProvider. rewrite Hp. simpl.
    by destruct (preferred svc).
  - by apply configure_blank.
  - unfold hasAnyProvider. by rewrite configure_blank.
  - by apply configure_blank.
Qed.

(** ** Round trip of the AI settings *)

Lemma orUndefined_orNull o : orUndefined (orNull o) = JS.orElseNone o.
Proof.
  unfold orNull, orUndefined, JS.orElseNone.
  destruct o as [s|]; simpl; [|done].
  destruct (negb (String.eqb s "")) eqn:E; simpl; [by rewrite E | done].
Qed.

Lemma orUndefinedProvider_orNull o : orUndefinedProvider (orNullProvider o) = o.
Proof. by destruct o. Qed.

Lemma orElseNone_truthy o : JS.truthy o = true -> JS.orElseNone o = o.
Proof. unfold JS.orElseNone. by intros ->. Qed.

Lemma orElseNone_falsy o : JS.truthy o = false -> JS.orElseNone o = None.
Proof. unfold JS.orElseNone. by intros ->. Qed.

Lemma orNull_falsy o : JS.truthy o = false -> orNull o = Null.
Proof. unfold orNull. intros H. by rewrite orElseNone_falsy. Qed.

Lemma configure_without_key svc settings :
  (geminiApiKey settings = None -> mapGet gemini (providers (configure svc settings)) = None)
  /\ (chatgptApiKey settings = None -> mapGet chatgpt (providers (configure svc settings)) = None).
Proof.
  unfold configure. split; intros ->; simpl.
  - destruct (JS.truthy (chatgptApiKey settings)); [|done].
    by destruct (isConfigured _).
  - destruct (JS.truthy (geminiApiKey settings)); [|done].
    by destruct (isConfigured _).
Qed.

(** C10. When the write and the read are served, [saveUserAISettings]
    followed by [fetchUserAISettings] returns the settings with every
    non-empty credential and the preferred provider unchanged; a credential
    that was absent or empty is stored as [null] and read back as absent,
    and [configure] on the settings read back registers no provider for
    it. *)
Theorem aiSettings_round_trip userId settings svc w :
  hd false (faults w) = false ->
  hd false (tl (faults w)) = false ->
  exists w1 w2 doc,
    saveUserAISettings userId settings w = (Ok tt, w1)
    /\ aiSettings w1 !! userId = Some doc
    /\ fetchUserAISettings userId w1 = (Ok (Some (normalised settings)), w2)
    /\ preferredProvider (normalised settings) = preferredProvider settings
    /\ (JS.truthy (geminiApiKey settings) = true ->
        geminiApiKey (normalised settings) = geminiApiKey settings)
    /\ (JS.truthy (chatgptApiKey settings) = true ->
        chatgptApiKey (normalised settings) = chatgptApiKey settings)
    /\ (JS.truthy (geminiApiKey settings) = false ->
        sd_geminiApiKey doc = Null
        /\ geminiApiKey (normalised settings) = None
        /\ mapGet gemini (providers (configure svc (normalised settings))) = None)
    /\ (JS.truthy (chatgptApiKey settings) = false ->
        sd_chatgptApiKey doc = Null
        /\ chatgptApiKey (normalised settings) = None
        /\ mapGet chatgpt (providers (configure svc (normalised settings))) = None).
Proof.
  intros Hf1 Hf2.
  set (clean := mkAISettingsDoc (orNull (geminiApiKey settings))
                  (orNull (chatgptApiKey settings))
                  (orNullProvider (preferredProvider settings)) (Val (clock w))).
  set (doc := match aiSettings w !! userId with
              | Some old => mergeSettings clean old
              | None => clean
              end).
  assert (Hg : sd_geminiApiKey doc = orNull (geminiApiKey settings)).
  { subst doc. destruct (aiSettings w !! userId); [|done].
    simpl. unfold orNull. by destruct (JS.orElseNone _). }
  assert (Hc : sd_chatgptApiKey doc = orNull (chatgptApiKey settings)).
  { subst doc. destruct (aiSettings w !! userId); [|done].
    simpl. unfold orNull. by destruct (JS.orElseNone _). }
  assert (Hp : sd_preferredProvider doc = orNullProvider (preferredProvider settings)).
  { subst doc. destruct (aiSettings w !! userId); [|done].
    simpl. by destruct (preferredProvider settings). }
  eexists _, _, doc. split; [|split; [|split]].
  - unfold saveUserAISettings, bind, Date_now, setDocSettingsMerge, bind, request,
      removeUndefined.
    rewrite Hf1. reflexivity.
  - simpl. apply lookup_insert_eq.
  - unfold fetchUserAISettings, tryCatch, fetchUserAISettings_try, bind, getDocSettings,
      bind, request.
    simpl. rewrite Hf2. simpl. rewrite lookup_insert_eq. unfold ret.
    fold clean. fold doc.
    rewrite Hg, Hc, Hp, !orUndefined_orNull, orUndefinedProvider_orNull. reflexivity.
  - repeat split.
    + intros H. simpl. by apply orElseNone_truthy.
    + intros H. simpl. by apply orElseNone_truthy.
    + rewrite Hg. by apply orNull_falsy.
    + simpl. by apply orElseNone_falsy.
    + apply configure_without_key. simpl. by apply orElseNone_falsy.
    + rewrite Hc. by apply orNull_falsy.
    + simpl. by apply orElseNone_falsy.
    + apply configure_without_key. simpl. by apply orElseNone_falsy.
Qed.

(** ** Publishing a single note *)

(** What [toggleNotePublish] does when it moves a note to the other
    partition and both requests are served: the copy under the new
    identifier carries the category, title, content, [imageUrl], tags and
    [createdAt] of the note, the new flag and the current time; the source
    document is gone; the copy has no [images]. *)
Lemma toggleNotePublish_moves userId note w :
  hd false (faults w) = false ->
  hd false (tl (faults w)) = false ->
  let makePublic := negb (JS.truthyB (n_isPublic note)) in
  let src := if makePublic then UserNotes userId else PublicNotes in
  let dst := if makePublic then PublicNotes else UserNotes userId in
  exists newId w' d,
    toggleNotePublish userId note makePublic w = (Ok (newId, makePublic), w')
    /\ notesOf dst w' !! newId = Some d
    /\ nd_categoryId d = Some (n_categoryId note)
    /\ nd_title d = Some (n_title note)
    /\ nd_content d = Some (n_content note)
    /\ nd_imageUrl d = n_imageUrl note
    /\ nd_tags d = n_tags note
    /\ nd_createdAt d = Some (n_createdAt note)
    /\ nd_updatedAt d = Some (clock w)
    /\ nd_isPublic d = Some makePublic
    /\ nd_images d = None
    /\ notesOf src w' !! n_id note = None.
Proof.
  intros Hf1 Hf2 makePublic src dst.
  unfold toggleNotePublish. subst makePublic src dst.
  destruct (JS.truthyB (n_isPublic note)) eqn:Hpub; simpl;
    unfold bind, Date_now, ret;
    rewrite addDocNote_eq, Hf1, deleteDocNote_eq;
    autorewrite with world; rewrite Hf2;
    eexists _, _, _; (split; [reflexivity|]);
    autorewrite with world;
    (split; [rewrite notesOf_setNotes_ne by done; autorewrite with world;
             apply lookup_insert_eq|]);
    repeat split; apply lookup_delete_eq.
Qed.

(** C3. Publishing the private note [galleryNote], which holds two images,
    returns the new identifier ["0"]; the document read under it in the
    public collection has the title, content and [imageUrl] of the note but
    no [images] property: the second image is lost. *)
Theorem toggleNotePublish_loses_images :
  n_images galleryNote = Some ["img1"; "img2"]
  /\ (toggleNotePublish "u1" galleryNote true galleryWorld).1 = Ok ("0", true)
  /\ publicNotes (toggleNotePublish "u1" galleryNote true galleryWorld).2 !! "0"
     = Some (mkNoteData None (Some "catA") (Some "Trip") (Some "Photos") (Some "img1")
               None (Some 1600000000000) (Some 1700000000000) None
               (Some true) (Some "u1"))
  /\ notesOf (UserNotes "u1") (toggleNotePublish "u1" galleryNote true galleryWorld).2 !! "n1"
     = None.
Proof. vm_compute. repeat split. Qed.

(** C2 (amended). [toggleNotePublish] with [makePublic = true] on a note
    that is already public returns [{newId, isPublic: true}] when the write
    is served and skips the delete, but it is not a no-op: it inserts a
    further copy of the note under a new identifier into the public
    collection, next to the document the note already has there. The
    private collections are not touched. *)
Theorem toggleNotePublish_already_public userId note w :
  JS.truthyB (n_isPublic note) = true ->
  hd false (faults w) = false ->
  exists newId w',
    toggleNotePublish userId note true w = (Ok (newId, true), w')
    /\ publicNotes w !! newId = None
    /\ publicNotes w'
       = <[newId := withIsPublic true (cleanNoteOf userId note (clock w))]> (publicNotes w)
    /\ (forall d, publicNotes w !! n_id note = Some d ->
          publicNotes w' !! n_id note = Some d /\ newId <> n_id note)
    /\ userNotes w' = userNotes w
    /\ trace w'
       = (trace w ++ [EvAddNote PublicNotes newId
                        (withIsPublic true (cleanNoteOf userId note (clock w)))])%list.
Proof.
  intros Hpub Hf. unfold toggleNotePublish. rewrite Hpub. simpl.
  unfold bind, Date_now, ret. rewrite addDocNote_eq, Hf.
  eexists _, _. split; [reflexivity|]. simpl.
  split; [apply fresh_not_used|]. split; [done|]. split; [|done].
  intros d Hd.
  assert (fresh (dom (publicNotes w)) <> n_id note) as Hne.
  { intros Heq. pose proof (fresh_not_used (publicNotes w)) as Hn.
    rewrite Heq in Hn. congruence. }
  split; [by rewrite lookup_insert_ne | done].
Qed.

(** C2 (as stated) fails: publishing the already public [publishedNote]
    again leaves its document ["n1"] in the public collection and adds a
    second document ["0"] with the same title and content. *)
Lemma toggleNotePublish_already_public_duplicates :
  n_isPublic publishedNote = Some true
  /\ (toggleNotePublish "admin" publishedNote true publishedWorld).1 = Ok ("0", true)
  /\ size (publicNotes publishedWorld) = 1%nat
  /\ size (publicNotes (toggleNotePublish "admin" publishedNote true publishedWorld).2) = 2%nat
  /\ publicNotes (toggleNotePublish "admin" publishedNote true publishedWorld).2 !! "n1"
     = Some publishedDoc
  /\ publicNotes (toggleNotePublish "admin" publishedNote true publishedWorld).2 !! "0"
     = Some (mkNoteData None (Some "catP") (Some "X") (Some "Y") None None
               (Some 1600000000000) (Some 1700000000000) None (Some true) (Some "admin")).
Proof. vm_compute. repeat split. Qed.

(** The amended statement at [publishedNote]. *)
Lemma toggleNotePublish_already_public_witness :
  JS.truthyB (n_isPublic publishedNote) = true
  /\ hd false (faults publishedWorld) = false
  /\ exists newId w',
       toggleNotePublish "admin" publishedNote true publishedWorld = (Ok (newId, true), w')
       /\ publicNotes w' !! "n1" = Some publishedDoc
       /\ newId <> "n1".
Proof.
  split; [reflexivity|]. split; [reflexivity|].
  destruct (toggleNotePublish_already_public "admin" publishedNote publishedWorld
              eq_refl eq_refl) as (newId & w' & Hrun & _ & _ & Hold & _).
  exists newId, w'. split; [exact Hrun|].
  apply (Hold publishedDoc). reflexivity.
Defined.

(** ** Worked scenarios for the statements above *)

Lemma saveNote_create_visibility_witness :
  JS.truthy (nd_id scenarioA_note) = false
  /\ hd false (faults emptyWorld) = false
  /\ exists id w',
       saveNote "user1" scenarioA_note (Some false) (Some true) emptyWorld
         = (Ok (id, false), w')
       /\ is_Some (notesOf (UserNotes "user1") w' !! id)
       /\ notesOf PublicNotes w' = notesOf PublicNotes emptyWorld.
Proof.
  split; [reflexivity|]. split; [reflexivity|].
  destruct (saveNote_create_visibility "user1" scenarioA_note (Some false) (Some true)
              emptyWorld eq_refl eq_refl)
    as [(id & w' & Hrun & _ & Hstore & _ & Hother) _].
  exists id, w'. simpl in *. split; [exact Hrun|]. split; [|exact Hother].
  rewrite Hstore, lookup_insert_eq. eauto.
Defined.

(** A service that was never configured, and settings whose only
    credential is three spaces. *)
Lemma enhance_gated_by_configuration_witness :
  providers (mkAIService [] None) = []
  /\ blank (geminiApiKey (mkUserAISettings (Some "   ") None (Some gemini)))
  /\ blank (chatgptApiKey (mkUserAISettings (Some "   ") None (Some gemini)))
  /\ enhance (mkAIService [] None) (mkAIRequestContext (Some "t") (Some "c") None None)
       None emptyWorld
     = (Throw (JsError "No AI provider is configured. Please add your API key in Settings."),
        emptyWorld)
  /\ providers (configure (mkAIService [] None)
                  (mkUserAISettings (Some "   ") None (Some gemini))) = [].
Proof.
  split; [reflexivity|]. split; [reflexivity|]. split; [exact I|].
  destruct (enhance_gated_by_configuration (mkAIService [] None)
              (mkAIRequestContext (Some "t") (Some "c") None None) emptyWorld
              (mkAIService [] None) (mkUserAISettings (Some "   ") None (Some gemini))
              eq_refl eq_refl I) as (H1 & H2 & _).
  split; [exact H1 | exact H2].
Defined.

(** A user who keeps a Gemini key and clears the ChatGPT key. *)
Lemma aiSettings_round_trip_witness :
  hd false (faults emptyWorld) = false
  /\ hd false (tl (faults emptyWorld)) = false
  /\ exists w1 w2,
       saveUserAISettings "u1" (mkUserAISettings (Some "AIza-key") (Some "") (Some gemini))
         emptyWorld = (Ok tt, w1)
       /\ fetchUserAISettings "u1" w1
          = (Ok (Some (mkUserAISettings (Some "AIza-key") None (Some gemini))), w2).
Proof.
  split; [reflexivity|]. split; [reflexivity|].
  destruct (aiSettings_round_trip "u1"
              (mkUserAISettings (Some "AIza-key") (Some "") (Some gemini))
              (mkAIService [] None) emptyWorld eq_refl eq_refl)
    as (w1 & w2 & doc & Hsave & _ & Hfetch & _).
  exists w1, w2. split; [exact Hsave | exact Hfetch].
Defined.

(** ** Search *)

Lemma startsWith_spec s p :
  JS.startsWith s p = true <-> exists post, s = String.append p post.
Proof.
  revert s. induction p as [|b p IH]; intros s; simpl.
  - split; [intros _; by exists s | by destruct s].
  - destruct s as [|a s]; simpl.
    + split; [done | by intros [post ?]].
    + rewrite andb_true_iff, Ascii.eqb_eq, IH. split.
      * intros [-> [post ->]]. by exists post.
      * intros [post Heq]. injection Heq as -> ->. split; [done | by exists post].
Qed.

(** [includes] is the substring test. *)
Lemma includes_spec s sub :
  JS.includes s sub = true
  <-> exists pre post, s = String.append pre (String.append sub post).
Proof.
  induction s as [|a s IH].
  - change (JS.includes "" sub) with (JS.startsWith "" sub || false).
    rewrite orb_false_r, startsWith_spec. split.
    + intros [post ->]. by exists "", post.
    + intros [pre [post Heq]]. destruct pre; simpl in Heq; [by exists post | done].
  - change (JS.includes (String a s) sub)
      with (JS.startsWith (String a s) sub || JS.includes s sub).
    rewrite orb_true_iff, IH, startsWith_spec. split.
    + intros [[post ->] | [pre [post ->]]].
      * by exists "", post.
      * by exists (String a pre), post.
    + intros [pre [post Heq]]. destruct pre as [|c pre]; simpl in Heq.
      * left. by exists post.
      * right. injection Heq as -> ->. by exists pre, post.
Qed.

Lemma filteredNotes_In st n :
  In n (filteredNotes st)
  <-> In n (notes st)
      /\ (forall a, activeCategoryId st = Some a -> a <> "" -> n_categoryId n = a)
      /\ (occursIn (searchQuery st) (n_title n) \/ occursIn (searchQuery st) (n_content n)).
Proof.
  unfold filteredNotes, occursIn, substringOf.
  rewrite !filter_In, orb_true_iff, !includes_spec.
  assert ((if JS.truthy (activeCategoryId st)
           then String.eqb (n_categoryId n) (default "" (activeCategoryId st))
           else true) = true
          <-> (forall a, activeCategoryId st = Some a -> a <> "" -> n_categoryId n = a)) as ->.
  { destruct (activeCategoryId st) as [a|]; simpl; [|by split].
    destruct (String.eqb_spec a "") as [->|Hne]; simpl.
    - split; [|done]. intros _ a' [= <-] Hne. done.
    - rewrite String.eqb_eq. split.
      + by intros -> a' [= <-] _.
      + intros H. by apply H. }
  tauto.
Qed.

Lemma searchResults_In searchQuery categories notes :
  JS.trim searchQuery <> "" ->
  let query := JS.trim (JS.toLowerCase searchQuery) in
  exists matchedCategories matchedNotes,
    searchResults searchQuery categories notes = Some (matchedCategories, matchedNotes)
    /\ (forall c, In c matchedCategories
                  <-> In c categories /\ substringOf query (JS.toLowerCase (c_name c)))
    /\ (forall n, In n matchedNotes
                  <-> In n notes
                      /\ (substringOf query (JS.toLowerCase (n_title n))
                          \/ substringOf query (JS.toLowerCase (n_content n))
                          \/ substringOf query (categoryNameOf categories n)
                          \/ exists tags tag,
                               n_tags n = Some tags /\ In tag tags
                               /\ substringOf query (JS.toLowerCase tag))).
Proof.
  intros Hq query. unfold searchResults. cbn [JS.truthy].
  destruct (String.eqb_spec (JS.trim searchQuery) "") as [|_]; [done|]. cbn [negb].
  eexists _, _. split; [reflexivity|]. fold query. unfold substringOf. split.
  - intros c. by rewrite filter_In, includes_spec.
  - intros n. rewrite filter_In, !orb_true_iff, !includes_spec.
    fold (categoryNameOf categories n).
    assert (match n_tags n with
            | Some tags => existsb (fun tag => JS.includes (JS.toLowerCase tag) query) tags
            | None => false
            end = true
            <-> exists tags tag,
                  n_tags n = Some tags /\ In tag tags
                  /\ exists pre post,
                       JS.toLowerCase tag = String.append pre (String.append query post)) as ->.
    { destruct (n_tags n) as [tags|].
      - rewrite existsb_exists. split.
        + intros (tag & Hin & Hinc). apply includes_spec in Hinc. by exists tags, tag.
        + intros (tags' & tag & [= <-] & Hin & Hsub). exists tag.
          split; [done | by apply includes_spec].
      - split; [done | by intros (? & ? & ? & _)]. }
    tauto.
Qed.

Lemma searchResults_blank searchQuery categories notes :
  JS.trim searchQuery = "" -> searchResults searchQuery categories notes = None.
Proof. intros H. unfold searchResults. cbn [JS.truthy]. by rewrite H. Qed.

(** C9 (amended). Search is a function of the in-memory snapshot alone: it
    takes no world and runs no request. The search of the category view,
    [filteredNotes], keeps exactly the notes of the active category, if
    there is one, whose title or content contains the query, case ignored;
    tags and the category name are not consulted there. The search of the
    dashboard, [searchResults], on a query that is not blank, keeps exactly
    the notes whose title, content, category name or one of whose tags
    contains the trimmed query, case ignored; on a blank query it returns
    nothing. *)
Theorem search_is_in_memory_filter :
  (forall st n,
      In n (filteredNotes st)
      <-> In n (notes st)
          /\ (forall a, activeCategoryId st = Some a -> a <> "" -> n_categoryId n = a)
          /\ (occursIn (searchQuery st) (n_title n)
              \/ occursIn (searchQuery st) (n_content n)))
  /\ (forall searchQuery categories notes,
        JS.trim searchQuery <> "" ->
        exists matchedCategories matchedNotes,
          searchResults searchQuery categories notes = Some (matchedCategories, matchedNotes)
          /\ forall n,
               In n matchedNotes
               <-> In n notes
                   /\ (let query := JS.trim (JS.toLowerCase searchQuery) in
                       substringOf query (JS.toLowerCase (n_title n))
                       \/ substringOf query (JS.toLowerCase (n_content n))
                       \/ substringOf query (categoryNameOf categories n)
                       \/ exists tags tag,
                            n_tags n = Some tags /\ In tag tags
                            /\ substringOf query (JS.toLowerCase tag)))
  /\ (forall searchQuery categories notes,
        JS.trim searchQuery = "" -> searchResults searchQuery categories notes = None).
Proof.
  split; [|split].
  - apply filteredNotes_In.
  - intros q cats ns Hq.
    destruct (searchResults_In q cats ns Hq) as (mc & mn & Hrun & _ & Hn).
    by exists mc, mn.
  - apply searchResults_blank.
Qed.

(** C9 (as stated) fails for [filteredNotes]: the queries "math" (a tag of
    the note) and "science" (the name of its category) find nothing, while
    the query "ALGEBRA" finds the note by its title. *)
Lemma filteredNotes_ignores_tags_and_category_name :
  n_tags algebraNote = Some ["math"]
  /\ c_name scienceCategory = "Science"
  /\ filteredNotes (mkAppState (Some "u1") CATEGORY_DETAIL (Some "c1") "math"
                      [algebraNote] [scienceCategory]) = []
  /\ filteredNotes (mkAppState (Some "u1") CATEGORY_DETAIL (Some "c1") "science"
                      [algebraNote] [scienceCategory]) = []
  /\ filteredNotes (mkAppState (Some "u1") CATEGORY_DETAIL (Some "c1") "ALGEBRA"
                      [algebraNote] [scienceCategory]) = [algebraNote].
Proof. vm_compute. repeat split. Qed.

(** The search of the dashboard, [searchResults], does consult tags and
    category names. *)
Lemma searchResults_finds_tags_and_category_name :
  searchResults "math" [scienceCategory] [algebraNote]
    = Some ([], [algebraNote])
  /\ searchResults " Science " [scienceCategory] [algebraNote]
     = Some ([scienceCategory], [algebraNote])
  /\ searchResults "   " [scienceCategory] [algebraNote] = None.
Proof. vm_compute. repeat split. Qed.

(** ** Deleting a category *)

Lemma allServed_nil w : faults w = [] -> allServed w.
Proof. unfold allServed. intros ->. constructor. Qed.

Lemma allServed_hd w : allServed w -> hd false (faults w) = false.
Proof. unfold allServed. by destruct 1. Qed.

Lemma allServed_served w : allServed w -> allServed (served w).
Proof.
  unfold allServed. rewrite faults_served. destruct 1; simpl; [constructor | done].
Qed.

Lemma allServed_record e w : allServed w -> allServed (record e w).
Proof. done. Qed.

Lemma allServed_setNotes r m w : allServed w -> allServed (setNotes r m w).
Proof. unfold allServed. by rewrite faults_setNotes. Qed.

Lemma allServed_setCats r m w : allServed w -> allServed (setCats r m w).
Proof. unfold allServed. by rewrite faults_setCats. Qed.

Create HintDb served.
#[export] Hint Resolve allServed_hd allServed_served allServed_record allServed_setNotes
  allServed_setCats : served.

(** The updates awaited by [Promise.all], when all are served and each
    document exists: every listed document is merged with [upd], nothing
    else changes. *)
Lemma promiseAll_updates r upd (l : list (string * NoteData)) w :
  allServed w ->
  NoDup l.*1 ->
  (forall id d, (id, d) ∈ l -> notesOf r w !! id = Some d) ->
  exists w',
    promiseAll (map (fun d => updateDocNote r d.1 upd) l) w = (Ok tt, w')
    /\ allServed w'
    /\ (forall id d, (id, d) ∈ l -> notesOf r w' !! id = Some (mergeNote upd d))
    /\ (forall id, id ∉ l.*1 -> notesOf r w' !! id = notesOf r w !! id)
    /\ (forall c, catsOf c w' = catsOf c w)
    /\ trace w' = (trace w ++ map (fun d => EvUpdateNote r d.1) l)%list.
Proof.
  revert w. induction l as [|[id d] l IH]; intros w Hs Hnd Hin.
  - exists w. simpl. rewrite app_nil_r. repeat split; try done.
    intros ? ? H. by apply elem_of_nil in H.
  - apply NoDup_cons in Hnd as [Hid Hnd]. simpl in Hid.
    set (w1 := record (EvUpdateNote r id)
                 (setNotes r (<[id := mergeNote upd d]> (notesOf r w)) (served w))).
    assert (Hrun : updateDocNote r id upd w = (Ok tt, w1)).
    { rewrite updateDocNote_eq, (allServed_hd w Hs), (Hin id d); [done | left]. }
    destruct (IH w1) as (w' & Hrest & Hs' & Hupd & Hother & Hcats & Htrace).
    + subst w1. auto with served.
    + done.
    + intros id' d' Hel. subst w1. autorewrite with world.
      rewrite lookup_insert_ne.
      * apply Hin. by right.
      * intros ->. apply Hid. apply list_elem_of_fmap. by exists (id', d').
    + exists w'. simpl. rewrite Hrun, Hrest. split; [done|]. split; [done|].
      split; [|split; [|split]].
      * intros id' d' Hel. apply elem_of_cons in Hel as [[= -> ->] | Hel]; [|by apply Hupd].
        rewrite Hother by done. subst w1. autorewrite with world.
        apply lookup_insert_eq.
      * intros id' Hnot. apply not_elem_of_cons in Hnot as [Hne Hnot].
        rewrite Hother by done. subst w1. autorewrite with world.
        by rewrite lookup_insert_ne.
      * intros c. rewrite Hcats. subst w1. by autorewrite with world.
      * rewrite Htrace. subst w1. autorewrite with world.
        by rewrite <- app_assoc.
Qed.

(** [migrateNotesToCategory] when every request is served. *)
Lemma migrateNotesToCategory_served userId fromCatId toCatId w :
  allServed w ->
  let r := UserNotes userId in
  let docs := map_to_list (filter (fun kv => nd_categoryId kv.2 = Some fromCatId) (notesOf r w)) in
  exists w',
    migrateNotesToCategory userId fromCatId toCatId w = (Ok tt, w')
    /\ allServed w'
    /\ (forall id d, notesOf r w !! id = Some d ->
          notesOf r w' !! id
          = Some (if decide (nd_categoryId d = Some fromCatId)
                  then mergeNote (onlyCategoryId toCatId) d else d))
    /\ (forall c, catsOf c w' = catsOf c w)
    /\ trace w'
       = (trace w ++ EvQueryNotes r :: map (fun d => EvUpdateNote r d.1) docs)%list.
Proof.
  intros Hs r docs. unfold migrateNotesToCategory, bind.
  rewrite getDocsNotesWhere_eq, (allServed_hd w Hs). fold r docs.
  destruct (promiseAll_updates r (onlyCategoryId toCatId) docs
              (record (EvQueryNotes r) (served w)))
    as (w' & Hrun & Hs' & Hupd & Hother & Hcats & Htrace).
  - auto with served.
  - apply NoDup_fst_map_to_list.
  - intros id d Hel. autorewrite with world.
    apply elem_of_map_to_list, map_lookup_filter_Some in Hel. tauto.
  - exists w'. split; [done|]. split; [done|]. split; [|split].
    + intros id d Hd. destruct (decide (nd_categoryId d = Some fromCatId)) as [Hc|Hc].
      * apply Hupd. apply elem_of_map_to_list, map_lookup_filter_Some. done.
      * rewrite Hother; [by autorewrite with world|].
        intros Hel. apply list_elem_of_fmap in Hel as [[id' d'] [-> Hel]].
        apply elem_of_map_to_list, map_lookup_filter_Some in Hel as [Hd' Hc'].
        simpl in *. congruence.
    + intros c. rewrite Hcats. by autorewrite with world.
    + rewrite Htrace. autorewrite with world. by rewrite <- app_assoc.
Qed.

(** [handleDeleteCategory] when a signed-in user confirms the deletion of
    the category [id] and every request is served.
    - If another category [fb] exists, the handler first reassigns every
      private note of [id] to [fb] in the store (the notes keep everything
      else), mirrors that in the in-memory notes, and only then deletes the
      private category document: the delete is the last request of the
      trace.
    - If the list holds categories but none other than [id], the migration
      is skipped and the delete is issued all the same.
    - If the list is empty, or the user declines, nothing is requested. *)
Theorem handleDeleteCategory_spec uid id st w :
  user st = Some uid ->
  allServed w ->
  let r := UserNotes uid in
  let docs := map_to_list (filter (fun kv => nd_categoryId kv.2 = Some id) (notesOf r w)) in
  let others := List.filter (fun c => negb (String.eqb (c_id c) id)) (categories st) in
  (forall fb,
      List.find (fun c => negb (String.eqb (c_id c) id)) (categories st) = Some fb ->
      exists st' w',
        handleDeleteCategory true id st w = (Ok tt, st', w')
        /\ (forall nid d, notesOf r w !! nid = Some d ->
              notesOf r w' !! nid
              = Some (if decide (nd_categoryId d = Some id)
                      then mergeNote (onlyCategoryId (c_id fb)) d else d))
        /\ notes st' = reassigned id (c_id fb) (notes st)
        /\ catsOf (UserCategories uid) w' = delete id (catsOf (UserCategories uid) w)
        /\ categories st' = others
        /\ trace w'
           = (trace w ++ EvQueryNotes r :: map (fun d => EvUpdateNote r d.1) docs
                ++ [EvDeleteCategory (UserCategories uid) id])%list)
  /\ (List.find (fun c => negb (String.eqb (c_id c) id)) (categories st) = None ->
      categories st <> [] ->
      exists st' w',
        handleDeleteCategory true id st w = (Ok tt, st', w')
        /\ notesOf r w' = notesOf r w
        /\ notes st' = notes st
        /\ catsOf (UserCategories uid) w' = delete id (catsOf (UserCategories uid) w)
        /\ categories st' = others
        /\ trace w' = (trace w ++ [EvDeleteCategory (UserCategories uid) id])%list)
  /\ (categories st = [] -> handleDeleteCategory true id st w = (Ok tt, st, w))
  /\ handleDeleteCategory false id st w = (Ok tt, st, w).
Proof.
  intros Hu Hs r docs others. split; [|split; [|split]].
  - intros fb Hfb. unfold handleDeleteCategory. rewrite Hu, Hfb.
    destruct (categories st) as [|c0 cs] eqn:Hcs; [done|].
    cbn [length Nat.leb].
    destruct (migrateNotesToCategory_served uid id (c_id fb) w Hs)
      as (w1 & Hrun & Hs1 & Hnotes & Hcats & Htrace).
    rewrite Hrun. unfold deleteCategory. cbn [JS.truthyB].
    rewrite deleteDocCategory_eq, (allServed_hd w1 Hs1).
    eexists _, _. split; [reflexivity|]. autorewrite with world.
    split; [done|]. split; [done|]. split; [by rewrite Hcats|].
    split.
    { subst others. simpl. by rewrite Hcs. }
    rewrite Htrace. fold r docs. by rewrite <- app_assoc.
  - intros Hnone Hne. unfold handleDeleteCategory. rewrite Hu, Hnone.
    destruct (categories st) as [|c0 cs] eqn:Hcs; [done|].
    cbn [length Nat.leb]. unfold deleteCategory. cbn [JS.truthyB].
    rewrite deleteDocCategory_eq, (allServed_hd w Hs).
    eexists _, _. split; [reflexivity|]. autorewrite with world.
    repeat split; done.
  - intros Hnil. unfold handleDeleteCategory. by rewrite Hu, Hnil.
  - unfold handleDeleteCategory. rewrite Hu.
    by destruct (length (categories st) <=? 0)%nat.
Qed.

(** C6. [handleDeleteCategory] does not refuse the deletion when there is
    no fallback category. In [lonelyState] the user "u1" has the single
    category "c1", which holds the note "n1", and confirms its deletion:
    no other category is found, the migration is skipped, and the delete is
    issued all the same. The category is removed from the store and from
    memory, and the note "n1" still refers to it. *)
Lemma handleDeleteCategory_without_fallback_deletes :
  List.find (fun c => negb (String.eqb (c_id c) "c1")) (categories lonelyState) = None
  /\ (handleDeleteCategory true "c1" lonelyState lonelyWorld).1.1 = Ok tt
  /\ trace (handleDeleteCategory true "c1" lonelyState lonelyWorld).2
     = [EvDeleteCategory (UserCategories "u1") "c1"]
  /\ catsOf (UserCategories "u1") (handleDeleteCategory true "c1" lonelyState lonelyWorld).2
     = ∅
  /\ categories (handleDeleteCategory true "c1" lonelyState lonelyWorld).1.2 = []
  /\ notesOf (UserNotes "u1") (handleDeleteCategory true "c1" lonelyState lonelyWorld).2 !! "n1"
     = Some algebraDoc.
Proof. vm_compute. repeat split. Qed.

Lemma handleDeleteCategory_spec_witness :
  user twoCategoriesState = Some "u1"
  /\ allServed lonelyWorld
  /\ exists st' w',
       handleDeleteCategory true "c1" twoCategoriesState lonelyWorld = (Ok tt, st', w')
       /\ (nd_categoryId <$> notesOf (UserNotes "u1") w' !! "n1") = Some (Some "c2")
       /\ notes st' = [withCategoryId "c2" algebraNote]
       /\ categories st' = [inboxCategory].
Proof.
  split; [reflexivity|]. split; [by apply allServed_nil|].
  destruct (handleDeleteCategory_spec "u1" "c1" twoCategoriesState lonelyWorld
              eq_refl (allServed_nil lonelyWorld eq_refl)) as [Hfb _].
  destruct (Hfb inboxCategory eq_refl) as (st' & w' & Hrun & Hstore & Hmem & _ & Hcats & _).
  exists st', w'. split; [exact Hrun|]. split; [|split; [exact Hmem | exact Hcats]].
  rewrite (Hstore "n1" algebraDoc eq_refl). reflexivity.
Defined.

(** ** Read paths *)

Lemma getDocsCategoriesOrdered_eq r w :
  getDocsCategoriesOrdered r w =
    if hd false (faults w) then (Throw StoreError, served w)
    else (Ok (byCreatedAtAsc (catsOf r w)), record (EvQueryCategories r) (served w)).
Proof.
  unfold getDocsCategoriesOrdered, bind, request. destruct (hd false (faults w)); [done|].
  by rewrite catsOf_served.
Qed.

Lemma getDocsNotesOrdered_eq r w :
  getDocsNotesOrdered r w =
    if hd false (faults w) then (Throw StoreError, served w)
    else (Ok (byUpdatedAtDesc (notesOf r w)), record (EvQueryNotes r) (served w)).
Proof.
  unfold getDocsNotesOrdered, bind, request. destruct (hd false (faults w)); [done|].
  by rewrite notesOf_served.
Qed.

Global Instance createdAtLe_total : Total createdAtLe.
Proof. intros a b. unfold createdAtLe. lia. Qed.

Global Instance createdAtLe_trans : Transitive createdAtLe.
Proof. intros a b c. unfold createdAtLe. lia. Qed.

Lemma byCreatedAtAsc_sorted flag m :
  StronglySorted createdNotAfter (map (categoryOfDoc flag) (byCreatedAtAsc m)).
Proof.
  apply (StronglySorted_fmap _ createdAtLe); [done|].
  apply StronglySorted_merge_sort; apply _.
Qed.

Lemma byCreatedAtAsc_perm flag m :
  map (categoryOfDoc flag) (byCreatedAtAsc m)
  ≡ₚ map (categoryOfDoc flag) (List.filter hasCreatedAt (map_to_list m)).
Proof. apply fmap_Permutation, merge_sort_Permutation. Qed.

Lemma categoryOfDoc_tagged flag l :
  Forall (fun c => cd_isPublic c = Some flag) (map (categoryOfDoc flag) l).
Proof. apply Forall_fmap, Forall_true. done. Qed.

Lemma List_filter_sublist {A} (f : A -> bool) (l : list A) : sublist (List.filter f l) l.
Proof.
  induction l as [|x l IH]; simpl; [constructor|].
  destruct (f x); by constructor.
Qed.

(** The documents that the ordered query returns are the documents of the
    collection that have a [createdAt], each once, and the read path turns
    each of them into the category that stands for it. *)
Lemma byCreatedAtAsc_listed flag (m : gmap string CategoryData) :
  Forall2 (listedCategory flag) (byCreatedAtAsc m) (map (categoryOfDoc flag) (byCreatedAtAsc m))
  /\ NoDup (byCreatedAtAsc m).*1
  /\ (forall id d, (id, d) ∈ byCreatedAtAsc m
                   <-> m !! id = Some d /\ is_Some (cd_createdAt d)).
Proof.
  split; [|split].
  - apply Forall2_fmap_r, Forall_Forall2_diag, Forall_forall. intros [id d] _.
    unfold listedCategory, categoryOfDoc. simpl. by destruct (cd_id d).
  - unfold byCreatedAtAsc. rewrite merge_sort_Permutation.
    apply (sublist_NoDup _ (map_to_list m).*1); [apply NoDup_fst_map_to_list|].
    apply fmap_sublist, List_filter_sublist.
  - intros id d. unfold byCreatedAtAsc. rewrite merge_sort_Permutation.
    rewrite list_elem_of_In, filter_In, <- list_elem_of_In, elem_of_map_to_list.
    unfold hasCreatedAt. cbn [snd]. by rewrite bool_decide_eq_true.
Qed.

(** C8. The four read paths never throw: each returns a list, which is
    empty as soon as one of its queries fails. When both queries are served,
    [fetchCategories] returns the public categories followed by the private
    categories of the user. Each part stands, one for one and in this order,
    for the documents of its partition (those that have the [createdAt] the
    query orders on, each once): a returned category has the name, color,
    icon, owner and creation time of its document, its identifier as [id],
    and the [isPublic] of the partition; and each part is in ascending
    [createdAt] order. *)
Theorem read_paths_never_throw userId w :
  let f1 := hd false (faults w) in
  let f2 := hd false (tl (faults w)) in
  let pubC := map (categoryOfDoc true) (byCreatedAtAsc (catsOf PublicCategories w)) in
  let privC := map (categoryOfDoc false) (byCreatedAtAsc (catsOf (UserCategories userId) w)) in
  let pubN := map (noteOfDoc true) (byUpdatedAtDesc (notesOf PublicNotes w)) in
  let privN := map (noteOfDoc false) (byUpdatedAtDesc (notesOf (UserNotes userId) w)) in
  (fetchCategories userId w).1 = Ok (if f1 || f2 then [] else pubC ++ privC)%list
  /\ (fetchNotes userId w).1 = Ok (if f1 || f2 then [] else pubN ++ privN)%list
  /\ (fetchPublicCategories w).1 = Ok (if f1 then [] else pubC)
  /\ (fetchPublicNotes w).1 = Ok (if f1 then [] else pubN)
  /\ StronglySorted createdNotAfter pubC
  /\ StronglySorted createdNotAfter privC
  /\ Forall (fun c => cd_isPublic c = Some true) pubC
  /\ Forall (fun c => cd_isPublic c = Some false) privC
  /\ pubC ≡ₚ map (categoryOfDoc true)
               (List.filter hasCreatedAt (map_to_list (catsOf PublicCategories w)))
  /\ privC ≡ₚ map (categoryOfDoc false)
                (List.filter hasCreatedAt (map_to_list (catsOf (UserCategories userId) w)))
  /\ exists pubDocs privDocs : list (string * CategoryData),
       Forall2 (listedCategory true) pubDocs pubC
       /\ Forall2 (listedCategory false) privDocs privC
       /\ NoDup pubDocs.*1
       /\ NoDup privDocs.*1
       /\ (forall id d, (id, d) ∈ pubDocs
                        <-> catsOf PublicCategories w !! id = Some d
                            /\ is_Some (cd_createdAt d))
       /\ (forall id d, (id, d) ∈ privDocs
                        <-> catsOf (UserCategories userId) w !! id = Some d
                            /\ is_Some (cd_createdAt d)).
Proof.
  intros f1 f2 pubC privC pubN privN.
  split; [|split; [|split; [|split]]].
  - unfold fetchCategories, tryCatch, fetchCategories_try, bind.
    rewrite getDocsCategoriesOrdered_eq. fold f1. destruct f1; [done|].
    rewrite getDocsCategoriesOrdered_eq. autorewrite with world. fold f2.
    by destruct f2.
  - unfold fetchNotes, tryCatch, fetchNotes_try, bind.
    rewrite getDocsNotesOrdered_eq. fold f1. destruct f1; [done|].
    rewrite getDocsNotesOrdered_eq. autorewrite with world. fold f2.
    by destruct f2.
  - unfold fetchPublicCategories, tryCatch, fetchPublicCategories_try, bind.
    rewrite getDocsCategoriesOrdered_eq. fold f1. by destruct f1.
  - unfold fetchPublicNotes, tryCatch, fetchPublicNotes_try, bind.
    rewrite getDocsNotesOrdered_eq. fold f1. by destruct f1.
  - split; [apply byCreatedAtAsc_sorted|]. split; [apply byCreatedAtAsc_sorted|].
    split; [apply categoryOfDoc_tagged|]. split; [apply categoryOfDoc_tagged|].
    split; [apply byCreatedAtAsc_perm|]. split; [apply byCreatedAtAsc_perm|].
    destruct (byCreatedAtAsc_listed true (catsOf PublicCategories w)) as (Hp1 & Hp2 & Hp3).
    destruct (byCreatedAtAsc_listed false (catsOf (UserCategories userId) w))
      as (Hq1 & Hq2 & Hq3).
    by exists (byCreatedAtAsc (catsOf PublicCategories w)),
              (byCreatedAtAsc (catsOf (UserCategories userId) w)).
Qed.

(** The read path on [shelfWorld]: public categories first, each part in
    creation order; nothing when the second query fails. *)
Lemma fetchCategories_shelf :
  (fetchCategories "u1" shelfWorld).1
    = Ok [categoryOfDoc true ("b", shelfDoc "Older" true 100);
          categoryOfDoc true ("a", shelfDoc "Younger" true 200);
          categoryOfDoc false ("p1", shelfDoc "Mine" false 150)]
  /\ (fetchCategories "u1" (setFaults [false; true] shelfWorld)).1 = Ok []
  /\ (fetchNotes "u1" (setFaults [true] shelfWorld)).1 = Ok [].
Proof. vm_compute. repeat split. Qed.

(** ** Publishing a category with its notes *)

Lemma migrateLoop_cons src dst userId newCategoryId flag noteDoc rest acc w :
  migrateLoop src dst userId newCategoryId flag (noteDoc :: rest) acc w =
    match addDocNote dst (migratedCopy userId newCategoryId flag (clock w) noteDoc.2) w with
    | (Ok newNoteId, w1) =>
        match deleteDocNote src noteDoc.1 w1 with
        | (Ok _, w2) =>
            migrateLoop src dst userId newCategoryId flag rest
              (<[noteDoc.1 := newNoteId]> acc) w2
        | (Throw e, w2) => (Throw e, w2)
        end
    | (Throw e, w1) => (Throw e, w1)
    end.
Proof.
  simpl. unfold bind, Date_now.
  destruct (addDocNote dst _ w) as [[newNoteId|e] w1]; [|done].
  by destruct (deleteDocNote src noteDoc.1 w1) as [[[]|e] w2].
Qed.

Lemma migratedCopy_copied userId newCategoryId flag now d :
  copiedNote userId newCategoryId flag now d (migratedCopy userId newCategoryId flag now d).
Proof. by repeat split. Qed.

Lemma cleanCategoryOf_copied userId category flag now :
  copiedCategory userId flag now category (cleanCategoryOf userId category flag now).
Proof. by repeat split. Qed.

(** The loop, when it completes: every listed note has a copy in [dst]
    under an identifier that was free, the renaming records it, the new
    identifiers are pairwise distinct, the listed notes are gone from [src],
    and nothing else changes. *)
Lemma migrateLoop_ok src dst userId newCategoryId flag docs acc w res w' :
  src <> dst ->
  NoDup docs.*1 ->
  migrateLoop src dst userId newCategoryId flag docs acc w = (Ok res, w') ->
  clock w' = clock w
  /\ (forall c, catsOf c w' = catsOf c w)
  /\ (forall id, id ∉ docs.*1 -> res !! id = acc !! id)
  /\ (forall id d, (id, d) ∈ docs ->
        exists newNoteId,
          res !! id = Some newNoteId
          /\ notesOf dst w !! newNoteId = None
          /\ notesOf dst w' !! newNoteId
             = Some (migratedCopy userId newCategoryId flag (clock w) d))
  /\ (forall id1 id2 n, id1 ∈ docs.*1 -> id2 ∈ docs.*1 ->
        res !! id1 = Some n -> res !! id2 = Some n -> id1 = id2)
  /\ (forall k d, notesOf dst w !! k = Some d -> notesOf dst w' !! k = Some d)
  /\ (forall id, notesOf src w' !! id
                 = if decide (id ∈ docs.*1) then None else notesOf src w !! id)
  /\ (forall r, r <> src -> r <> dst -> notesOf r w' = notesOf r w)
  /\ (forall k d, notesOf dst w' !! k = Some d ->
        notesOf dst w !! k = Some d \/ exists id, id ∈ docs.*1 /\ res !! id = Some k).
Proof.
  intros Hne. revert acc w. induction docs as [|[id0 d0] rest IH]; intros acc w Hnd Hrun.
  - simpl in Hrun. injection Hrun as <- <-. repeat split; try done.
    + intros id d H. by apply elem_of_nil in H.
    + intros id1 id2 n H. by apply elem_of_nil in H.
    + intros k d Hk. by left.
  - rewrite migrateLoop_cons, addDocNote_eq in Hrun. cbn [fst snd] in Hrun.
    destruct (hd false (faults w)); [done|].
    rewrite deleteDocNote_eq in Hrun.
    destruct (hd false (faults _)); [done|].
    set (n0 := fresh (dom (notesOf dst w))) in *.
    set (copy0 := migratedCopy userId newCategoryId flag (clock w) d0) in *.
    match type of Hrun with migrateLoop _ _ _ _ _ _ _ ?x = _ => set (w2 := x) in * end.
    assert (Hdst2 : notesOf dst w2 = <[n0 := copy0]> (notesOf dst w)).
    { subst w2. autorewrite with world. rewrite notesOf_setNotes_ne by done.
      by autorewrite with world. }
    assert (Hsrc2 : notesOf src w2 = delete id0 (notesOf src w)).
    { subst w2. autorewrite with world. rewrite notesOf_setNotes_ne by done.
      by autorewrite with world. }
    assert (Hclock2 : clock w2 = clock w) by (subst w2; by autorewrite with world).
    assert (Hcats2 : forall c, catsOf c w2 = catsOf c w).
    { intros c. subst w2. by autorewrite with world. }
    apply NoDup_cons in Hnd as [Hid0 Hnd]. cbn [fst] in Hid0.
    assert (Hother2 : forall r, r <> src -> r <> dst -> notesOf r w2 = notesOf r w).
    { intros r Hr1 Hr2. subst w2. autorewrite with world.
      rewrite notesOf_setNotes_ne by done. autorewrite with world.
      rewrite notesOf_setNotes_ne by done. by autorewrite with world. }
    destruct (IH _ _ Hnd Hrun)
      as (Hclock & Hcats & Hkeep & Hnew & Hinj & Hmono & Hsrc & Hother & Honly).
    assert (Hfree : notesOf dst w !! n0 = None) by apply fresh_not_used.
    assert (Hres0 : res !! id0 = Some n0).
    { rewrite Hkeep by done. apply lookup_insert_eq. }
    split; [congruence|]. split; [intros c; by rewrite Hcats|].
    split; [|split; [|split; [|split; [|split; [|split]]]]].
    + intros id Hnot. apply not_elem_of_cons in Hnot as [Hne0 Hnot]. cbn [fst] in Hne0.
      rewrite Hkeep by done. by rewrite lookup_insert_ne.
    + intros id d Hel. apply elem_of_cons in Hel as [[= -> ->] | Hel].
      * exists n0. split; [done|]. split; [done|].
        apply Hmono. rewrite Hdst2. apply lookup_insert_eq.
      * destruct (Hnew id d Hel) as (n & Hr & Hfr & Hcopy).
        exists n. split; [done|]. rewrite Hdst2 in Hfr.
        apply lookup_insert_None in Hfr as [Hfr _].
        split; [done|]. by rewrite Hcopy, Hclock2.
    + assert (Hclash : forall id n, id ∈ rest.*1 -> res !! id = Some n -> n <> n0).
      { intros id n Hel Hr ->. apply list_elem_of_fmap in Hel as [[id' d'] [-> Hel]].
        destruct (Hnew id' d' Hel) as (n & Hr' & Hfr & _). cbn [fst] in Hr.
        rewrite Hr in Hr'. injection Hr' as <-.
        rewrite Hdst2, lookup_insert_eq in Hfr. done. }
      intros id1 id2 n H1 H2 Hr1 Hr2. cbn [fmap list_fmap fst] in H1, H2.
      apply elem_of_cons in H1 as [-> | H1]; apply elem_of_cons in H2 as [-> | H2].
      * done.
      * rewrite Hres0 in Hr1. injection Hr1 as <-. by destruct (Hclash id2 n0 H2 Hr2).
      * rewrite Hres0 in Hr2. injection Hr2 as <-. by destruct (Hclash id1 n0 H1 Hr1).
      * by apply (Hinj id1 id2 n).
    + intros k d Hk. apply Hmono. rewrite Hdst2, lookup_insert_ne; [done|].
      intros <-. congruence.
    + intros id. rewrite Hsrc, Hsrc2. cbn [fmap list_fmap fst].
      destruct (decide (id ∈ rest.*1)) as [Hin|Hnin].
      * rewrite decide_True; [done | by right].
      * destruct (decide (id = id0)) as [->|Hne0].
        -- rewrite decide_True; [apply lookup_delete_eq | by left].
        -- rewrite decide_False, lookup_delete_ne; [done..|].
           intros Hel. apply elem_of_cons in Hel as [?|?]; done.
    + intros r Hr1 Hr2. rewrite Hother by done. by apply Hother2.
    + intros k d Hk. destruct (Honly k d Hk) as [Hk2 | (id & Hin & Hr)].
      * rewrite Hdst2 in Hk2. destruct (decide (k = n0)) as [->|Hkn].
        -- right. exists id0. split; [by left | done].
        -- left. by rewrite lookup_insert_ne in Hk2.
      * right. exists id. split; [by right | done].
Qed.

(** The loop completes when every request is served. *)
Lemma migrateLoop_completes src dst userId newCategoryId flag docs acc w :
  allServed w ->
  exists res w',
    migrateLoop src dst userId newCategoryId flag docs acc w = (Ok res, w')
    /\ allServed w'.
Proof.
  revert acc w. induction docs as [|noteDoc rest IH]; intros acc w Hs.
  - by exists acc, w.
  - rewrite migrateLoop_cons, addDocNote_eq, (allServed_hd w Hs), deleteDocNote_eq.
    rewrite allServed_hd by auto with served.
    apply IH. auto 12 with served.
Qed.

(** [toggleCategoryPublish] completes when every request is served. *)
Lemma toggleCategoryPublish_completes userId category makePublic w :
  allServed w ->
  exists res w', toggleCategoryPublish userId category makePublic w = (Ok res, w').
Proof.
  intros Hs. unfold toggleCategoryPublish, bind, Date_now, ret.
  destruct makePublic;
    rewrite addDocCategory_eq, (allServed_hd w Hs);
    destruct (JS.truthyB (c_isPublic category)); cbn [negb]; eauto;
    rewrite getDocsNotesWhere_eq, allServed_hd by auto with served;
    match goal with
    | |- context [migrateLoop ?s ?d ?u ?n ?f ?l ?a ?x] =>
        destruct (migrateLoop_completes s d u n f l a x) as (res & w3 & -> & Hs3);
          [auto 12 with served|]
    end;
    rewrite deleteDocCategory_eq, (allServed_hd w3 Hs3); eauto.
Qed.

Lemma toggleCategoryPublish_eq (userId : string) (category : Category) (makePublic : bool)
    (w : World) :
  let src := if makePublic then UserNotes userId else PublicNotes in
  let dst := if makePublic then PublicNotes else UserNotes userId in
  let srcC := if makePublic then UserCategories userId else PublicCategories in
  let dstC := if makePublic then PublicCategories else UserCategories userId in
  let guard := if makePublic then negb (JS.truthyB (c_isPublic category))
               else JS.truthyB (c_isPublic category) in
  toggleCategoryPublish userId category makePublic w =
    match addDocCategory dstC (cleanCategoryOf userId category makePublic (clock w)) w with
    | (Ok newCategoryId, w1) =>
        match (if guard
               then cascade src dst srcC userId (c_id category) newCategoryId makePublic
               else ret ∅) w1 with
        | (Ok migrated, w2) =>
            (Ok (mkToggleCategoryResult newCategoryId makePublic migrated), w2)
        | (Throw e, w2) => (Throw e, w2)
        end
    | (Throw e, w1) => (Throw e, w1)
    end.
Proof. destruct makePublic; reflexivity. Qed.

(** C1. [toggleCategoryPublish(userId, cat, true)] on a private category
    leaves behind a note that referred to [cat.id]. In [strandedWorld] the
    private category "catA" of the admin holds the private note "n1", and
    the public note "p1" was given the category "catA" in the editor. The
    call returns; [migratedNoteIds] has an entry for "n1" only; "p1" was not
    re-created and still has [categoryId] "catA", not [newId]; and the
    category "catA" is gone, from both partitions. The copy of "n1",
    moreover, has lost the [images] of the note. *)
Lemma toggleCategoryPublish_strands_public_note :
  (nd_categoryId <$> notesOf PublicNotes strandedWorld !! "p1") = Some (Some "catA")
  /\ (nd_images <$> notesOf (UserNotes "admin") strandedWorld !! "n1")
     = Some (Some ["img1"; "img2"])
  /\ (toggleCategoryPublish "admin" scenarioB_category true strandedWorld).1
     = Ok (mkToggleCategoryResult "0" true {["n1" := "0"]})
  /\ (nd_categoryId
        <$> notesOf PublicNotes
              (toggleCategoryPublish "admin" scenarioB_category true strandedWorld).2 !! "p1")
     = Some (Some "catA")
  /\ dom (notesOf PublicNotes
            (toggleCategoryPublish "admin" scenarioB_category true strandedWorld).2)
     = {["0"; "p1"]}
  /\ catsOf (UserCategories "admin")
       (toggleCategoryPublish "admin" scenarioB_category true strandedWorld).2 !! "catA"
     = None
  /\ catsOf PublicCategories
       (toggleCategoryPublish "admin" scenarioB_category true strandedWorld).2 !! "catA"
     = None
  /\ (nd_images
        <$> notesOf PublicNotes
              (toggleCategoryPublish "admin" scenarioB_category true strandedWorld).2 !! "0")
     = Some None.
Proof. vm_compute. repeat split. Qed.

(** ** Order of creations and deletions *)

Section CreateBeforeDelete.

Variables (src dst : NotesRef) (srcC : CatsRef) (cid : string).
Variables (docs : list (string * NoteData)) (isCopy : NoteData -> NoteData -> Prop).
Variable ids : gmap string string.

Lemma cbd_nil seen : createBeforeDeleteFrom src dst srcC cid docs isCopy ids seen [].
Proof. intros pre e post H. by destruct pre. Qed.

Lemma cbd_cons seen e es :
  okAt src dst srcC cid docs isCopy ids seen e ->
  createBeforeDeleteFrom src dst srcC cid docs isCopy ids (seen ++ [e])%list es ->
  createBeforeDeleteFrom src dst srcC cid docs isCopy ids seen (e :: es).
Proof.
  intros He Hes pre e' post Heq. destruct pre as [|x pre]; simpl in Heq.
  - injection Heq as <- <-. by rewrite app_nil_r.
  - injection Heq as <- ->. specialize (Hes pre e' post eq_refl).
    by rewrite <- app_assoc in Hes.
Qed.

Lemma cbd_inv_cons seen e es :
  createBeforeDeleteFrom src dst srcC cid docs isCopy ids seen (e :: es) ->
  okAt src dst srcC cid docs isCopy ids seen e
  /\ createBeforeDeleteFrom src dst srcC cid docs isCopy ids (seen ++ [e])%list es.
Proof.
  intros H. split.
  - specialize (H [] e es eq_refl). by rewrite app_nil_r in H.
  - intros pre e' post ->. specialize (H (e :: pre) e' post eq_refl).
    by rewrite <- app_assoc.
Qed.

Lemma cbd_app seen es1 es2 :
  createBeforeDeleteFrom src dst srcC cid docs isCopy ids seen es1 ->
  createBeforeDeleteFrom src dst srcC cid docs isCopy ids (seen ++ es1)%list es2 ->
  createBeforeDeleteFrom src dst srcC cid docs isCopy ids seen (es1 ++ es2)%list.
Proof.
  revert seen. induction es1 as [|e es1 IH]; intros seen H1 H2; simpl.
  - by rewrite app_nil_r in H2.
  - apply cbd_inv_cons in H1 as [He H1]. apply cbd_cons; [done|].
    apply IH; [done|]. by rewrite <- app_assoc.
Qed.

End CreateBeforeDelete.

(** The events of the loop, whatever the outcome of its requests. The
    renaming [ids] extends [acc] by the notes that were copied; their new
    identifiers were free and are pairwise distinct; each event meets [okAt];
    and a loop that completes returns [ids] and has created the copies of
    all its notes. *)
Lemma migrateLoop_trace src dst srcC cid allDocs userId newCategoryId flag docs acc w seen :
  src <> dst ->
  NoDup docs.*1 ->
  (forall x, x ∈ docs -> x ∈ allDocs) ->
  (forall nid, nid ∈ docs.*1 -> acc !! nid = None) ->
  let run := migrateLoop src dst userId newCategoryId flag docs acc w in
  let isCopy := copiedNote userId newCategoryId flag (clock w) in
  exists es ids,
    trace run.2 = (trace w ++ es)%list
    /\ clock run.2 = clock w
    /\ (forall nid, nid ∉ docs.*1 -> ids !! nid = acc !! nid)
    /\ (forall nid n, nid ∈ docs.*1 -> ids !! nid = Some n -> notesOf dst w !! n = None)
    /\ (forall nid1 nid2 n, nid1 ∈ docs.*1 -> nid2 ∈ docs.*1 ->
          ids !! nid1 = Some n -> ids !! nid2 = Some n -> nid1 = nid2)
    /\ (forall ids', (forall nid, nid ∈ docs.*1 -> ids' !! nid = ids !! nid) ->
          createBeforeDeleteFrom src dst srcC cid allDocs isCopy ids' seen es)
    /\ (forall res, run.1 = Ok res ->
          res = ids
          /\ forall nid d, (nid, d) ∈ docs ->
               exists n copy,
                 ids !! nid = Some n /\ isCopy d copy /\ EvAddNote dst n copy ∈ es).
Proof.
  intros Hne. revert acc w seen.
  induction docs as [|[id0 d0] rest IH]; intros acc w seen Hnd Hsub Hacc run isCopy.
  - exists [], acc. subst run. simpl. rewrite app_nil_r.
    split; [done|]. split; [done|]. split; [done|].
    split; [intros nid n H; by apply elem_of_nil in H|].
    split; [intros nid1 nid2 n H; by apply elem_of_nil in H|].
    split; [intros; apply cbd_nil|].
    intros res [= <-]. split; [done|]. intros nid d H. by apply elem_of_nil in H.
  - apply NoDup_cons in Hnd as [Hnot0 Hnd]. cbn [fst] in Hnot0.
    subst run. rewrite migrateLoop_cons, addDocNote_eq.
    destruct (hd false (faults w)).
    { exists [], acc. cbn [fst snd]. autorewrite with world. rewrite app_nil_r.
      split; [done|]. split; [done|]. split; [done|].
      split; [intros nid n Hin Hn; by rewrite Hacc in Hn|].
      split; [intros nid1 nid2 n Hin1 _ Hn; by rewrite Hacc in Hn|].
      split; [intros; apply cbd_nil | done]. }
    rewrite deleteDocNote_eq. cbn [fst snd].
    set (n0 := fresh (dom (notesOf dst w))).
    set (copy0 := migratedCopy userId newCategoryId flag (clock w) d0).
    set (add := EvAddNote dst n0 copy0).
    assert (Hcopy0 : isCopy d0 copy0) by apply migratedCopy_copied.
    assert (Hfree : notesOf dst w !! n0 = None) by apply fresh_not_used.
    assert (Hacc2 : forall nid, nid ∈ rest.*1 -> (<[id0 := n0]> acc) !! nid = None).
    { intros nid Hin. rewrite lookup_insert_ne; [apply Hacc; by right|].
      by intros <-. }
    destruct (hd false (faults _)).
    { exists [add], (<[id0 := n0]> acc). cbn [fst snd]. autorewrite with world.
      split; [done|]. split; [done|].
      split.
      { intros nid Hn. apply not_elem_of_cons in Hn as [Hn _]. cbn [fst] in Hn.
        by rewrite lookup_insert_ne. }
      assert (Honly : forall nid n, nid ∈ ((id0, d0) :: rest).*1 ->
                        (<[id0 := n0]> acc) !! nid = Some n -> nid = id0 /\ n = n0).
      { intros nid n Hin Hn. destruct (decide (nid = id0)) as [->|Hd].
        - rewrite lookup_insert_eq in Hn. by injection Hn as <-.
        - rewrite lookup_insert_ne, Hacc in Hn by done. done. }
      split; [intros nid n Hin Hn; by destruct (Honly nid n Hin Hn) as [_ ->]|].
      split.
      { intros nid1 nid2 n Hin1 Hin2 Hn1 Hn2.
        destruct (Honly nid1 n Hin1 Hn1) as [-> _].
        by destruct (Honly nid2 n Hin2 Hn2) as [-> _]. }
      split; [|done]. intros ids' Hagree.
      apply cbd_cons; [|apply cbd_nil].
      split; [done|]. exists id0, d0. split; [apply Hsub; by left|].
      split; [|done]. rewrite Hagree by (by left). apply lookup_insert_eq. }
    match goal with
    | |- context [migrateLoop _ _ _ _ _ rest ?a ?x] => set (acc2 := a); set (w2 := x)
    end.
    assert (Hclock2 : clock w2 = clock w) by (subst w2; by autorewrite with world).
    assert (Htrace2 : trace w2 = (trace w ++ [add; EvDeleteNote src id0])%list).
    { subst w2. autorewrite with world. by rewrite <- app_assoc. }
    assert (Hdst2 : notesOf dst w2 = <[n0 := copy0]> (notesOf dst w)).
    { subst w2. autorewrite with world. rewrite notesOf_setNotes_ne by done.
      by autorewrite with world. }
    destruct (IH acc2 w2 (seen ++ [add; EvDeleteNote src id0])%list Hnd)
      as (es & ids & Htrace & Hclock & Hout & Hfresh & Hinj & Hcbd & Hok).
    { intros x Hx. apply Hsub. by right. }
    { exact Hacc2. }
    rewrite Hclock2 in Hcbd, Hok. fold isCopy in Hcbd, Hok.
    assert (Hid0 : ids !! id0 = Some n0).
    { rewrite Hout by done. apply lookup_insert_eq. }
    assert (Hclash : forall nid n, nid ∈ rest.*1 -> ids !! nid = Some n ->
                       n <> n0 /\ notesOf dst w !! n = None).
    { intros nid n Hin Hn. specialize (Hfresh nid n Hin Hn). rewrite Hdst2 in Hfresh.
      apply lookup_insert_None in Hfresh as [? ?]. by split. }
    exists (add :: EvDeleteNote src id0 :: es), ids.
    split; [by rewrite Htrace, Htrace2, <- app_assoc|].
    split; [congruence|].
    split.
    { intros nid Hn. apply not_elem_of_cons in Hn as [Hn0 Hn]. cbn [fst] in Hn0.
      rewrite Hout by done. by apply lookup_insert_ne. }
    split.
    { intros nid n Hin Hn. cbn [fmap list_fmap fst] in Hin.
      apply elem_of_cons in Hin as [-> | Hin].
      - rewrite Hid0 in Hn. by injection Hn as <-.
      - by destruct (Hclash nid n Hin Hn). }
    split.
    { intros nid1 nid2 n Hin1 Hin2 Hn1 Hn2. cbn [fmap list_fmap fst] in Hin1, Hin2.
      apply elem_of_cons in Hin1 as [-> | Hin1]; apply elem_of_cons in Hin2 as [-> | Hin2].
      - done.
      - rewrite Hid0 in Hn1. injection Hn1 as <-. by destruct (Hclash nid2 n0 Hin2 Hn2).
      - rewrite Hid0 in Hn2. injection Hn2 as <-. by destruct (Hclash nid1 n0 Hin1 Hn1).
      - by apply (Hinj nid1 nid2 n). }
    split.
    { intros ids' Hagree.
      assert (Hid0' : ids' !! id0 = Some n0) by (rewrite Hagree by (by left); done).
      apply cbd_cons.
      { split; [done|]. exists id0, d0. split; [apply Hsub; by left | done]. }
      apply cbd_cons.
      { split; [done|]. exists d0, n0, copy0. split; [apply Hsub; by left|].
        split; [done|]. split; [done|]. apply elem_of_app. right. by left. }
      rewrite <- app_assoc. apply Hcbd. intros nid Hin. apply Hagree. by right. }
    intros res Hres. destruct (Hok res Hres) as [-> Hall]. split; [done|].
    intros nid d Hel. apply elem_of_cons in Hel as [[= -> ->] | Hel].
    + exists n0, copy0. split; [done|]. split; [done|]. by left.
    + destruct (Hall nid d Hel) as (n & copy & Hn & Hc & Hev).
      exists n, copy. split; [done|]. split; [done|]. by do 2 right.
Qed.

(** The events of the shared part of [toggleCategoryPublish]. *)
Lemma cascade_trace src dst srcC userId cid newCategoryId flag w seen :
  src <> dst ->
  let docs := map_to_list (notesOfCategory src cid w) in
  let isCopy := copiedNote userId newCategoryId flag (clock w) in
  let run := cascade src dst srcC userId cid newCategoryId flag w in
  exists es ids,
    trace run.2 = (trace w ++ es)%list
    /\ (forall nid, nid ∉ docs.*1 -> ids !! nid = None)
    /\ (forall nid n, ids !! nid = Some n -> notesOf dst w !! n = None)
    /\ (forall nid1 nid2 n, ids !! nid1 = Some n -> ids !! nid2 = Some n -> nid1 = nid2)
    /\ createBeforeDeleteFrom src dst srcC cid docs isCopy ids seen es
    /\ (forall migrated, run.1 = Ok migrated -> migrated = ids).
Proof.
  intros Hne docs isCopy run. subst run.
  destruct (cascade src dst srcC userId cid newCategoryId flag w) as [r w'] eqn:Hrun.
  cbn [fst snd]. unfold cascade, bind in Hrun.
  rewrite getDocsNotesWhere_eq in Hrun. destruct (hd false (faults w)).
  { injection Hrun as <- <-. exists [], ∅. autorewrite with world. rewrite app_nil_r.
    split; [done|]. split; [done|]. split; [done|]. split; [done|].
    split; [apply cbd_nil | done]. }
  fold (notesOfCategory src cid w) in Hrun. fold docs in Hrun.
  set (w1 := record (EvQueryNotes src) (served w)) in Hrun.
  assert (Hclock1 : clock w1 = clock w) by (subst w1; by autorewrite with world).
  assert (Hnotes1 : forall r, notesOf r w1 = notesOf r w).
  { intros r0. subst w1. by autorewrite with world. }
  destruct (migrateLoop_trace src dst srcC cid docs userId newCategoryId flag docs ∅ w1
              (seen ++ [EvQueryNotes src])%list Hne)
    as (es & ids & Htrace & Hclock & Hout & Hfresh & Hinj & Hcbd & Hok);
    [apply NoDup_fst_map_to_list | done | done |].
  rewrite Hclock1 in Hcbd, Hok. fold isCopy in Hcbd, Hok.
  specialize (Hcbd ids (fun _ _ => eq_refl)).
  assert (Hkeys : forall nid n, ids !! nid = Some n -> nid ∈ docs.*1).
  { intros nid n Hn. destruct (decide (nid ∈ docs.*1)) as [|Hnot]; [done|].
    by rewrite (Hout nid Hnot) in Hn. }
  assert (Htrace1 : forall w0, trace w0 = (trace w1 ++ es)%list ->
                      trace w0 = (trace w ++ EvQueryNotes src :: es)%list).
  { intros w0 ->. subst w1. autorewrite with world. by rewrite <- app_assoc. }
  assert (Hf1 : forall nid, nid ∉ docs.*1 -> ids !! nid = None).
  { intros nid Hn. by rewrite Hout. }
  assert (Hf2 : forall nid n, ids !! nid = Some n -> notesOf dst w !! n = None).
  { intros nid n Hn. rewrite <- Hnotes1. apply (Hfresh nid n); [|done].
    by apply (Hkeys nid n). }
  assert (Hf3 : forall nid1 nid2 n,
             ids !! nid1 = Some n -> ids !! nid2 = Some n -> nid1 = nid2).
  { intros nid1 nid2 n H1 H2. apply (Hinj nid1 nid2 n); eauto. }
  destruct (migrateLoop src dst userId newCategoryId flag docs ∅ w1)
    as [[migrated|e] w2] eqn:Hloop; cbn [fst snd] in *.
  2: { injection Hrun as <- <-. exists (EvQueryNotes src :: es), ids.
       split; [by apply Htrace1|].
       split; [done|]. split; [done|]. split; [done|].
       split; [by apply cbd_cons | done]. }
  destruct (Hok migrated eq_refl) as [-> Hall].
  rewrite deleteDocCategory_eq in Hrun. destruct (hd false (faults w2)).
  { injection Hrun as <- <-. exists (EvQueryNotes src :: es), ids.
    autorewrite with world.
    split; [by apply Htrace1|]. split; [done|]. split; [done|]. split; [done|].
    split; [by apply cbd_cons | done]. }
  unfold ret in Hrun. injection Hrun as <- <-.
  exists (EvQueryNotes src :: es ++ [EvDeleteCategory srcC cid])%list, ids.
  autorewrite with world. split.
  { rewrite (Htrace1 w2 Htrace). by rewrite <- app_assoc. }
  split; [done|]. split; [done|]. split; [done|]. split.
  - apply cbd_cons; [done|]. apply cbd_app; [done|].
    apply cbd_cons; [|apply cbd_nil].
    split; [done|]. split; [done|].
    intros nid d Hel. destruct (Hall nid d Hel) as (n & copy & Hn & Hc & Hev).
    exists n, copy. split; [done|]. split; [done|]. apply elem_of_app. by right.
  - by intros migrated [= <-].
Qed.


(** The run stops with the error; the source category is still there, the
    second note exists on both sides and the third was not touched: nothing
    was deleted before its copy existed. *)
Lemma toggleCategoryPublish_partial_failure :
  (toggleCategoryPublish "admin" scenarioB_category true scenarioB_failing).1
    = Throw StoreError
  /\ trace (toggleCategoryPublish "admin" scenarioB_category true scenarioB_failing).2
     = [EvAddCategory PublicCategories "0";
        EvQueryNotes (UserNotes "admin");
        EvAddNote PublicNotes "0"
          (migratedCopy "admin" "0" true 1700000000000 (scenarioB_doc "three" "catA"));
        EvDeleteNote (UserNotes "admin") "n3";
        EvAddNote PublicNotes "1"
          (migratedCopy "admin" "0" true 1700000000000 (scenarioB_doc "one" "catA"))]
  /\ is_Some (catsOf (UserCategories "admin")
                (toggleCategoryPublish "admin" scenarioB_category true scenarioB_failing).2
              !! "catA")
  /\ dom (notesOf (UserNotes "admin")
            (toggleCategoryPublish "admin" scenarioB_category true scenarioB_failing).2)
     = {["n1"; "n2"; "n4"]}.
Proof. vm_compute. repeat split. eauto. Qed.

(** * Further properties *)

(** ** Reassigning the notes of a category, whatever requests fail *)

Lemma mergeNote_onlyCategoryId cid d : mergeNote (onlyCategoryId cid) d = withCategory cid d.
Proof. by destruct d. Qed.

(** The updates awaited by [Promise.all], whatever their outcomes: a listed
    document is merged with [upd] or left as it was, nothing else changes,
    and when the result is not rejected every listed document was merged. *)
Lemma promiseAll_updates_any r upd (l : list (string * NoteData)) w :
  NoDup l.*1 ->
  (forall id d, (id, d) ∈ l -> notesOf r w !! id = Some d) ->
  let run := promiseAll (map (fun d => updateDocNote r d.1 upd) l) w in
  (forall id, id ∉ l.*1 -> notesOf r run.2 !! id = notesOf r w !! id)
  /\ (forall id d, (id, d) ∈ l ->
        notesOf r run.2 !! id = Some d \/ notesOf r run.2 !! id = Some (mergeNote upd d))
  /\ (run.1 = Ok tt ->
      forall id d, (id, d) ∈ l -> notesOf r run.2 !! id = Some (mergeNote upd d))
  /\ (forall r', r' <> r -> notesOf r' run.2 = notesOf r' w)
  /\ (forall c, catsOf c run.2 = catsOf c w).
Proof.
  revert w. induction l as [|[id0 d0] l IH]; intros w Hnd Hin run.
  - subst run. simpl. split; [done|].
    split; [intros ? ? H; by apply elem_of_nil in H|].
    split; [intros _ ? ? H; by apply elem_of_nil in H | done].
  - apply NoDup_cons in Hnd as [Hid0 Hnd]. cbn [fst fmap list_fmap] in Hid0.
    assert (Hnot : forall id d, (id, d) ∈ l -> id <> id0).
    { intros id d Hel ->. apply Hid0, list_elem_of_fmap. by exists (id0, d). }
    subst run. cbn [map promiseAll fst]. rewrite updateDocNote_eq, (Hin id0 d0) by left.
    destruct (hd false (faults w)).
    + destruct (IH (served w) Hnd) as (Hother & Heither & _ & Hrefs & Hcats).
      { intros id d Hel. rewrite notesOf_served. apply Hin. by right. }
      cbn [fst snd]. setoid_rewrite notesOf_served in Hother.
      setoid_rewrite notesOf_served in Hrefs. setoid_rewrite catsOf_served in Hcats.
      split; [|split; [|split; [|split]]]; try done.
      * intros id Hn. apply not_elem_of_cons in Hn as [_ Hn]. by apply Hother.
      * intros id d Hel. apply elem_of_cons in Hel as [[= -> ->] | Hel].
        -- left. rewrite Hother by done. apply Hin. by left.
        -- by apply Heither.
    + set (w1 := record (EvUpdateNote r id0)
                   (setNotes r (<[id0 := mergeNote upd d0]> (notesOf r w)) (served w))).
      assert (Hn1 : notesOf r w1 = <[id0 := mergeNote upd d0]> (notesOf r w)).
      { subst w1. by autorewrite with world. }
      destruct (IH w1 Hnd) as (Hother & Heither & Hall & Hrefs & Hcats).
      { intros id d Hel. rewrite Hn1, lookup_insert_ne; [apply Hin; by right|].
        intros <-. by apply (Hnot id0 d). }
      cbn [fst snd].
      split; [|split; [|split; [|split]]].
      * intros id Hn. apply not_elem_of_cons in Hn as [Hne Hn]. cbn [fst] in Hne.
        rewrite Hother, Hn1 by done. by rewrite lookup_insert_ne.
      * intros id d Hel. apply elem_of_cons in Hel as [[= -> ->] | Hel].
        -- right. rewrite Hother, Hn1 by done. apply lookup_insert_eq.
        -- by apply Heither.
      * intros Hok id d Hel. apply elem_of_cons in Hel as [[= -> ->] | Hel].
        -- rewrite Hother, Hn1 by done. apply lookup_insert_eq.
        -- by apply Hall.
      * intros r' Hr'. rewrite Hrefs by done. subst w1. autorewrite with world.
        rewrite notesOf_setNotes_ne by done. by autorewrite with world.
      * intros c. rewrite Hcats. subst w1. by autorewrite with world.
Qed.

(** [migrateNotesToCategory], whatever requests fail, note by note. *)
Lemma migrateNotesToCategory_any (userId fromCatId toCatId : string) (w : World) :
  let run := migrateNotesToCategory userId fromCatId toCatId w in
  let r := UserNotes userId in
  (forall id d, notesOf r w !! id = Some d ->
     notesOf r run.2 !! id = Some d
     \/ (nd_categoryId d = Some fromCatId
         /\ notesOf r run.2 !! id = Some (withCategory toCatId d)))
  /\ (forall id, notesOf r w !! id = None -> notesOf r run.2 !! id = None)
  /\ (run.1 = Ok tt ->
      forall id d, notesOf r w !! id = Some d -> nd_categoryId d = Some fromCatId ->
        notesOf r run.2 !! id = Some (withCategory toCatId d))
  /\ (forall r', r' <> r -> notesOf r' run.2 = notesOf r' w)
  /\ (forall c, catsOf c run.2 = catsOf c w).
Proof.
  intros run r. subst run. unfold migrateNotesToCategory, bind.
  rewrite getDocsNotesWhere_eq. fold r. destruct (hd false (faults w)).
  { cbn [fst snd]. autorewrite with world. repeat split; try done. by left. }
  set (docs := map_to_list _). set (w1 := record _ _).
  assert (Hn1 : notesOf r w1 = notesOf r w) by (subst w1; by autorewrite with world).
  assert (Hdocs : forall id d, (id, d) ∈ docs
                    <-> notesOf r w !! id = Some d /\ nd_categoryId d = Some fromCatId).
  { intros id d. subst docs. by rewrite elem_of_map_to_list, map_lookup_filter_Some. }
  assert (Hkeys : forall id, id ∈ docs.*1 ->
                    exists d, notesOf r w !! id = Some d /\ nd_categoryId d = Some fromCatId).
  { intros id Hel. apply list_elem_of_fmap in Hel as [[id' d] [-> Hel]].
    exists d. by apply Hdocs. }
  destruct (promiseAll_updates_any r (onlyCategoryId toCatId) docs w1)
    as (Hother & Heither & Hall & Hrefs & Hcats).
  { apply NoDup_fst_map_to_list. }
  { intros id d Hel. rewrite Hn1. by apply Hdocs. }
  rewrite Hn1 in Hother. setoid_rewrite mergeNote_onlyCategoryId in Heither.
  setoid_rewrite mergeNote_onlyCategoryId in Hall.
  split; [|split; [|split; [|split]]].
  - intros id d Hd. destruct (decide (nd_categoryId d = Some fromCatId)) as [Hc|Hc].
    + destruct (Heither id d) as [H|H]; [by apply Hdocs | by left | by right].
    + left. rewrite Hother; [done|]. intros Hel.
      destruct (Hkeys id Hel) as (d' & Hd' & Hc'). congruence.
  - intros id Hnone. rewrite Hother; [done|]. intros Hel.
    destruct (Hkeys id Hel) as (d' & Hd' & _). congruence.
  - intros Hok id d Hd Hc. apply Hall; [done | by apply Hdocs].
  - intros r' Hr'. rewrite Hrefs by done. subst w1. by autorewrite with world.
  - intros c. rewrite Hcats. subst w1. by autorewrite with world.
Qed.

(** X1. [migrateNotesToCategory], whatever requests fail: no private note
    of the user appears or disappears; a note is left as it was, or it
    referred to [fromCatId] and only its [categoryId] changed, to [toCatId];
    the notes of other collections and all categories are untouched; and
    when the call returns and [toCatId] is another category, no private
    note of the user refers to [fromCatId] any more. *)
Theorem migrateNotesToCategory_only_reassigns (userId fromCatId toCatId : string)
    (w : World) :
  let run := migrateNotesToCategory userId fromCatId toCatId w in
  let r := UserNotes userId in
  dom (notesOf r run.2) = dom (notesOf r w)
  /\ (forall id d d', notesOf r w !! id = Some d -> notesOf r run.2 !! id = Some d' ->
        d' = d \/ (nd_categoryId d = Some fromCatId /\ d' = withCategory toCatId d))
  /\ (forall r', r' <> r -> notesOf r' run.2 = notesOf r' w)
  /\ (forall c, catsOf c run.2 = catsOf c w)
  /\ (run.1 = Ok tt -> toCatId <> fromCatId -> notesOfCategory r fromCatId run.2 = ∅).
Proof.
  intros run r.
  destruct (migrateNotesToCategory_any userId fromCatId toCatId w)
    as (Heither & Hnone & Hall & Hrefs & Hcats).
  fold run r in Heither, Hnone, Hall, Hrefs, Hcats.
  split; [|split; [|split; [|split]]]; try done.
  - apply set_eq. intros id. rewrite !elem_of_dom.
    destruct (notesOf r w !! id) as [d|] eqn:Hd.
    + destruct (Heither id d Hd) as [-> | [_ ->]]; split; eauto.
    + rewrite (Hnone id Hd). done.
  - intros id d d' Hd Hd'. destruct (Heither id d Hd) as [H | [Hc H]];
      rewrite H in Hd'; injection Hd' as <-; [by left | by right].
  - intros Hok Hne. apply map_empty. intros id. apply map_lookup_filter_None.
    destruct (notesOf r run.2 !! id) as [d'|] eqn:Hd'; [right | by left].
    intros d'' [= <-] Hc. cbn [snd] in Hc.
    destruct (notesOf r w !! id) as [d|] eqn:Hd.
    + destruct (decide (nd_categoryId d = Some fromCatId)) as [Hcd|Hcd].
      * rewrite (Hall Hok id d Hd Hcd) in Hd'. injection Hd' as <-. simpl in Hc. congruence.
      * destruct (Heither id d Hd) as [H | [Hc' _]]; [|done]. congruence.
    + rewrite (Hnone id Hd) in Hd'. done.
Qed.

(** ** Deleting a category, whatever requests fail *)

(** A migration that returns has reassigned every note of the category and
    touched no category. *)
Lemma migrateNotesToCategory_ok userId fromCatId toCatId w w' :
  migrateNotesToCategory userId fromCatId toCatId w = (Ok tt, w') ->
  (forall id d, notesOf (UserNotes userId) w !! id = Some d ->
     nd_categoryId d = Some fromCatId ->
     notesOf (UserNotes userId) w' !! id = Some (withCategory toCatId d))
  /\ (forall c, catsOf c w' = catsOf c w).
Proof.
  unfold migrateNotesToCategory, bind. rewrite getDocsNotesWhere_eq.
  destruct (hd false (faults w)); [done|].
  set (r := UserNotes userId). set (docs := map_to_list _). set (w1 := record _ _).
  intros Hrun.
  destruct (promiseAll_updates_any r (onlyCategoryId toCatId) docs w1)
    as (_ & _ & Hall & _ & Hcats).
  { apply NoDup_fst_map_to_list. }
  { intros id d Hel. subst w1 docs. autorewrite with world.
    apply elem_of_map_to_list, map_lookup_filter_Some in Hel. tauto. }
  rewrite Hrun in Hall, Hcats. cbn [fst snd] in *. split.
  - intros id d Hd Hc. rewrite <- mergeNote_onlyCategoryId. apply Hall; [done|].
    subst docs. by apply elem_of_map_to_list, map_lookup_filter_Some.
  - intros c. rewrite Hcats. subst w1. by autorewrite with world.
Qed.

Lemma find_other_category id (cs : list Category) fb :
  List.find (fun c => negb (String.eqb (c_id c) id)) cs = Some fb ->
  c_id fb <> id /\ cs <> [].
Proof.
  intros H. split.
  - apply find_some in H as [_ H]. apply negb_true_iff, String.eqb_neq in H. done.
  - by destruct cs.
Qed.

(** X2. [handleDeleteCategory] with a fallback category [fb], whatever
    requests fail. The only document the handler can delete is the one
    stored under [id] in the private categories of the user: the public
    categories, the categories of other users and the notes of every other
    collection are never changed, so a public category is taken out of the
    list in memory but stays in the store. If the handler throws, the
    category is still in the list in memory. The private category document
    leaves the store only in a run in which every private note of the user
    that referred to it was reassigned to [fb] before. When the handler
    returns, no document is stored under [id] in the private categories of
    the user, the category is gone from memory, and no private note of the
    user refers to it any more. *)
Theorem handleDeleteCategory_with_fallback (uid id : string) (st : AppState)
    (w : World) (fb : Category) :
  user st = Some uid ->
  List.find (fun c => negb (String.eqb (c_id c) id)) (categories st) = Some fb ->
  let out := handleDeleteCategory true id st w in
  let r := UserNotes uid in
  let cats := UserCategories uid in
  (forall c, c <> cats -> catsOf c out.2 = catsOf c w)
  /\ (forall cid, cid <> id -> catsOf cats out.2 !! cid = catsOf cats w !! cid)
  /\ (forall r', r' <> r -> notesOf r' out.2 = notesOf r' w)
  /\ (forall e, out.1.1 = Throw e -> categories out.1.2 = categories st)
  /\ (catsOf cats out.2 <> catsOf cats w ->
      forall nid d, notesOf r w !! nid = Some d -> nd_categoryId d = Some id ->
        notesOf r out.2 !! nid = Some (withCategory (c_id fb) d))
  /\ (out.1.1 = Ok tt ->
      catsOf cats out.2 !! id = None
      /\ Forall (fun c => c_id c <> id) (categories out.1.2)
      /\ (forall nid d, notesOf r out.2 !! nid = Some d -> nd_categoryId d <> Some id)).
Proof.
  intros Hu Hfb out r cats. subst out r cats.
  destruct (find_other_category id _ fb Hfb) as [Hne Hnil].
  destruct (migrateNotesToCategory_any uid id (c_id fb) w)
    as (Heither & Hnone & _ & Hrefs0 & Hcats0).
  unfold handleDeleteCategory. rewrite Hu, Hfb.
  destruct (categories st) as [|c0 cs] eqn:Hcs; [done|]. cbn [length Nat.leb].
  destruct (migrateNotesToCategory uid id (c_id fb) w) as [[[]|e] w1] eqn:Hmig;
    cbn [fst snd] in *.
  2: { split; [done|]. split; [intros; by rewrite Hcats0|]. split; [done|].
       split; [done|]. split; [|done]. intros Hchg. by rewrite Hcats0 in Hchg. }
  destruct (migrateNotesToCategory_ok _ _ _ _ _ Hmig) as [Hnotes Hcats].
  unfold deleteCategory. cbn [JS.truthyB]. rewrite deleteDocCategory_eq.
  destruct (hd false (faults w1)); cbn [fst snd].
  - autorewrite with world.
    split; [intros; by autorewrite with world|].
    split; [intros; by rewrite Hcats0|].
    split; [intros; autorewrite with world; by apply Hrefs0|].
    split; [done|]. split; [|done].
    intros Hchg. by rewrite Hcats in Hchg.
  - autorewrite with world.
    split.
    { intros c Hc. autorewrite with world. rewrite catsOf_setCats_ne by done.
      by autorewrite with world. }
    split; [intros cid Hcid; by rewrite lookup_delete_ne, Hcats0|].
    split; [intros; autorewrite with world; by apply Hrefs0|].
    split; [done|]. split; [by intros _|]. intros _.
    split; [apply lookup_delete_eq|]. split.
    + simpl. rewrite Hcs. apply Forall_forall. intros c Hc.
      apply list_elem_of_In, filter_In in Hc as [_ Hc].
      by apply negb_true_iff, String.eqb_neq in Hc.
    + intros nid d Hd Hc.
      destruct (notesOf (UserNotes uid) w !! nid) as [d0|] eqn:Hd0.
      * destruct (decide (nd_categoryId d0 = Some id)) as [Hc0|Hc0].
        -- rewrite (Hnotes nid d0 Hd0 Hc0) in Hd. injection Hd as <-.
           simpl in Hc. congruence.
        -- destruct (Heither nid d0 Hd0) as [H | [Hc' _]]; [|done]. congruence.
      * rewrite (Hnone nid Hd0) in Hd. done.
Qed.

Lemma handleDeleteCategory_with_fallback_witness :
  user twoCategoriesState = Some "u1"
  /\ List.find (fun c => negb (String.eqb (c_id c) "c1")) (categories twoCategoriesState)
     = Some inboxCategory
  /\ catsOf (UserCategories "u1")
       (handleDeleteCategory true "c1" twoCategoriesState lonelyWorld).2 !! "c1" = None
  /\ categories (handleDeleteCategory true "c1" twoCategoriesState
                   (setFaults [false; true] lonelyWorld)).1.2
     = categories twoCategoriesState.
Proof.
  split; [reflexivity|]. split; [reflexivity|]. split.
  - destruct (handleDeleteCategory_with_fallback "u1" "c1" twoCategoriesState lonelyWorld
                inboxCategory eq_refl eq_refl) as (_ & _ & _ & _ & _ & Hok).
    apply Hok. vm_compute. reflexivity.
  - destruct (handleDeleteCategory_with_fallback "u1" "c1" twoCategoriesState
                (setFaults [false; true] lonelyWorld) inboxCategory eq_refl eq_refl)
      as (_ & _ & _ & Hthrow & _).
    apply (Hthrow StoreError). vm_compute. reflexivity.
Defined.

(** ** What the deletions and [saveNote] leave alone *)

(** X3. [deleteCategory], whatever requests fail, never changes a note of
    any collection (there is no cascade) nor any category other than
    [categoryId] in the private collection of the user; called for a public
    category it throws before any request; when it returns, [categoryId] is
    not in the private collection. *)
Theorem deleteCategory_no_cascade (userId categoryId : string) (isPublic : option bool)
    (w : World) :
  let run := deleteCategory userId categoryId isPublic w in
  (forall r, notesOf r run.2 = notesOf r w)
  /\ (forall c, c <> UserCategories userId -> catsOf c run.2 = catsOf c w)
  /\ (forall cid, cid <> categoryId ->
        catsOf (UserCategories userId) run.2 !! cid
        = catsOf (UserCategories userId) w !! cid)
  /\ (JS.truthyB isPublic = true ->
      run = (Throw (JsError "Cannot delete public categories"), w))
  /\ (run.1 = Ok tt -> catsOf (UserCategories userId) run.2 !! categoryId = None).
Proof.
  intros run. subst run. unfold deleteCategory.
  destruct (JS.truthyB isPublic); [by repeat split|].
  rewrite deleteDocCategory_eq. destruct (hd false (faults w)); cbn [fst snd].
  - repeat split; try done; intros; by autorewrite with world.
  - split; [intros; by autorewrite with world|].
    split; [intros c Hc; autorewrite with world; by rewrite catsOf_setCats_ne, catsOf_served|].
    split; [intros cid Hc; autorewrite with world; by rewrite lookup_delete_ne|].
    split; [done|]. intros _. autorewrite with world. apply lookup_delete_eq.
Qed.

(** X4. [deleteNote], whatever requests fail, changes at most the document
    [noteId] of one collection: the public one when [isPublic] is truthy,
    the private one of the user otherwise. For a caller who is not an admin
    the public collection is never changed, and a public deletion throws
    before any request. When the call returns, [noteId] does not resolve in
    that collection. *)
Theorem deleteNote_scope (userId noteId : string) (isPublic isAdmin : option bool)
    (w : World) :
  let run := deleteNote userId noteId isPublic isAdmin w in
  let target := if JS.truthyB isPublic then PublicNotes else UserNotes userId in
  (forall r, r <> target -> notesOf r run.2 = notesOf r w)
  /\ (forall id, id <> noteId -> notesOf target run.2 !! id = notesOf target w !! id)
  /\ (forall c, catsOf c run.2 = catsOf c w)
  /\ (JS.truthyB isAdmin = false ->
      notesOf PublicNotes run.2 = notesOf PublicNotes w
      /\ (JS.truthyB isPublic = true ->
          run = (Throw (JsError "Only admin can delete public notes"), w)))
  /\ (run.1 = Ok tt -> notesOf target run.2 !! noteId = None).
Proof.
  intros run target. subst run target. unfold deleteNote.
  assert (Hdel : forall r,
             let run := deleteDocNote r noteId w in
             (forall r', r' <> r -> notesOf r' run.2 = notesOf r' w)
             /\ (forall id, id <> noteId -> notesOf r run.2 !! id = notesOf r w !! id)
             /\ (forall c, catsOf c run.2 = catsOf c w)
             /\ (run.1 = Ok tt -> notesOf r run.2 !! noteId = None)).
  { intros r. cbv zeta. rewrite deleteDocNote_eq.
    destruct (hd false (faults w)); cbn [fst snd].
    - repeat split; try done; intros; by autorewrite with world.
    - split; [intros r' Hr'; autorewrite with world;
              by rewrite notesOf_setNotes_ne, notesOf_served|].
      split; [intros id Hid; autorewrite with world; by rewrite lookup_delete_ne|].
      split; [intros; by autorewrite with world|].
      intros _. autorewrite with world. apply lookup_delete_eq. }
  destruct (JS.truthyB isPublic).
  - destruct (JS.truthyB isAdmin); cbn [negb].
    + destruct (Hdel PublicNotes) as (H1 & H2 & H3 & H4). by repeat split.
    + by repeat split.
  - destruct (Hdel (UserNotes userId)) as (H1 & H2 & H3 & H4).
    repeat split; try done. by apply H1.
Qed.

(** X5. [saveNote] called for a user who is not an admin, on any note and
    on both the create and the update path, whatever requests fail: the
    public notes, every category and the private notes of the other users
    are left as they were, and a returned [isPublic] is [false]. *)
Theorem saveNote_non_admin_private_only (userId : string) (note : NoteData)
    (isAdmin categoryIsPublic : option bool) (w : World) :
  JS.truthyB isAdmin = false ->
  let run := saveNote userId note isAdmin categoryIsPublic w in
  (forall r, r <> UserNotes userId -> notesOf r run.2 = notesOf r w)
  /\ (forall c, catsOf c run.2 = catsOf c w)
  /\ (forall id b, run.1 = Ok (id, b) -> b = false).
Proof.
  intros Hadm run. subst run. unfold saveNote. rewrite Hadm. cbn [negb andb].
  destruct (JS.truthy (nd_id note)).
  - destruct (JS.truthyB (nd_isPublic note)); [by repeat split|].
    unfold bind, Date_now, ret, removeUndefined. rewrite updateDocNote_eq.
    destruct (hd false (faults w)); cbn [fst snd].
    + repeat split; try done; intros; by autorewrite with world.
    + destruct (notesOf (UserNotes userId) w !! default "" (nd_id note)); cbn [fst snd].
      * split; [intros r Hr; autorewrite with world;
                by rewrite notesOf_setNotes_ne, notesOf_served|].
        split; [intros; by autorewrite with world|]. by intros id b [= _ <-].
      * repeat split; try done; intros; by autorewrite with world.
  - unfold bind, Date_now, ret, removeUndefined. rewrite addDocNote_eq.
    destruct (hd false (faults w)); cbn [fst snd].
    + repeat split; try done; intros; by autorewrite with world.
    + split; [intros r Hr; autorewrite with world;
              by rewrite notesOf_setNotes_ne, notesOf_served|].
      split; [intros; by autorewrite with world|]. by intros id b [= _ <-].
Qed.

Lemma saveNote_non_admin_private_only_witness :
  JS.truthyB (Some false) = false
  /\ notesOf PublicNotes
       (saveNote "user1" scenarioA_note (Some false) (Some true) publishedWorld).2
     = notesOf PublicNotes publishedWorld.
Proof.
  split; [reflexivity|].
  destruct (saveNote_non_admin_private_only "user1" scenarioA_note (Some false) (Some true)
              publishedWorld eq_refl) as (H & _).
  by apply H.
Defined.

Lemma saveNote_update_run (userId : string) (note : NoteData)
    (isAdmin categoryIsPublic : option bool) (w : World) (id : string) :
  nd_id note = Some id -> id <> "" ->
  (JS.truthyB (nd_isPublic note) = true -> JS.truthyB isAdmin = true) ->
  let pub := JS.truthyB (nd_isPublic note) in
  let target := if pub then PublicNotes else UserNotes userId in
  saveNote userId note isAdmin categoryIsPublic w
  = match updateDocNote target id (withUpdatedAt (clock w) (withoutId note)) w with
    | (Ok _, w') => (Ok (id, pub), w')
    | (Throw e, w') => (Throw e, w')
    end.
Proof.
  intros Hid Hne Hadm pub target. subst pub target. unfold saveNote.
  rewrite Hid. cbn [JS.truthy default].
  destruct (String.eqb_spec id "") as [|_]; [done|]. cbn [negb].
  destruct (JS.truthyB (nd_isPublic note)).
  - rewrite Hadm by done. cbn [negb]. unfold bind, Date_now, ret, removeUndefined.
    by destruct (updateDocNote _ _ _ w) as [[[]|?] ?].
  - unfold bind, Date_now, ret, removeUndefined.
    by destruct (updateDocNote _ _ _ w) as [[[]|?] ?].
Qed.

(** X6. The update path of [saveNote] ([note.id] is a non-empty string; a
    public note needs an admin), when the request is served. If the
    document exists in the partition given by [note.isPublic], it is merged
    with the note: the properties the note carries replace the stored ones,
    the others are kept, [updatedAt] becomes the current time, no [id]
    property is written, and no document appears or disappears. If it does
    not exist (a stale identifier), the call throws not-found and no note
    changes. The other collections are untouched in both cases. *)
Theorem saveNote_update_merges (userId : string) (note : NoteData)
    (isAdmin categoryIsPublic : option bool) (w : World) (id : string) :
  nd_id note = Some id -> id <> "" ->
  (JS.truthyB (nd_isPublic note) = true -> JS.truthyB isAdmin = true) ->
  hd false (faults w) = false ->
  let pub := JS.truthyB (nd_isPublic note) in
  let target := if pub then PublicNotes else UserNotes userId in
  let run := saveNote userId note isAdmin categoryIsPublic w in
  (forall r, r <> target -> notesOf r run.2 = notesOf r w)
  /\ match notesOf target w !! id with
     | Some old =>
         exists d,
           run.1 = Ok (id, pub)
           /\ notesOf target run.2 = <[id := d]> (notesOf target w)
           /\ dom (notesOf target run.2) = dom (notesOf target w)
           /\ nd_updatedAt d = Some (clock w)
           /\ nd_id d = nd_id old
           /\ nd_title d = orOld (nd_title note) (nd_title old)
           /\ nd_content d = orOld (nd_content note) (nd_content old)
           /\ nd_categoryId d = orOld (nd_categoryId note) (nd_categoryId old)
           /\ nd_images d = orOld (nd_images note) (nd_images old)
           /\ nd_imageUrl d = orOld (nd_imageUrl note) (nd_imageUrl old)
           /\ nd_tags d = orOld (nd_tags note) (nd_tags old)
           /\ nd_createdAt d = orOld (nd_createdAt note) (nd_createdAt old)
           /\ nd_ownerId d = orOld (nd_ownerId note) (nd_ownerId old)
     | None => run.1 = Throw NotFound /\ notesOf target run.2 = notesOf target w
     end.
Proof.
  intros Hid Hne Hadm Hf pub target run. subst run.
  rewrite (saveNote_update_run userId note isAdmin categoryIsPublic w id Hid Hne Hadm).
  fold pub target. rewrite updateDocNote_eq, Hf.
  destruct (notesOf target w !! id) as [old|] eqn:Hold; cbn [fst snd].
  - split; [intros r Hr; autorewrite with world;
            by rewrite notesOf_setNotes_ne, notesOf_served|].
    eexists. split; [done|]. autorewrite with world. split; [done|].
    split; [|by repeat split].
    apply dom_insert_lookup_L. eauto.
  - split; [intros; by autorewrite with world|]. split; [done|].
    by autorewrite with world.
Qed.

Lemma saveNote_update_merges_witness :
  nd_id highlightEdit = Some "n1" /\ "n1" <> ""
  /\ (JS.truthyB (nd_isPublic highlightEdit) = true -> JS.truthyB (Some true) = true)
  /\ hd false (faults publishedWorld) = false
  /\ forall r, r <> PublicNotes ->
       notesOf r (saveNote "admin" highlightEdit (Some true) (Some true) publishedWorld).2
       = notesOf r publishedWorld.
Proof.
  split; [reflexivity|]. split; [discriminate|]. split; [reflexivity|].
  split; [reflexivity|].
  assert (Hne : "n1" <> "") by discriminate.
  destruct (saveNote_update_merges "admin" highlightEdit (Some true) (Some true)
              publishedWorld "n1" eq_refl Hne (fun _ => eq_refl) eq_refl)
    as [H _].
  exact H.
Defined.

(** ** Creating, then listing *)

Lemma filter_Permutation_bool {A} (f : A -> bool) (l l' : list A) :
  l ≡ₚ l' -> List.filter f l ≡ₚ List.filter f l'.
Proof.
  induction 1 as [|x l l' _ IH|x y l|l1 l2 l3 _ IH1 _ IH2]; simpl.
  - done.
  - destruct (f x); [by constructor | done].
  - destruct (f x), (f y); try done. apply perm_swap.
  - by etrans.
Qed.

Lemma byCreatedAtAsc_insert (m : gmap string CategoryData) id d :
  m !! id = None -> is_Some (cd_createdAt d) ->
  byCreatedAtAsc (<[id := d]> m) ≡ₚ (id, d) :: byCreatedAtAsc m.
Proof.
  intros Hfree Hc. unfold byCreatedAtAsc. rewrite !merge_sort_Permutation.
  rewrite (filter_Permutation_bool _ _ _ (map_to_list_insert m id d Hfree)).
  simpl. unfold hasCreatedAt at 1. cbn [snd]. by rewrite bool_decide_true.
Qed.

Lemma byUpdatedAtDesc_insert (m : gmap string NoteData) id d :
  m !! id = None -> is_Some (nd_updatedAt d) ->
  byUpdatedAtDesc (<[id := d]> m) ≡ₚ (id, d) :: byUpdatedAtDesc m.
Proof.
  intros Hfree Hc. unfold byUpdatedAtDesc. rewrite !merge_sort_Permutation.
  rewrite (filter_Permutation_bool _ _ _ (map_to_list_insert m id d Hfree)).
  simpl. unfold hasUpdatedAt at 1. cbn [snd]. by rewrite bool_decide_true.
Qed.

(** The read paths when every request is served. *)
Lemma fetchCategories_served userId w :
  allServed w ->
  (fetchCategories userId w).1
  = Ok (map (categoryOfDoc true) (byCreatedAtAsc (catsOf PublicCategories w))
        ++ map (categoryOfDoc false) (byCreatedAtAsc (catsOf (UserCategories userId) w)))%list.
Proof.
  intros Hs. unfold fetchCategories, tryCatch, fetchCategories_try, bind.
  rewrite getDocsCategoriesOrdered_eq, (allServed_hd w Hs).
  rewrite getDocsCategoriesOrdered_eq, allServed_hd by auto with served.
  by autorewrite with world.
Qed.

Lemma fetchNotes_served userId w :
  allServed w ->
  (fetchNotes userId w).1
  = Ok (map (noteOfDoc true) (byUpdatedAtDesc (notesOf PublicNotes w))
        ++ map (noteOfDoc false) (byUpdatedAtDesc (notesOf (UserNotes userId) w)))%list.
Proof.
  intros Hs. unfold fetchNotes, tryCatch, fetchNotes_try, bind.
  rewrite getDocsNotesOrdered_eq, (allServed_hd w Hs).
  rewrite getDocsNotesOrdered_eq, allServed_hd by auto with served.
  by autorewrite with world.
Qed.

Lemma fetchPublicCategories_served w :
  allServed w ->
  (fetchPublicCategories w).1
  = Ok (map (categoryOfDoc true) (byCreatedAtAsc (catsOf PublicCategories w))).
Proof.
  intros Hs. unfold fetchPublicCategories, tryCatch, fetchPublicCategories_try, bind.
  by rewrite getDocsCategoriesOrdered_eq, (allServed_hd w Hs).
Qed.

Lemma fetchPublicNotes_served w :
  allServed w ->
  (fetchPublicNotes w).1 = Ok (map (noteOfDoc true) (byUpdatedAtDesc (notesOf PublicNotes w))).
Proof.
  intros Hs. unfold fetchPublicNotes, tryCatch, fetchPublicNotes_try, bind.
  by rewrite getDocsNotesOrdered_eq, (allServed_hd w Hs).
Qed.

(** X7. [addCategory] followed by [fetchCategories], every request served:
    the list read after the call is the list read before it plus exactly one
    category, which carries the returned identifier, the given name, color
    and icon, [isPublic = false] and the caller as owner, whatever
    [isPublic] and [ownerId] the argument carried; the list of public
    categories that a guest reads is unchanged. *)
Theorem addCategory_then_fetch (userId : string) (category : CategoryInput) (w : World) :
  allServed w ->
  exists id w1 before after,
    addCategory userId category w = (Ok id, w1)
    /\ (fetchCategories userId w).1 = Ok before
    /\ (fetchCategories userId w1).1 = Ok after
    /\ after ≡ₚ mkCategoryData (Some id) (Some (ci_name category))
                  (Some (ci_color category)) (Some (ci_icon category)) (Some false)
                  (Some userId) (Some (clock w)) :: before
    /\ (fetchPublicCategories w1).1 = (fetchPublicCategories w).1.
Proof.
  intros Hs. unfold addCategory, bind, Date_now.
  rewrite addDocCategory_eq, (allServed_hd w Hs).
  set (id := fresh (dom (catsOf (UserCategories userId) w))).
  set (d := privateCategoryDoc userId category (clock w)).
  set (w1 := record _ _).
  assert (Hs1 : allServed w1) by (subst w1; auto with served).
  assert (Hpriv : catsOf (UserCategories userId) w1
                  = <[id := d]> (catsOf (UserCategories userId) w)).
  { subst w1. by autorewrite with world. }
  assert (Hpub : catsOf PublicCategories w1 = catsOf PublicCategories w).
  { subst w1. autorewrite with world. rewrite catsOf_setCats_ne by done.
    by autorewrite with world. }
  eexists id, w1, _, _. split; [done|].
  split; [by apply fetchCategories_served|].
  split; [by apply fetchCategories_served|].
  split.
  - rewrite Hpub, Hpriv.
    rewrite (fmap_Permutation (categoryOfDoc false) _ _
               (byCreatedAtAsc_insert _ id d (fresh_not_used _) ltac:(by eexists))).
    simpl. by rewrite Permutation_middle.
  - rewrite !fetchPublicCategories_served by done. by rewrite Hpub.
Qed.

Lemma addCategory_then_fetch_witness :
  allServed shelfWorld
  /\ exists id w1 after,
       addCategory "u1" (mkCategoryInput "Inbox" "bg-blue-500" "Inbox" (Some true) None)
         shelfWorld = (Ok id, w1)
       /\ (fetchCategories "u1" w1).1 = Ok after
       /\ length after = 4%nat.
Proof.
  split; [by apply allServed_nil|].
  destruct (addCategory_then_fetch "u1"
              (mkCategoryInput "Inbox" "bg-blue-500" "Inbox" (Some true) None) shelfWorld
              (allServed_nil shelfWorld eq_refl))
    as (id & w1 & before & after & Hadd & Hbefore & Hafter & Hperm & _).
  exists id, w1, after. split; [exact Hadd|]. split; [exact Hafter|].
  rewrite Hperm. simpl. f_equal.
  assert (Hb : Ok before = (fetchCategories "u1" shelfWorld).1) by (by rewrite Hbefore).
  vm_compute in Hb. injection Hb as ->. reflexivity.
Defined.

Lemma saveNote_create_run (userId : string) (note : NoteData)
    (isAdmin categoryIsPublic : option bool) (w : World) :
  JS.truthy (nd_id note) = false ->
  hd false (faults w) = false ->
  let pub := JS.truthyB isAdmin && JS.truthyB categoryIsPublic in
  let target := if pub then PublicNotes else UserNotes userId in
  let d := stamped note userId pub (clock w) (clock w) in
  let id := fresh (dom (notesOf target w)) in
  saveNote userId note isAdmin categoryIsPublic w
  = (Ok (id, pub),
     record (EvAddNote target id d) (setNotes target (<[id := d]> (notesOf target w)) (served w))).
Proof.
  intros Hid Hf pub target d id. subst id d target pub. unfold saveNote. rewrite Hid.
  unfold bind, Date_now, ret, removeUndefined.
  destruct (JS.truthyB isAdmin && JS.truthyB categoryIsPublic);
    by rewrite addDocNote_eq, Hf.
Qed.

(** X8. A note created by [saveNote] (the argument has no [id]) and then
    listed by [fetchNotes], every request served: the list read after the
    call is the list read before it plus exactly one note, which carries the
    returned identifier and [isPublic], the caller as owner, the current
    time as [createdAt] and [updatedAt], and the content of the argument
    ([images] included); when the note is private, the public list that a
    guest reads is unchanged. *)
Theorem saveNote_create_then_fetch (userId : string) (note : NoteData)
    (isAdmin categoryIsPublic : option bool) (w : World) :
  nd_id note = None ->
  allServed w ->
  let pub := JS.truthyB isAdmin && JS.truthyB categoryIsPublic in
  exists id w1 before after,
    saveNote userId note isAdmin categoryIsPublic w = (Ok (id, pub), w1)
    /\ (fetchNotes userId w).1 = Ok before
    /\ (fetchNotes userId w1).1 = Ok after
    /\ after ≡ₚ mkNoteData (Some id) (nd_categoryId note) (nd_title note)
                  (nd_content note) (nd_imageUrl note) (nd_images note)
                  (Some (clock w)) (Some (clock w)) (nd_tags note) (Some pub)
                  (Some userId) :: before
    /\ (pub = false -> (fetchPublicNotes w1).1 = (fetchPublicNotes w).1).
Proof.
  intros Hid Hs pub.
  rewrite (saveNote_create_run userId note isAdmin categoryIsPublic w)
    by (by rewrite ?Hid; auto with served).
  fold pub.
  set (target := if pub then PublicNotes else UserNotes userId).
  set (d := stamped note userId pub (clock w) (clock w)).
  set (id := fresh (dom (notesOf target w))). set (w1 := record _ _).
  assert (Hs1 : allServed w1) by (subst w1; auto with served).
  assert (Htarget : notesOf target w1 = <[id := d]> (notesOf target w)).
  { subst w1. by autorewrite with world. }
  assert (Hother : forall r, r <> target -> notesOf r w1 = notesOf r w).
  { intros r Hr. subst w1. autorewrite with world.
    rewrite notesOf_setNotes_ne by done. by autorewrite with world. }
  assert (Hperm : byUpdatedAtDesc (notesOf target w1)
                  ≡ₚ (id, d) :: byUpdatedAtDesc (notesOf target w)).
  { rewrite Htarget. apply byUpdatedAtDesc_insert; [apply fresh_not_used | by eexists]. }
  assert (Hnew : noteOfDoc pub (id, d)
                 = mkNoteData (Some id) (nd_categoryId note) (nd_title note)
                     (nd_content note) (nd_imageUrl note) (nd_images note)
                     (Some (clock w)) (Some (clock w)) (nd_tags note) (Some pub)
                     (Some userId)).
  { unfold noteOfDoc, d, stamped. simpl. by rewrite Hid. }
  eexists id, w1, _, _. split; [done|].
  split; [by apply fetchNotes_served|].
  split; [by apply fetchNotes_served|].
  split.
  - rewrite <- Hnew. subst target. destruct pub.
    + rewrite (Hother (UserNotes userId)) by done.
      by rewrite (fmap_Permutation (noteOfDoc true) _ _ Hperm).
    + rewrite (Hother PublicNotes) by done.
      rewrite (fmap_Permutation (noteOfDoc false) _ _ Hperm).
      simpl. by rewrite Permutation_middle.
  - intros Hpub. rewrite !fetchPublicNotes_served by done.
    subst target. rewrite Hpub in Hother. by rewrite (Hother PublicNotes).
Qed.

Lemma saveNote_create_then_fetch_witness :
  nd_id scenarioA_note = None
  /\ allServed publishedWorld
  /\ exists id w1 after,
       saveNote "user1" scenarioA_note (Some false) (Some true) publishedWorld
         = (Ok (id, false), w1)
       /\ (fetchNotes "user1" w1).1 = Ok after
       /\ length after = 2%nat.
Proof.
  split; [reflexivity|]. split; [by apply allServed_nil|].
  destruct (saveNote_create_then_fetch "user1" scenarioA_note (Some false) (Some true)
              publishedWorld eq_refl (allServed_nil publishedWorld eq_refl))
    as (id & w1 & before & after & Hrun & Hbefore & Hafter & Hperm & _).
  exists id, w1, after. split; [exact Hrun|]. split; [exact Hafter|].
  rewrite Hperm. simpl. f_equal.
  assert (Hb : Ok before = (fetchNotes "user1" publishedWorld).1) by (by rewrite Hbefore).
  vm_compute in Hb. injection Hb as ->. reflexivity.
Defined.

(** ** Moving notes and categories between the partitions *)

(** X9. [toggleNotePublish], whatever requests fail, never loses a note: a
    document that existed before the call still exists unchanged, unless it
    is the source document of the note in the partition the note leaves, the
    call returned, and the copy exists in the destination under the returned
    identifier. A document that did not exist before can only be that copy,
    in the destination; its owner is the caller. No category changes. *)
Theorem toggleNotePublish_never_loses (userId : string) (note : Note) (makePublic : bool)
    (w : World) :
  let run := toggleNotePublish userId note makePublic w in
  let src := if makePublic then UserNotes userId else PublicNotes in
  let dst := if makePublic then PublicNotes else UserNotes userId in
  let copy := withIsPublic makePublic (cleanNoteOf userId note (clock w)) in
  (forall r id d, notesOf r w !! id = Some d ->
     notesOf r run.2 !! id = Some d
     \/ (r = src /\ id = n_id note /\ JS.truthyB (n_isPublic note) = negb makePublic
         /\ exists newId,
              run.1 = Ok (newId, makePublic) /\ notesOf dst run.2 !! newId = Some copy))
  /\ (forall r id d, notesOf r w !! id = None -> notesOf r run.2 !! id = Some d ->
        r = dst /\ d = copy)
  /\ nd_ownerId copy = Some userId
  /\ (forall c, catsOf c run.2 = catsOf c w).
Proof.
  intros run src dst copy.
  assert (Hgen : forall flag : bool,
             let guard := if flag then negb (JS.truthyB (n_isPublic note))
                          else JS.truthyB (n_isPublic note) in
             let s := if flag then UserNotes userId else PublicNotes in
             let t := if flag then PublicNotes else UserNotes userId in
             let c := withIsPublic flag (cleanNoteOf userId note (clock w)) in
             let out :=
               match addDocNote t c w with
               | (Ok newDoc_id, w1) =>
                   match (if guard then deleteDocNote s (n_id note) else ret tt) w1 with
                   | (Ok _, w2) => (Ok (newDoc_id, flag), w2)
                   | (Throw e, w2) => (Throw e, w2)
                   end
               | (Throw e, w1) => (Throw e, w1)
               end in
             (forall r id d, notesOf r w !! id = Some d ->
                notesOf r out.2 !! id = Some d
                \/ (r = s /\ id = n_id note /\ guard = true
                    /\ exists newId,
                         out.1 = Ok (newId, flag) /\ notesOf t out.2 !! newId = Some c))
             /\ (forall r id d, notesOf r w !! id = None -> notesOf r out.2 !! id = Some d ->
                   r = t /\ d = c)
             /\ (forall c', catsOf c' out.2 = catsOf c' w)).
  { intros flag guard s t c out. subst out.
    assert (Hst : s <> t) by (subst s t; by destruct flag).
    rewrite addDocNote_eq. destruct (hd false (faults w)).
    { cbn [fst snd]. split; [|split].
      - intros r id d Hd. left. by autorewrite with world.
      - intros r id d Hn Hd. autorewrite with world in Hd. congruence.
      - intros. by autorewrite with world. }
    set (n0 := fresh (dom (notesOf t w))). set (w1 := record _ _).
    assert (Ht1 : notesOf t w1 = <[n0 := c]> (notesOf t w)).
    { subst w1. by autorewrite with world. }
    assert (Ho1 : forall r, r <> t -> notesOf r w1 = notesOf r w).
    { intros r Hr. subst w1. autorewrite with world.
      rewrite notesOf_setNotes_ne by done. by autorewrite with world. }
    assert (Hc1 : forall c', catsOf c' w1 = catsOf c' w).
    { intros. subst w1. by autorewrite with world. }
    assert (Hfree : notesOf t w !! n0 = None) by apply fresh_not_used.
    assert (Hkeep1 : forall r id d, notesOf r w !! id = Some d -> notesOf r w1 !! id = Some d).
    { intros r id d Hd. destruct (decide (r = t)) as [->|Hr].
      - rewrite Ht1, lookup_insert_ne; [done|]. intros <-. congruence.
      - by rewrite Ho1. }
    assert (Hnew1 : forall r id d, notesOf r w !! id = None -> notesOf r w1 !! id = Some d ->
                      r = t /\ d = c).
    { intros r id d Hn Hd. destruct (decide (r = t)) as [->|Hr].
      - rewrite Ht1 in Hd. destruct (decide (id = n0)) as [->|Hid].
        + rewrite lookup_insert_eq in Hd. by injection Hd as <-.
        + rewrite lookup_insert_ne in Hd by done. congruence.
      - rewrite Ho1 in Hd by done. congruence. }
    destruct guard eqn:Hguard.
    2: { unfold ret. cbn [fst snd]. split; [|split]; [|done..].
         intros r id d Hd. left. by apply Hkeep1. }
    rewrite deleteDocNote_eq. destruct (hd false (faults w1)); cbn [fst snd].
    { split; [|split].
      - intros r id d Hd. left. autorewrite with world. by apply Hkeep1.
      - intros r id d Hn Hd. autorewrite with world in Hd. by apply (Hnew1 r id d).
      - intros. by autorewrite with world. }
    set (w2 := record _ _).
    assert (Hs2 : notesOf s w2 = delete (n_id note) (notesOf s w1)).
    { subst w2. by autorewrite with world. }
    assert (Ho2 : forall r, r <> s -> notesOf r w2 = notesOf r w1).
    { intros r Hr. subst w2. autorewrite with world.
      rewrite notesOf_setNotes_ne by done. by autorewrite with world. }
    split; [|split].
    - intros r id d Hd. destruct (decide (r = s)) as [->|Hr].
      + destruct (decide (id = n_id note)) as [->|Hid].
        * right. split; [done|]. split; [done|]. split; [done|]. exists n0.
          split; [done|]. rewrite Ho2, Ht1 by done. apply lookup_insert_eq.
        * left. rewrite Hs2, lookup_delete_ne by done. by apply Hkeep1.
      + left. rewrite Ho2 by done. by apply Hkeep1.
    - intros r id d Hn Hd. destruct (decide (r = s)) as [->|Hr].
      + rewrite Hs2 in Hd. apply lookup_delete_Some in Hd as [_ Hd].
        by apply (Hnew1 s id d).
      + rewrite Ho2 in Hd by done. by apply (Hnew1 r id d).
    - intros c'. subst w2. autorewrite with world. apply Hc1. }
  assert (Hrun : run = match makePublic with
                       | true =>
                           match addDocNote PublicNotes
                                   (withIsPublic true (cleanNoteOf userId note (clock w))) w with
                           | (Ok newDoc_id, w1) =>
                               match (if negb (JS.truthyB (n_isPublic note))
                                      then deleteDocNote (UserNotes userId) (n_id note)
                                      else ret tt) w1 with
                               | (Ok _, w2) => (Ok (newDoc_id, true), w2)
                               | (Throw e, w2) => (Throw e, w2)
                               end
                           | (Throw e, w1) => (Throw e, w1)
                           end
                       | false =>
                           match addDocNote (UserNotes userId)
                                   (withIsPublic false (cleanNoteOf userId note (clock w))) w with
                           | (Ok newDoc_id, w1) =>
                               match (if JS.truthyB (n_isPublic note)
                                      then deleteDocNote PublicNotes (n_id note)
                                      else ret tt) w1 with
                               | (Ok _, w2) => (Ok (newDoc_id, false), w2)
                               | (Throw e, w2) => (Throw e, w2)
                               end
                           | (Throw e, w1) => (Throw e, w1)
                           end
                       end).
  { subst run. unfold toggleNotePublish, bind, Date_now, ret. by destruct makePublic. }
  rewrite Hrun. clear Hrun. subst src dst copy.
  destruct makePublic.
  - destruct (Hgen true) as (H1 & H2 & H3). cbv zeta in H1, H2, H3.
    split; [|split; [exact H2 | split; [reflexivity | exact H3]]].
    intros r id d Hd. destruct (H1 r id d Hd) as [H | (-> & -> & Hg & H)]; [by left|].
    right. split; [done|]. split; [done|]. split; [|done].
    by apply negb_true_iff in Hg as ->.
  - destruct (Hgen false) as (H1 & H2 & H3). cbv zeta in H1, H2, H3.
    split; [|split; [exact H2 | split; [reflexivity | exact H3]]].
    intros r id d Hd. destruct (H1 r id d Hd) as [H | (-> & -> & Hg & H)]; [by left|].
    right. by repeat split.
Qed.

(** The shared part of [toggleCategoryPublish], when it returns. *)
Lemma cascade_ok src dst srcC userId cid newCategoryId flag w migrated w' :
  src <> dst ->
  cascade src dst srcC userId cid newCategoryId flag w = (Ok migrated, w') ->
  let old := notesOfCategory src cid w in
  (forall nid d, old !! nid = Some d ->
     exists newNoteId,
       migrated !! nid = Some newNoteId
       /\ notesOf dst w !! newNoteId = None
       /\ notesOf dst w' !! newNoteId
          = Some (migratedCopy userId newCategoryId flag (clock w) d)
       /\ notesOf src w' !! nid = None)
  /\ dom migrated = dom old
  /\ (forall nid1 nid2 n,
        migrated !! nid1 = Some n -> migrated !! nid2 = Some n -> nid1 = nid2)
  /\ (forall nid, old !! nid = None -> notesOf src w' !! nid = notesOf src w !! nid)
  /\ (forall k d, notesOf dst w !! k = Some d -> notesOf dst w' !! k = Some d)
  /\ (forall k d, notesOf dst w' !! k = Some d ->
        notesOf dst w !! k = Some d \/ exists nid, migrated !! nid = Some k)
  /\ (forall r, r <> src -> r <> dst -> notesOf r w' = notesOf r w)
  /\ catsOf srcC w' = delete cid (catsOf srcC w)
  /\ (forall c, c <> srcC -> catsOf c w' = catsOf c w).
Proof.
  intros Hne Hrun old. unfold cascade, bind in Hrun.
  rewrite getDocsNotesWhere_eq in Hrun. destruct (hd false (faults w)); [done|].
  fold (notesOfCategory src cid w) in Hrun. fold old in Hrun.
  set (w1 := record (EvQueryNotes src) (served w)) in *.
  assert (Hnotes1 : forall r, notesOf r w1 = notesOf r w).
  { intros r. subst w1. by autorewrite with world. }
  assert (Hclock1 : clock w1 = clock w) by (subst w1; by autorewrite with world).
  assert (Hcats1 : forall c, catsOf c w1 = catsOf c w).
  { intros c. subst w1. by autorewrite with world. }
  destruct (migrateLoop _ _ _ _ _ (map_to_list old) _ w1) as [[m|e] w2] eqn:Hloop; [|done].
  rewrite deleteDocCategory_eq in Hrun. destruct (hd false (faults w2)); [done|].
  unfold ret in Hrun. injection Hrun as <- <-.
  apply migrateLoop_ok in Hloop
    as (Hclock & Hcats & Hkeep & Hnew & Hinj & Hmono & Hsrc & Hother & Honly);
    [|done|apply NoDup_fst_map_to_list].
  assert (Hkeys : forall nid, nid ∈ (map_to_list old).*1 <-> is_Some (old !! nid)).
  { intros nid. rewrite list_elem_of_fmap. split.
    - intros [[nid' d] [-> Hel]]. apply elem_of_map_to_list in Hel. eauto.
    - intros [d Hd]. exists (nid, d). split; [done | by apply elem_of_map_to_list]. }
  assert (Hin : forall nid n, m !! nid = Some n -> nid ∈ (map_to_list old).*1).
  { intros nid n Hm. destruct (decide (nid ∈ (map_to_list old).*1)); [done|].
    rewrite Hkeep, lookup_empty in Hm; done. }
  split; [|split; [|split; [|split; [|split; [|split; [|split; [|split]]]]]]].
  - intros nid d Hd.
    destruct (Hnew nid d) as (n & Hr & Hfree & Hcopy); [by apply elem_of_map_to_list|].
    exists n. rewrite Hnotes1 in Hfree. rewrite Hclock1 in Hcopy.
    split; [done|]. split; [done|]. split; [by autorewrite with world|].
    autorewrite with world. rewrite Hsrc, decide_True; [done|]. apply Hkeys. eauto.
  - apply set_eq. intros nid. rewrite !elem_of_dom. split.
    + intros [n Hm]. apply Hkeys. by apply (Hin nid n).
    + intros [d Hd]. destruct (Hnew nid d) as (n & Hr & _); [|eauto].
      by apply elem_of_map_to_list.
  - intros nid1 nid2 n H1 H2. apply (Hinj nid1 nid2 n); eauto.
  - intros nid Hnone. autorewrite with world. rewrite Hsrc, decide_False, Hnotes1; [done|].
    intros Hel. apply Hkeys in Hel as [? ?]. congruence.
  - intros k d Hk. autorewrite with world. apply Hmono. by rewrite Hnotes1.
  - intros k d Hk. autorewrite with world in Hk.
    destruct (Honly k d Hk) as [Hk1 | (id & _ & Hr)]; [|eauto].
    left. by rewrite <- Hnotes1.
  - intros r Hr1 Hr2. autorewrite with world. by rewrite Hother, Hnotes1.
  - autorewrite with world. by rewrite Hcats, Hcats1.
  - intros c Hc. autorewrite with world. rewrite catsOf_setCats_ne by done.
    autorewrite with world. by rewrite Hcats, Hcats1.
Qed.

(** X10. When [toggleCategoryPublish(userId, cat, makePublic)] moves a
    category to the other partition ([cat.isPublic] is the opposite of
    [makePublic]) and returns: the new category document, with the name,
    color and icon of [cat], the new flag and the caller as owner, is in the
    destination under [newId], which was free. Every note of the partition
    the category leaves (the caller's private notes when publishing, the
    public notes when unpublishing) that referred to [cat.id] has a copy in
    the destination under an identifier that was free; the copy has the
    title, content, [imageUrl], tags and creation time of the note,
    [categoryId = newId], the new flag and the caller as owner, and no
    [images]; the note itself is gone from the partition it was in.
    [migratedNoteIds] maps exactly the identifiers of those notes, distinct
    notes to distinct copies. The other notes of the two partitions and the
    notes of every other collection are untouched, the destination gains no
    note but the copies, and the old category document is gone from the
    partition it was in. *)
Theorem toggleCategoryPublish_moves_partition (userId : string) (category : Category)
    (makePublic : bool) (w : World) (res : ToggleCategoryResult) (w' : World) :
  JS.truthyB (c_isPublic category) = negb makePublic ->
  toggleCategoryPublish userId category makePublic w = (Ok res, w') ->
  let src := if makePublic then UserNotes userId else PublicNotes in
  let dst := if makePublic then PublicNotes else UserNotes userId in
  let srcC := if makePublic then UserCategories userId else PublicCategories in
  let dstC := if makePublic then PublicCategories else UserCategories userId in
  let old := notesOfCategory src (c_id category) w in
  isPublic res = makePublic
  /\ catsOf dstC w !! newId res = None
  /\ (exists c, catsOf dstC w' !! newId res = Some c
                /\ copiedCategory userId makePublic (clock w) category c)
  /\ (forall nid d, old !! nid = Some d ->
        exists newNoteId copy,
          migratedNoteIds res !! nid = Some newNoteId
          /\ notesOf dst w !! newNoteId = None
          /\ notesOf dst w' !! newNoteId = Some copy
          /\ copiedNote userId (newId res) makePublic (clock w) d copy
          /\ notesOf src w' !! nid = None)
  /\ dom (migratedNoteIds res) = dom old
  /\ (forall nid1 nid2 n,
        migratedNoteIds res !! nid1 = Some n -> migratedNoteIds res !! nid2 = Some n ->
        nid1 = nid2)
  /\ (forall nid, old !! nid = None -> notesOf src w' !! nid = notesOf src w !! nid)
  /\ (forall k d, notesOf dst w !! k = Some d -> notesOf dst w' !! k = Some d)
  /\ (forall k d, notesOf dst w' !! k = Some d ->
        notesOf dst w !! k = Some d \/ exists nid, migratedNoteIds res !! nid = Some k)
  /\ (forall r, r <> src -> r <> dst -> notesOf r w' = notesOf r w)
  /\ catsOf srcC w' !! c_id category = None.
Proof.
  intros Hflag Hrun src dst srcC dstC old. rewrite toggleCategoryPublish_eq in Hrun.
  fold src dst srcC dstC in Hrun.
  assert (Hguard : (if makePublic then negb (JS.truthyB (c_isPublic category))
                    else JS.truthyB (c_isPublic category)) = true).
  { rewrite Hflag. by destruct makePublic. }
  rewrite Hguard, addDocCategory_eq in Hrun. destruct (hd false (faults w)); [done|].
  assert (Hne : src <> dst) by (subst src dst; by destruct makePublic).
  assert (HneC : dstC <> srcC) by (subst srcC dstC; by destruct makePublic).
  set (nc := fresh (dom (catsOf dstC w))) in *.
  set (clean := cleanCategoryOf userId category makePublic (clock w)) in *.
  set (w1 := record _ _) in Hrun.
  assert (Hnotes1 : forall r, notesOf r w1 = notesOf r w).
  { intros r. subst w1. by autorewrite with world. }
  assert (Hclock1 : clock w1 = clock w) by (subst w1; by autorewrite with world).
  assert (Hdst1 : catsOf dstC w1 = <[nc := clean]> (catsOf dstC w)).
  { subst w1. by autorewrite with world. }
  destruct (cascade _ _ _ _ _ _ _ w1) as [[migrated|e] w2] eqn:Hcas; [|done].
  injection Hrun as <- <-. cbn [newId isPublic migratedNoteIds].
  apply cascade_ok in Hcas
    as (Hnew & Hdom & Hinj & Hrest & Hmono & Honly & Hother & Hdel & Hcats); [|done].
  unfold notesOfCategory in Hnew, Hdom, Hrest. rewrite Hnotes1 in Hnew, Hdom, Hrest.
  fold (notesOfCategory src (c_id category) w) in Hnew, Hdom, Hrest.
  fold old in Hnew, Hdom, Hrest.
  split; [done|]. split; [apply fresh_not_used|].
  split.
  { exists clean. split; [|apply cleanCategoryOf_copied].
    rewrite Hcats, Hdst1 by done. apply lookup_insert_eq. }
  split.
  { intros nid d Hd. destruct (Hnew nid d Hd) as (n & Hm & Hfree & Hcopy & Hgone).
    exists n, (migratedCopy userId nc makePublic (clock w) d).
    rewrite Hnotes1 in Hfree. rewrite Hclock1 in Hcopy.
    split; [done|]. split; [done|]. split; [done|].
    split; [apply migratedCopy_copied | done]. }
  split; [done|]. split; [done|].
  split; [intros nid Hn; by apply Hrest|].
  split; [intros k d Hk; apply Hmono; by rewrite Hnotes1|].
  split; [intros k d Hk; rewrite <- Hnotes1; by apply Honly|].
  split; [intros r Hr1 Hr2; by rewrite Hother, Hnotes1|].
  rewrite Hdel. apply lookup_delete_eq.
Qed.

Lemma toggleCategoryPublish_moves_partition_witness :
  JS.truthyB (c_isPublic unpublishCategory) = negb false
  /\ JS.truthyB (c_isPublic scenarioB_category) = negb true
  /\ (exists res w',
        toggleCategoryPublish "admin" unpublishCategory false unpublishWorld = (Ok res, w')
        /\ size (migratedNoteIds res) = 1%nat
        /\ notesOf PublicNotes w' !! "n1" = None
        /\ catsOf PublicCategories w' !! "catP" = None)
  /\ (exists res w',
        toggleCategoryPublish "admin" scenarioB_category true scenarioB_world = (Ok res, w')
        /\ size (migratedNoteIds res) = 3%nat
        /\ (exists newNoteId,
              migratedNoteIds res !! "n2" = Some newNoteId
              /\ (nd_title <$> notesOf PublicNotes w' !! newNoteId) = Some (Some "two")
              /\ (nd_categoryId <$> notesOf PublicNotes w' !! newNoteId)
                 = Some (Some (newId res)))
        /\ catsOf (UserCategories "admin") w' !! "catA" = None).
Proof.
  split; [reflexivity|]. split; [reflexivity|]. split.
  - destruct (toggleCategoryPublish_completes "admin" unpublishCategory false unpublishWorld
                (allServed_nil unpublishWorld eq_refl)) as (res & w' & Hrun).
    destruct (toggleCategoryPublish_moves_partition "admin" unpublishCategory false
                unpublishWorld res w' eq_refl Hrun)
      as (_ & _ & _ & Hnotes & Hdom & _ & _ & _ & _ & _ & Hcat).
    exists res, w'. split; [exact Hrun|]. split; [|split; [|exact Hcat]].
    + rewrite <- size_dom, Hdom, size_dom. vm_compute. reflexivity.
    + destruct (Hnotes "n1" publishedDoc) as (n & copy & _ & _ & _ & _ & Hgone);
        [vm_compute; reflexivity | exact Hgone].
  - destruct (toggleCategoryPublish_completes "admin" scenarioB_category true scenarioB_world
                (allServed_nil scenarioB_world eq_refl)) as (res & w' & Hrun).
    destruct (toggleCategoryPublish_moves_partition "admin" scenarioB_category true
                scenarioB_world res w' eq_refl Hrun)
      as (_ & _ & _ & Hnotes & Hdom & _ & _ & _ & _ & _ & Hcat).
    exists res, w'. split; [exact Hrun|]. split; [|split; [|exact Hcat]].
    + rewrite <- size_dom, Hdom, size_dom. vm_compute. reflexivity.
    + destruct (Hnotes "n2" (scenarioB_doc "two" "catA"))
        as (n & copy & Hr & _ & Hc & (Ht & _ & _ & _ & _ & Hcid & _) & _);
        [vm_compute; reflexivity|].
      exists n. split; [exact Hr|]. rewrite Hc. simpl. by rewrite Ht, Hcid.
Defined.

(** X11. [toggleCategoryPublish] called with the flag the category already
    has ([makePublic] equal to [cat.isPublic]), the request served: the call
    returns an empty [migratedNoteIds] and has only added one more category
    document, with the name, color and icon of the category, the same flag
    and the caller as owner, to the partition the category is already in; no
    note is moved, nothing is deleted, and the category's own document is
    still there. *)
Theorem toggleCategoryPublish_same_flag_duplicates (userId : string) (category : Category)
    (w : World) :
  hd false (faults w) = false ->
  let flag := JS.truthyB (c_isPublic category) in
  let here := if flag then PublicCategories else UserCategories userId in
  exists nc c w',
    toggleCategoryPublish userId category flag w
    = (Ok (mkToggleCategoryResult nc flag ∅), w')
    /\ catsOf here w !! nc = None
    /\ catsOf here w' = <[nc := c]> (catsOf here w)
    /\ copiedCategory userId flag (clock w) category c
    /\ (forall d, catsOf here w !! c_id category = Some d ->
          catsOf here w' !! c_id category = Some d)
    /\ (forall c', c' <> here -> catsOf c' w' = catsOf c' w)
    /\ (forall r, notesOf r w' = notesOf r w)
    /\ trace w' = (trace w ++ [EvAddCategory here nc])%list.
Proof.
  intros Hf flag here. rewrite toggleCategoryPublish_eq. fold flag.
  assert (Hguard : (if flag then negb flag else flag) = false) by (by destruct flag).
  rewrite Hguard. replace (if flag then PublicCategories else UserCategories userId)
    with here by done.
  rewrite addDocCategory_eq, Hf. unfold ret.
  eexists _, _, _. split; [reflexivity|]. autorewrite with world.
  split; [apply fresh_not_used|]. split; [done|].
  split; [apply cleanCategoryOf_copied|].
  split.
  { intros d Hd. rewrite lookup_insert_ne; [done|]. intros Heq.
    pose proof (fresh_not_used (catsOf here w)) as Hn. rewrite Heq in Hn. congruence. }
  split; [intros c' Hc; autorewrite with world;
          by rewrite catsOf_setCats_ne, catsOf_served|].
  split; [intros; by autorewrite with world | done].
Qed.

Lemma toggleCategoryPublish_same_flag_duplicates_witness :
  hd false (faults unpublishWorld) = false
  /\ exists nc w',
       toggleCategoryPublish "admin" unpublishCategory true unpublishWorld
       = (Ok (mkToggleCategoryResult nc true ∅), w')
       /\ size (catsOf PublicCategories w') = 2%nat
       /\ (catsOf PublicCategories w' !! nc ≫= cd_name) = Some "Physics".
Proof.
  split; [reflexivity|].
  destruct (toggleCategoryPublish_same_flag_duplicates "admin" unpublishCategory
              unpublishWorld eq_refl) as (nc & c & w' & Hrun & Hfree & Hcats & Hc & _).
  exists nc, w'. split; [exact Hrun|]. simpl in Hcats, Hfree.
  rewrite Hcats. split.
  - rewrite map_size_insert_None by exact Hfree. vm_compute. reflexivity.
  - rewrite lookup_insert_eq. simpl. by destruct Hc as [-> _].
Defined.

(** X22. In every execution of [toggleCategoryPublish], whatever requests
    fail. Let [docs] be the notes that referred to the category in the
    partition it leaves (the caller's private notes when publishing, the
    public notes when unpublishing). There is a renaming [ids] that gives
    notes of [docs] the identifier of their own copy: distinct notes have
    distinct copies, and the identifiers were free in the destination. A
    note is created only in the destination, as the copy of a note of [docs]
    under its identifier; a note is deleted only from the partition the
    category leaves, only if it is one of [docs], and only after its own
    copy was created; the category document is deleted only after the copy
    of each note of [docs] was created. When the call returns, [ids] is the
    [migratedNoteIds] it returns. *)
Theorem toggleCategoryPublish_creates_before_deleting (userId : string)
    (category : Category) (makePublic : bool) (w : World) :
  let run := toggleCategoryPublish userId category makePublic w in
  let src := if makePublic then UserNotes userId else PublicNotes in
  let dst := if makePublic then PublicNotes else UserNotes userId in
  let srcC := if makePublic then UserCategories userId else PublicCategories in
  let docs := map_to_list (notesOfCategory src (c_id category) w) in
  exists es newCategoryId ids,
    trace run.2 = (trace w ++ es)%list
    /\ (forall nid n, ids !! nid = Some n -> nid ∈ docs.*1 /\ notesOf dst w !! n = None)
    /\ (forall nid1 nid2 n, ids !! nid1 = Some n -> ids !! nid2 = Some n -> nid1 = nid2)
    /\ createBeforeDelete src dst srcC (c_id category) docs
         (copiedNote userId newCategoryId makePublic (clock w)) ids es
    /\ (forall res, run.1 = Ok res ->
          newId res = newCategoryId /\ migratedNoteIds res = ids).
Proof.
  intros run src dst srcC docs. subst run.
  destruct (toggleCategoryPublish userId category makePublic w) as [r w'] eqn:Hrun.
  cbn [fst snd]. rewrite toggleCategoryPublish_eq in Hrun. fold src dst srcC in Hrun.
  set (dstC := if makePublic then PublicCategories else UserCategories userId) in Hrun.
  set (guard := if makePublic then _ else _) in Hrun.
  assert (Hne : src <> dst) by (subst src dst; by destruct makePublic).
  rewrite addDocCategory_eq in Hrun. destruct (hd false (faults w)).
  { injection Hrun as <- <-. exists [], "", ∅. autorewrite with world. rewrite app_nil_r.
    split; [done|]. split; [done|]. split; [done|]. split; [apply cbd_nil | done]. }
  set (nc := fresh (dom (catsOf dstC w))) in Hrun.
  set (w1 := record _ _) in Hrun.
  assert (Htrace1 : trace w1 = (trace w ++ [EvAddCategory dstC nc])%list).
  { subst w1. by autorewrite with world. }
  assert (Hclock1 : clock w1 = clock w) by (subst w1; by autorewrite with world).
  assert (Hnotes1 : forall r0, notesOf r0 w1 = notesOf r0 w).
  { intros r0. subst w1. by autorewrite with world. }
  assert (Hcat1 : notesOfCategory src (c_id category) w1
                  = notesOfCategory src (c_id category) w).
  { unfold notesOfCategory. by rewrite Hnotes1. }
  destruct guard.
  2: { unfold ret in Hrun. injection Hrun as <- <-.
       exists [EvAddCategory dstC nc], nc, ∅. split; [done|]. split; [done|].
       split; [done|]. split; [|by intros res [= <-]].
       apply cbd_cons; [done | apply cbd_nil]. }
  destruct (cascade_trace src dst srcC userId (c_id category) nc makePublic w1
              [EvAddCategory dstC nc] Hne)
    as (es & ids & Htrace & Hkeys & Hfresh & Hinj & Hcbd & Hok).
  rewrite Hcat1 in Hkeys, Hcbd. rewrite Hclock1 in Hcbd. fold docs in Hkeys, Hcbd.
  exists (EvAddCategory dstC nc :: es), nc, ids.
  destruct (cascade _ _ _ _ _ _ _ w1) as [[migrated|e] w2]; cbn [fst snd] in *;
    injection Hrun as <- <-.
  - split; [by rewrite Htrace, Htrace1, <- app_assoc|].
    split.
    { intros nid n Hn. split; [|rewrite <- Hnotes1; by apply (Hfresh nid n)].
      destruct (decide (nid ∈ docs.*1)) as [|Hnot]; [done|].
      by rewrite (Hkeys nid Hnot) in Hn. }
    split; [done|]. split; [by apply cbd_cons|].
    intros res [= <-]. cbn [newId migratedNoteIds]. split; [done|]. by apply Hok.
  - split; [by rewrite Htrace, Htrace1, <- app_assoc|].
    split.
    { intros nid n Hn. split; [|rewrite <- Hnotes1; by apply (Hfresh nid n)].
      destruct (decide (nid ∈ docs.*1)) as [|Hnot]; [done|].
      by rewrite (Hkeys nid Hnot) in Hn. }
    split; [done|]. split; [by apply cbd_cons | done].
Qed.

(** ** The provider registry *)

Lemma isConfigured_usable t s c : isConfigured (mkProvider t s c) = usable (Some s).
Proof. reflexivity. Qed.

Lemma usable_truthy o : usable o = true -> JS.truthy o = true.
Proof. destruct o as [s|]; simpl; [|done]. by intros [? _]%andb_true_iff. Qed.

Lemma isConfigured_newGeminiProvider g :
  isConfigured (newGeminiProvider g) = usable (Some g).
Proof.
  unfold newGeminiProvider. rewrite isConfigured_usable.
  destruct (usable (Some g)) eqn:E; by rewrite isConfigured_usable.
Qed.

Lemma newGeminiProvider_usable g :
  usable (Some g) = true -> newGeminiProvider g = mkProvider gemini g true.
Proof. intros H. unfold newGeminiProvider. by rewrite isConfigured_usable, H. Qed.

(** One step of [configure]: the provider of a kind is registered exactly
    when its credential is usable. *)
Lemma register_if_usable (o : option string) (p : Provider) (k : AIProviderType)
    (ps : list (AIProviderType * Provider)) :
  isConfigured p = usable (Some (default "" o)) ->
  (if JS.truthy o then if isConfigured p then mapSet k p ps else ps else ps)
  = if usable o then mapSet k p ps else ps.
Proof.
  intros Hp. destruct o as [s|]; [|done].
  change (default "" (Some s)) with s in Hp. rewrite Hp.
  destruct (usable (Some s)) eqn:E; [by rewrite (usable_truthy _ E)|].
  by destruct (JS.truthy (Some s)).
Qed.

(** The registry built by [configure]. *)
Lemma configure_providers svc settings :
  providers (configure svc settings)
  = ((if usable (geminiApiKey settings)
      then [(gemini, mkProvider gemini (default "" (geminiApiKey settings)) true)] else [])
     ++ (if usable (chatgptApiKey settings)
         then [(chatgpt, mkProvider chatgpt (default "" (chatgptApiKey settings)) false)]
         else []))%list.
Proof.
  unfold configure. cbv zeta. cbn [providers].
  rewrite (register_if_usable (geminiApiKey settings))
    by apply isConfigured_newGeminiProvider.
  rewrite (register_if_usable (chatgptApiKey settings)) by apply isConfigured_usable.
  destruct (usable (geminiApiKey settings)) eqn:Eg.
  - destruct (geminiApiKey settings) as [g|]; [|done].
    change (default "" (Some g)) with g.
    rewrite (newGeminiProvider_usable g Eg).
    by destruct (usable (chatgptApiKey settings)).
  - by destruct (usable (chatgptApiKey settings)).
Qed.

(** X12. The registry after [configure]: a provider kind is registered
    exactly when its credential is present and not blank after trimming; a
    registered provider has its kind, holds that credential and reports
    itself configured; Gemini, when registered, comes before ChatGPT;
    nothing of the former registry survives; and the stored preference is
    the one of the settings, whether or not that provider is registered. *)
Theorem configure_registry (svc : AIService) (settings : UserAISettings) :
  let svc' := configure svc settings in
  (forall t, is_Some (mapGet t (providers svc')) <-> usable (keyOf settings t) = true)
  /\ (forall t p, mapGet t (providers svc') = Some p ->
        p_type p = t /\ Some (p_apiKey p) = keyOf settings t /\ isConfigured p = true)
  /\ map fst (providers svc')
     = ((if usable (geminiApiKey settings) then [gemini] else [])
        ++ (if usable (chatgptApiKey settings) then [chatgpt] else []))%list
  /\ hasAnyProvider svc'
     = usable (geminiApiKey settings) || usable (chatgptApiKey settings)
  /\ hasMultipleProviders svc'
     = usable (geminiApiKey settings) && usable (chatgptApiKey settings)
  /\ preferred svc' = preferredProvider settings
  /\ svc' = configure (mkAIService [] None) settings.
Proof.
  intros svc'. subst svc'. unfold hasAnyProvider, hasMultipleProviders.
  rewrite configure_providers.
  assert (Hkey : forall o, usable o = true -> o = Some (default "" o)).
  { intros [s|]; [done | discriminate]. }
  assert (Hconf : forall o c t, usable o = true ->
                    isConfigured (mkProvider t (default "" o) c) = true).
  { intros [s|] c t H; [by rewrite isConfigured_usable | discriminate]. }
  split; [|split; [|split; [|split; [|split; [|split]]]]]; try done.
  - intros t. destruct t; cbn [keyOf];
      destruct (usable (geminiApiKey settings)), (usable (chatgptApiKey settings));
      simpl; split; (done || by intros [? ?] || eauto).
  - intros t p. destruct t; cbn [keyOf];
      destruct (usable (geminiApiKey settings)) eqn:Eg,
               (usable (chatgptApiKey settings)) eqn:Ec;
      simpl; try done; intros [= <-]; cbn [p_type p_apiKey];
      repeat split; try (symmetry; by apply Hkey); by apply Hconf.
  - by destruct (usable (geminiApiKey settings)), (usable (chatgptApiKey settings)).
  - by destruct (usable (geminiApiKey settings)), (usable (chatgptApiKey settings)).
  - by destruct (usable (geminiApiKey settings)), (usable (chatgptApiKey settings)).
Qed.

Lemma getPreferredProvider_configure svc settings :
  p_type <$> getPreferredProvider (configure svc settings) = chosenKind settings None
  /\ forall p, getPreferredProvider (configure svc settings) = Some p ->
       p_client p = bool_decide (p_type p = gemini) /\ isConfigured p = true.
Proof.
  assert (Hconf : forall o c t, usable o = true ->
                    isConfigured (mkProvider t (default "" o) c) = true).
  { intros [s|] c t H; [by rewrite isConfigured_usable | discriminate]. }
  unfold getPreferredProvider, chosenKind, firstUsable.
  rewrite configure_providers. cbn [preferred configure].
  destruct (preferredProvider settings) as [[]|]; cbn [keyOf];
    destruct (usable (geminiApiKey settings)) eqn:Eg,
             (usable (chatgptApiKey settings)) eqn:Ec;
    simpl; (split; [done|]); try done; intros p [= <-]; cbn [p_client p_type];
    split; try done; by apply Hconf.
Qed.

(** X13. [getPreferredProvider] after [configure]: the preferred kind of
    the settings when its credential is usable; otherwise the first
    registered kind, Gemini before ChatGPT; no provider exactly when no
    credential is usable. *)
Theorem getPreferredProvider_after_configure (svc : AIService) (settings : UserAISettings) :
  let chosen := getPreferredProvider (configure svc settings) in
  (forall t, preferredProvider settings = Some t -> usable (keyOf settings t) = true ->
     p_type <$> chosen = Some t)
  /\ ((forall t, preferredProvider settings = Some t -> usable (keyOf settings t) = false) ->
      p_type <$> chosen = firstUsable settings)
  /\ (usable (geminiApiKey settings) = true -> firstUsable settings = Some gemini)
  /\ (chosen = None
      <-> usable (geminiApiKey settings) = false /\ usable (chatgptApiKey settings) = false).
Proof.
  intros chosen. destruct (getPreferredProvider_configure svc settings) as [Hk _].
  fold chosen in Hk. unfold chosenKind in Hk.
  split; [|split; [|split]].
  - intros t Ht Hu. by rewrite Hk, Ht, Hu.
  - intros Hno. rewrite Hk. destruct (preferredProvider settings) as [t|]; [|done].
    by rewrite (Hno t eq_refl).
  - intros Hg. unfold firstUsable. by rewrite Hg.
  - assert (chosen = None <-> p_type <$> chosen = None) as ->.
    { by destruct chosen. }
    rewrite Hk. unfold firstUsable.
    destruct (preferredProvider settings) as [[]|]; cbn [keyOf];
      destruct (usable (geminiApiKey settings)), (usable (chatgptApiKey settings));
      split; (done || by intros [? ?]).
Qed.

Lemma providerEnhance_configured p context w :
  isConfigured p = true ->
  p_client p = bool_decide (p_type p = gemini) ->
  providerEnhance p context w
  = match p_type p with
    | gemini => geminiGenerate context w
    | chatgpt => chatgptFetch context w
    end.
Proof.
  intros Hc Hcl. unfold providerEnhance, tryCatch, throw. rewrite Hc, Hcl.
  destruct (p_type p); cbn [negb orb bool_decide];
    [rewrite bool_decide_true by done; cbn [negb orb]|].
  - by destruct (geminiGenerate context w) as [[?|?] ?].
  - by destruct (chatgptFetch context w) as [[?|?] ?].
Qed.

Lemma mapGet_configure svc settings t :
  mapGet t (providers (configure svc settings))
  = if usable (keyOf settings t)
    then Some (mkProvider t (default "" (keyOf settings t)) (bool_decide (t = gemini)))
    else None.
Proof.
  rewrite configure_providers.
  destruct t; cbn [keyOf];
    by destruct (usable (geminiApiKey settings)), (usable (chatgptApiKey settings)).
Qed.

(** X14. [enhance] on a service that was just configured. When no kind is
    chosen (the requested kind has no usable credential, or none was
    requested and no credential is usable) it throws the not-configured
    error of the dispatcher and leaves the world as it was. Otherwise the
    check of the provider itself never fires: exactly one request goes to
    the backend of the chosen kind, the store is not touched, and the
    outcome is decided by what the backend does with the request. A rejected
    request throws its error; an answer that is not ok throws the message of
    its body, or "ChatGPT API request failed" without one (ChatGPT), or the
    error of the client (Gemini); an answer without result text throws "No
    response from ChatGPT" or "No response from Gemini"; otherwise the
    outcome is that of parsing the result text. *)
Theorem enhance_after_configure (svc : AIService) (settings : UserAISettings)
    (context : AIRequestContext) (providerType : option AIProviderType) (w : World) :
  let run := enhance (configure svc settings) context providerType w in
  match chosenKind settings providerType with
  | None =>
      run = (Throw (JsError
                      match providerType with
                      | Some gemini => "Provider gemini is not configured"
                      | Some chatgpt => "Provider chatgpt is not configured"
                      | None =>
                          "No AI provider is configured. Please add your API key in Settings."
                      end), w)
  | Some t =>
      trace run.2 = (trace w ++ [EvBackend t])%list
      /\ (forall r, notesOf r run.2 = notesOf r w)
      /\ (forall c, catsOf c run.2 = catsOf c w)
      /\ faults run.2 = faults w
      /\ forall reply rs, replies w = reply :: rs ->
           replies run.2 = rs
           /\ run.1
              = match reply with
                | Rejects e => Throw e
                | NotOk message sdkError =>
                    match t with
                    | gemini => Throw sdkError
                    | chatgpt =>
                        Throw (JsError
                                 match message with
                                 | Some m =>
                                     if String.eqb m "" then "ChatGPT API request failed"
                                     else m
                                 | None => "ChatGPT API request failed"
                                 end)
                    end
                | Answers resultText parsed =>
                    let noResponse :=
                      JsError match t with
                              | gemini => "No response from Gemini"
                              | chatgpt => "No response from ChatGPT"
                              end in
                    match resultText with
                    | Some text => if String.eqb text "" then Throw noResponse else parsed
                    | None => Throw noResponse
                    end
                end
  end.
Proof.
  intros run. subst run.
  assert (Hcall : forall t,
             let out := match t with
                        | gemini => geminiGenerate context w
                        | chatgpt => chatgptFetch context w
                        end in
             trace out.2 = (trace w ++ [EvBackend t])%list
             /\ (forall r, notesOf r out.2 = notesOf r w)
             /\ (forall c, catsOf c out.2 = catsOf c w)
             /\ faults out.2 = faults w
             /\ forall reply rs, replies w = reply :: rs ->
                  replies out.2 = rs
                  /\ out.1
                     = match reply with
                       | Rejects e => Throw e
                       | NotOk message sdkError =>
                           match t with
                           | gemini => Throw sdkError
                           | chatgpt =>
                               Throw (JsError
                                        match message with
                                        | Some m =>
                                            if String.eqb m ""
                                            then "ChatGPT API request failed" else m
                                        | None => "ChatGPT API request failed"
                                        end)
                           end
                       | Answers resultText parsed =>
                           let noResponse :=
                             JsError match t with
                                     | gemini => "No response from Gemini"
                                     | chatgpt => "No response from ChatGPT"
                                     end in
                           match resultText with
                           | Some text =>
                               if String.eqb text "" then Throw noResponse else parsed
                           | None => Throw noResponse
                           end
                       end).
  { intros t. destruct t; cbv zeta;
      unfold geminiGenerate, chatgptFetch, bind, backendRequest, JSON_parse, throw, ret;
      destruct (replies w) as [|reply rs0] eqn:Hr.
    1, 3: cbn [fst snd]; repeat split; try done.
    all: destruct reply as [e|[m|] sdk|[text|] [resp|e]]; cbn [JS.truthy negb default];
      try (match goal with |- context [String.eqb ?s ""] =>
             destruct (String.eqb s "") eqn:Hempty end);
      cbn [negb fst snd];
      (split; [done|]); (split; [done|]); (split; [done|]); (split; [done|]);
      intros reply' rs' [= <- <-]; rewrite ?Hempty; done. }
  assert (Hconf : forall o c t, usable o = true ->
                    isConfigured (mkProvider t (default "" o) c) = true).
  { intros [s|] c t H; [by rewrite isConfigured_usable | discriminate]. }
  unfold enhance. destruct providerType as [t|]; cbn [chosenKind].
  - rewrite mapGet_configure. destruct (usable (keyOf settings t)) eqn:Eu.
    + rewrite providerEnhance_configured; [apply (Hcall t) | by apply Hconf | done].
    + by destruct t.
  - destruct (getPreferredProvider_configure svc settings) as [Hk Hp].
    cbn [chosenKind] in Hk.
    destruct (getPreferredProvider (configure svc settings)) as [p|] eqn:Hget.
    + destruct (Hp p eq_refl) as [Hcl Hc]. cbn [fmap option_fmap option_map] in Hk.
      rewrite <- Hk. rewrite providerEnhance_configured by done. apply (Hcall (p_type p)).
    + cbn [fmap option_fmap option_map] in Hk. by rewrite <- Hk.
Qed.

(** ** Saving and loading the AI settings *)

Lemma mergeSettings_settingsDoc settings now old :
  mergeSettings (settingsDoc settings now) old = settingsDoc settings now.
Proof.
  unfold mergeSettings, settingsDoc, orNull, orNullProvider. simpl.
  by destruct (JS.orElseNone (geminiApiKey settings)),
       (JS.orElseNone (chatgptApiKey settings)), (preferredProvider settings).
Qed.

Lemma aiSettings_written e m w : aiSettings (record e (setAISettings m w)) = m.
Proof. reflexivity. Qed.

Lemma saveUserAISettings_served userId settings w :
  hd false (faults w) = false ->
  saveUserAISettings userId settings w
  = (Ok tt, record (EvSetSettings userId)
              (setAISettings (<[userId := settingsDoc settings (clock w)]> (aiSettings w))
                 (served w))).
Proof.
  intros Hf. unfold saveUserAISettings, bind, Date_now, setDocSettingsMerge, bind, request,
    removeUndefined.
  rewrite Hf. cbn [aiSettings served setFaults].
  change (mkAISettingsDoc (orNull (geminiApiKey settings)) (orNull (chatgptApiKey settings))
            (orNullProvider (preferredProvider settings)) (Val (clock w)))
    with (settingsDoc settings (clock w)).
  change (aiSettings (served w)) with (aiSettings w).
  destruct (aiSettings w !! userId); [by rewrite mergeSettings_settingsDoc | done].
Qed.

Lemma fetchUserAISettings_run userId w :
  fetchUserAISettings userId w
  = (Ok (if hd false (faults w) then None
         else match aiSettings w !! userId with
              | Some data =>
                  Some (mkUserAISettings (orUndefined (sd_geminiApiKey data))
                          (orUndefined (sd_chatgptApiKey data))
                          (orUndefinedProvider (sd_preferredProvider data)))
              | None => None
              end),
     if hd false (faults w) then served w else record (EvGetSettings userId) (served w)).
Proof.
  unfold fetchUserAISettings, tryCatch, fetchUserAISettings_try, bind, getDocSettings, bind,
    request, ret.
  destruct (hd false (faults w)); [done|].
  change (aiSettings (served w)) with (aiSettings w).
  by destruct (aiSettings w !! userId).
Qed.

Lemma settingsDoc_read settings now :
  mkUserAISettings (orUndefined (sd_geminiApiKey (settingsDoc settings now)))
    (orUndefined (sd_chatgptApiKey (settingsDoc settings now)))
    (orUndefinedProvider (sd_preferredProvider (settingsDoc settings now)))
  = normalised settings.
Proof.
  unfold settingsDoc, normalised. cbn [sd_geminiApiKey sd_chatgptApiKey sd_preferredProvider].
  by rewrite !orUndefined_orNull, orUndefinedProvider_orNull.
Qed.

(** X15. Two saves of AI settings by a user followed by a read, every
    request served: the read returns the second settings (falsy credentials
    absent) and nothing of the first, although the write merges into the
    stored document; and what another user reads is what that user read
    before. *)
Theorem aiSettings_last_write_wins (userId other : string) (first second : UserAISettings)
    (w : World) :
  allServed w ->
  other <> userId ->
  exists w1 w2,
    saveUserAISettings userId first w = (Ok tt, w1)
    /\ saveUserAISettings userId second w1 = (Ok tt, w2)
    /\ (fetchUserAISettings userId w2).1 = Ok (Some (normalised second))
    /\ (fetchUserAISettings other w2).1 = (fetchUserAISettings other w).1.
Proof.
  intros Hs Hne.
  set (w1 := record (EvSetSettings userId)
               (setAISettings (<[userId := settingsDoc first (clock w)]> (aiSettings w))
                  (served w))).
  set (w2 := record (EvSetSettings userId)
               (setAISettings (<[userId := settingsDoc second (clock w1)]> (aiSettings w1))
                  (served w1))).
  assert (Hs1 : allServed w1) by (by apply allServed_served in Hs).
  assert (Hs2 : allServed w2) by (by apply allServed_served in Hs1).
  exists w1, w2.
  split; [apply saveUserAISettings_served; auto with served|].
  split; [apply saveUserAISettings_served; auto with served|].
  rewrite !fetchUserAISettings_run, !allServed_hd by done. cbn [fst].
  split.
  - subst w2. rewrite aiSettings_written, lookup_insert_eq.
    by rewrite settingsDoc_read.
  - subst w2 w1. rewrite !aiSettings_written.
    by rewrite !lookup_insert_ne.
Qed.

Lemma aiSettings_last_write_wins_witness :
  allServed emptyWorld
  /\ "u2" <> "u1"
  /\ exists w1 w2,
       saveUserAISettings "u1" (mkUserAISettings (Some "old-key") (Some "sk-1") None)
         emptyWorld = (Ok tt, w1)
       /\ saveUserAISettings "u1" (mkUserAISettings (Some "new-key") None (Some gemini)) w1
          = (Ok tt, w2)
       /\ (fetchUserAISettings "u1" w2).1
          = Ok (Some (mkUserAISettings (Some "new-key") None (Some gemini))).
Proof.
  assert (Hne : "u2" <> "u1") by discriminate.
  split; [by apply allServed_nil|]. split; [exact Hne|].
  destruct (aiSettings_last_write_wins "u1" "u2"
              (mkUserAISettings (Some "old-key") (Some "sk-1") None)
              (mkUserAISettings (Some "new-key") None (Some gemini)) emptyWorld
              (allServed_nil emptyWorld eq_refl) Hne)
    as (w1 & w2 & H1 & H2 & H3 & _).
  exists w1, w2. split; [exact H1|]. split; [exact H2 | exact H3].
Defined.

Lemma usable_orElseNone o : usable (JS.orElseNone o) = usable o.
Proof.
  unfold JS.orElseNone. destruct (JS.truthy o) eqn:E; [done|].
  destruct o as [s|]; [|done]. simpl in *. by rewrite E.
Qed.

(** X16. [loadSettings] never throws. After a user saved settings, with the
    write and the read served, the reloaded service has registered exactly
    the provider kinds whose saved credential is usable, and prefers the
    saved kind. When the read fails, or nobody is signed in, the reloaded
    service has no provider at all, whatever it had before. *)
Theorem loadSettings_after_save (userId : string) (settings : UserAISettings)
    (aiService : AIService) (w : World) :
  hd false (faults w) = false ->
  exists w1,
    saveUserAISettings userId settings w = (Ok tt, w1)
    /\ (hd false (faults w1) = false ->
        exists svc w2,
          loadSettings (Some userId) aiService w1 = (Ok svc, w2)
          /\ (forall t, is_Some (mapGet t (providers svc)) <-> usable (keyOf settings t) = true)
          /\ preferred svc = preferredProvider settings)
    /\ (hd false (faults w1) = true ->
        exists svc w2,
          loadSettings (Some userId) aiService w1 = (Ok svc, w2) /\ providers svc = [])
    /\ exists svc, loadSettings None aiService w1 = (Ok svc, w1) /\ providers svc = [].
Proof.
  intros Hf. rewrite (saveUserAISettings_served userId settings w Hf).
  set (w1 := record _ _). exists w1. split; [done|].
  assert (Hdoc : aiSettings w1 !! userId = Some (settingsDoc settings (clock w))).
  { subst w1. rewrite aiSettings_written. apply lookup_insert_eq. }
  split; [|split].
  - intros Hf1. unfold loadSettings, tryCatch, bind.
    rewrite fetchUserAISettings_run, Hf1, Hdoc, settingsDoc_read. unfold ret.
    eexists _, _. split; [reflexivity|]. split; [|done].
    intros t. rewrite mapGet_configure.
    assert (usable (keyOf (normalised settings) t) = usable (keyOf settings t)) as ->.
    { destruct t; cbn [keyOf normalised geminiApiKey chatgptApiKey];
        apply usable_orElseNone. }
    destruct (usable (keyOf settings t)); split; (done || eauto || by intros [? ?]).
  - intros Hf1. unfold loadSettings, tryCatch, bind.
    rewrite fetchUserAISettings_run, Hf1. unfold ret.
    eexists _, _. split; [reflexivity|]. by rewrite configure_providers.
  - eexists. split; [reflexivity|]. by rewrite configure_providers.
Qed.

Lemma loadSettings_after_save_witness :
  hd false (faults emptyWorld) = false
  /\ exists w1 svc w2,
       saveUserAISettings "u1" (mkUserAISettings (Some "AIza-key") (Some "  ") (Some chatgpt))
         emptyWorld = (Ok tt, w1)
       /\ loadSettings (Some "u1") (mkAIService [] None) w1 = (Ok svc, w2)
       /\ is_Some (mapGet gemini (providers svc))
       /\ mapGet chatgpt (providers svc) = None.
Proof.
  split; [reflexivity|].
  destruct (loadSettings_after_save "u1"
              (mkUserAISettings (Some "AIza-key") (Some "  ") (Some chatgpt))
              (mkAIService [] None) emptyWorld eq_refl) as (w1 & Hsave & Hload & _).
  assert (Hf1 : hd false (faults w1) = false).
  { injection Hsave as <-. reflexivity. }
  destruct (Hload Hf1) as (svc & w2 & Hrun & Hreg & _).
  exists w1, svc, w2. split; [exact Hsave|]. split; [exact Hrun|]. split.
  - apply Hreg. reflexivity.
  - destruct (mapGet chatgpt (providers svc)) eqn:E; [|reflexivity].
    assert (Hbad : usable (Some "  ") = true) by (apply (Hreg chatgpt); eauto).
    discriminate Hbad.
Defined.

(** ** The note editor and the note list in memory *)

(** X17. The images of a note through a save from the editor ([handleSave],
    [handleSaveNote], the update path of [saveNote]) when the request is
    served and the document of the note exists. The note in memory shows
    the images of the editor, whatever they are. In the store, a list that
    is not empty replaces the [images] of the document, its first image
    becomes the [imageUrl], and the stored note reopens with exactly that
    list. When the list of the editor is empty, the [images] and [imageUrl]
    of the document are left as they were: the stored note reopens with its
    former images. *)
Theorem noteEditor_images_through_store (isAdmin : bool) (note : Note)
    (untitled title content : string) (images tags : list string) (st : AppState)
    (w : World) (uid : string) (old : NoteData) :
  user st = Some uid ->
  n_id note <> "" ->
  (JS.truthyB (n_isPublic note) = true -> isAdmin = true) ->
  hd false (faults w) = false ->
  let target := if JS.truthyB (n_isPublic note) then PublicNotes else UserNotes uid in
  notesOf target w !! n_id note = Some old ->
  let data := handleSave_data untitled title content images tags in
  let out := handleSaveNote isAdmin note data st w in
  out.1.1 = Ok tt
  /\ Forall (fun n => n_id n = n_id note -> initialImages (Some n) = images)
       (notes out.1.2)
  /\ exists d,
       notesOf target out.2 !! n_id note = Some d
       /\ (images <> [] ->
           nd_images d = Some images /\ nd_imageUrl d = head images
           /\ openedImages (nd_images d) (nd_imageUrl d) = images)
       /\ (images = [] ->
           nd_images d = nd_images old /\ nd_imageUrl d = nd_imageUrl old
           /\ openedImages (nd_images d) (nd_imageUrl d)
              = openedImages (nd_images old) (nd_imageUrl old)).
Proof.
  intros Hu Hid Hadm Hf target Hold data out. subst out.
  unfold handleSaveNote. rewrite Hu.
  set (noteData := mkNoteData _ _ _ _ _ _ _ _ _ _ _).
  set (cip := Some match _ with Some c => _ | None => false end).
  rewrite (saveNote_update_run uid noteData (Some isAdmin) cip w (n_id note));
    [|done|done|].
  2: { subst noteData. cbn [nd_isPublic]. intros H.
       cbn [JS.truthyB]. apply Hadm. exact H. }
  assert (Hpub : JS.truthyB (nd_isPublic noteData) = JS.truthyB (n_isPublic note)) by done.
  rewrite Hpub. fold target. rewrite updateDocNote_eq, Hf, Hold. cbn [fst snd].
  split; [done|]. split.
  - cbn [notes appSetNotes]. apply Forall_forall. intros n Hn Heq.
    apply list_elem_of_fmap in Hn as (n0 & -> & Hn0).
    destruct (String.eqb_spec (n_id n0) (n_id note)) as [E|E].
    + subst data. unfold initialImages, withEditorData, handleSave_data, savedImages.
      cbn [n_images n_imageUrl e_images e_imageUrl fst snd].
      by destruct images.
    + done.
  - eexists. split; [autorewrite with world; apply lookup_insert_eq|].
    subst data noteData. unfold handleSave_data, savedImages.
    cbn [mergeNote withUpdatedAt withoutId nd_images nd_imageUrl e_images e_imageUrl
           fst snd orOld].
    split.
    + intros Hne. by destruct images.
    + intros ->. done.
Qed.

Lemma noteEditor_images_through_store_witness :
  user lonelyState = Some "u1"
  /\ notesOf (UserNotes "u1") galleryWorld !! "n1" = Some galleryDoc
  /\ (exists d,
        notesOf (UserNotes "u1")
          (handleSaveNote false galleryNote
             (handleSave_data "Untitled" "Trip" "Photos" [] [])
             lonelyState galleryWorld).2 !! "n1" = Some d
        /\ openedImages (nd_images d) (nd_imageUrl d) = ["img1"; "img2"])
  /\ (exists d,
        notesOf (UserNotes "u1")
          (handleSaveNote false galleryNote
             (handleSave_data "Untitled" "Trip" "Photos" ["img3"] [])
             lonelyState galleryWorld).2 !! "n1" = Some d
        /\ openedImages (nd_images d) (nd_imageUrl d) = ["img3"]).
Proof.
  split; [reflexivity|]. split; [reflexivity|]. split.
  - destruct (noteEditor_images_through_store false galleryNote "Untitled" "Trip" "Photos"
                [] [] lonelyState galleryWorld "u1" galleryDoc
                eq_refl ltac:(discriminate) ltac:(discriminate) eq_refl eq_refl)
      as (_ & _ & d & Hd & _ & Hempty).
    exists d. split; [exact Hd|]. destruct (Hempty eq_refl) as (_ & _ & ->). reflexivity.
  - destruct (noteEditor_images_through_store false galleryNote "Untitled" "Trip" "Photos"
                ["img3"] [] lonelyState galleryWorld "u1" galleryDoc
                eq_refl ltac:(discriminate) ltac:(discriminate) eq_refl eq_refl)
      as (_ & _ & d & Hd & Hfull & _).
    exists d. split; [exact Hd|]. by destruct (Hfull ltac:(discriminate)) as (_ & _ & ->).
Defined.

(** X18. [handleDeleteNoteDirectly], whatever requests fail, never throws
    and keeps memory and store in step: the notes in memory are unchanged,
    or the notes with that identifier were removed from memory and the
    delete was served, so the identifier no longer resolves in the partition
    of the note. Store documents under other identifiers are never changed.
    When the caller is not an admin and the note is public, nothing is
    requested and nothing changes. *)
Theorem handleDeleteNoteDirectly_in_step (isAdmin : bool) (id : string) (st : AppState)
    (w : World) (uid : string) :
  user st = Some uid ->
  let out := handleDeleteNoteDirectly isAdmin id st w in
  let isPublic :=
    match List.find (fun n => String.eqb (n_id n) id) (notes st) with
    | Some n => JS.truthyB (n_isPublic n)
    | None => false
    end in
  let target := if isPublic then PublicNotes else UserNotes uid in
  (out.1 = st
   \/ (out.1 = appRemoveNote id st /\ notesOf target out.2 !! id = None))
  /\ (forall r nid, nid <> id -> notesOf r out.2 !! nid = notesOf r w !! nid)
  /\ (forall r, r <> target -> notesOf r out.2 = notesOf r w)
  /\ (hd false (faults w) = true -> out.1 = st)
  /\ (isAdmin = false -> isPublic = true -> out = (st, w)).
Proof.
  intros Hu out isPublic target. subst out. unfold handleDeleteNoteDirectly. rewrite Hu.
  set (flag := match List.find _ (notes st) with Some n => n_isPublic n | None => None end).
  assert (Hflag : JS.truthyB flag = isPublic).
  { subst flag isPublic. by destruct (List.find _ (notes st)). }
  unfold deleteNote. rewrite Hflag. cbn [JS.truthyB]. fold target.
  assert (Hdel : forall r,
             let run := deleteDocNote r id w in
             (run.1 = Ok tt -> notesOf r run.2 !! id = None)
             /\ (forall r' nid, nid <> id -> notesOf r' run.2 !! nid = notesOf r' w !! nid)
             /\ (forall r', r' <> r -> notesOf r' run.2 = notesOf r' w)
             /\ (hd false (faults w) = true -> exists e, run.1 = Throw e)).
  { intros r. cbv zeta. rewrite deleteDocNote_eq.
    destruct (hd false (faults w)); cbn [fst snd].
    - split; [done|]. split; [intros; by autorewrite with world|].
      split; [intros; by autorewrite with world | eauto].
    - split; [intros _; autorewrite with world; apply lookup_delete_eq|].
      split.
      + intros r' nid Hn. autorewrite with world.
        destruct (decide (r' = r)) as [->|Hr].
        * autorewrite with world. by rewrite lookup_delete_ne.
        * rewrite notesOf_setNotes_ne by done. by autorewrite with world.
      + split; [|done]. intros r' Hr. autorewrite with world.
        rewrite notesOf_setNotes_ne by done. by autorewrite with world. }
  assert (Hout : forall r,
             let out := match deleteDocNote r id w with
                        | (Ok _, w') => (appRemoveNote id st, w')
                        | (Throw _, w') => (st, w')
                        end in
             (out.1 = st \/ (out.1 = appRemoveNote id st /\ notesOf r out.2 !! id = None))
             /\ (forall r' nid, nid <> id -> notesOf r' out.2 !! nid = notesOf r' w !! nid)
             /\ (forall r', r' <> r -> notesOf r' out.2 = notesOf r' w)
             /\ (hd false (faults w) = true -> out.1 = st)).
  { intros r. destruct (Hdel r) as (H1 & H2 & H3 & H4). cbv zeta in *.
    destruct (deleteDocNote r id w) as [[[]|e] w']; cbn [fst snd] in *.
    - split; [right; split; [done | by apply H1]|]. split; [done|]. split; [done|].
      intros Hf. by destruct (H4 Hf).
    - by repeat split; try left. }
  destruct isPublic.
  - subst target. destruct isAdmin; cbn [negb].
    + destruct (Hout PublicNotes) as (H1 & H2 & H3 & H4). by repeat split.
    + unfold throw. cbn [fst snd]. repeat split; try done. by left.
  - subst target. destruct (Hout (UserNotes uid)) as (H1 & H2 & H3 & H4).
    by repeat split.
Qed.

Lemma handleDeleteNoteDirectly_in_step_witness :
  user lonelyState = Some "u1"
  /\ (handleDeleteNoteDirectly false "n1" lonelyState lonelyWorld).1
     = appRemoveNote "n1" lonelyState
  /\ (handleDeleteNoteDirectly false "n1" lonelyState
        (setFaults [true] lonelyWorld)).1 = lonelyState.
Proof.
  split; [reflexivity|]. split.
  - destruct (handleDeleteNoteDirectly_in_step false "n1" lonelyState lonelyWorld "u1"
                eq_refl) as ([H | [H _]] & _); [|exact H].
    vm_compute in H. discriminate H.
  - destruct (handleDeleteNoteDirectly_in_step false "n1" lonelyState
                (setFaults [true] lonelyWorld) "u1" eq_refl) as (_ & _ & _ & H & _).
    by apply H.
Defined.

(** ** Granting the admin role *)

Lemma anyAdmin_served s :
  hd false (serverFaults s) = false ->
  exists s', anyAdmin s = (Done (bool_decide (adminProfiles s <> ∅)), s')
             /\ profiles s' = profiles s /\ authUsers s' = authUsers s
             /\ customClaims s' = customClaims s /\ serverTime s' = serverTime s.
Proof.
  intros Hf. unfold anyAdmin, sbind, srvRequest. rewrite Hf. cbn [profiles].
  exists (mkServer (profiles s) (authUsers s) (customClaims s) (serverTime s)
            (tl (serverFaults s))).
  split; [|done]. f_equal. f_equal. fold (adminProfiles s).
  destruct (map_to_list (adminProfiles s)) as [|kv l] eqn:E.
  - apply map_to_list_empty_iff in E. rewrite bool_decide_false; [done|]. by intros [].
  - rewrite bool_decide_true; [done|]. intros Hempty.
    by rewrite Hempty, map_to_list_empty in E.
Qed.

(** When a profile is an admin, [setupInitialAdmin] changes nothing and
    does not succeed. *)
Lemma setupInitialAdmin_guard env auth s :
  adminProfiles s <> ∅ ->
  let out := setupInitialAdmin env auth s in
  profiles out.2 = profiles s /\ customClaims out.2 = customClaims s /\ out.1 <> Done tt.
Proof.
  intros Hadm out. subst out.
  destruct (setupInitialAdmin env auth s) as [r s2] eqn:Hout.
  unfold setupInitialAdmin in Hout.
  destruct auth as [uid|]; [|by injection Hout as <- <-].
  unfold sbind at 1 in Hout.
  destruct (hd false (serverFaults s)) eqn:Hf.
  - unfold anyAdmin, sbind, srvRequest in Hout. rewrite Hf in Hout.
    by injection Hout as <- <-.
  - destruct (anyAdmin_served s Hf) as (s' & Hrun & Hp & _ & Hc & _).
    rewrite Hrun, bool_decide_true in Hout by done.
    injection Hout as <- <-. cbn [fst snd]. by rewrite Hp, Hc.
Qed.

Lemma setupInitialAdmin_effect env auth s :
  let out := setupInitialAdmin env auth s in
  (forall other, auth <> Some other ->
     profiles out.2 !! other = profiles s !! other
     /\ customClaims out.2 !! other = customClaims s !! other)
  /\ (profiles out.2 <> profiles s \/ customClaims out.2 <> customClaims s \/ out.1 = Done tt ->
      exists uid u email,
        auth = Some uid /\ authUsers s !! uid = Some u /\ ur_email u = Some email
        /\ In (JS.toLowerCase email) (ADMIN_EMAILS env)
        /\ (profiles out.2 !! uid ≫= pf_isAdmin) = Some true)
  /\ (out.1 = Done tt -> exists uid, auth = Some uid /\ customClaims out.2 !! uid = Some true).
Proof.
  intros out. subst out.
  destruct (setupInitialAdmin env auth s) as [r s2] eqn:Hout.
  unfold setupInitialAdmin in Hout.
  assert (Hstop : forall e s1,
            profiles s1 = profiles s -> customClaims s1 = customClaims s ->
            (r, s2) = (Failed e, s1) ->
            (forall other, auth <> Some other ->
               profiles (r, s2).2 !! other = profiles s !! other
               /\ customClaims (r, s2).2 !! other = customClaims s !! other)
            /\ (profiles (r, s2).2 <> profiles s \/ customClaims (r, s2).2 <> customClaims s
                \/ (r, s2).1 = Done tt ->
                exists uid u email,
                  auth = Some uid /\ authUsers s !! uid = Some u /\ ur_email u = Some email
                  /\ In (JS.toLowerCase email) (ADMIN_EMAILS env)
                  /\ (profiles (r, s2).2 !! uid ≫= pf_isAdmin) = Some true)
            /\ ((r, s2).1 = Done tt ->
                exists uid, auth = Some uid /\ customClaims (r, s2).2 !! uid = Some true)).
  { intros e s1 Hp Hc [= -> ->]. cbn [fst snd]. rewrite Hp, Hc.
    split; [done|]. split; [|done]. by intros [?|[?|?]]. }
  destruct auth as [uid|];
    [|refine (Hstop _ _ _ _ (eq_sym Hout)); cbn [profiles customClaims]; congruence].
  unfold sbind at 1 in Hout.
  destruct (hd false (serverFaults s)) eqn:Hf.
  { unfold anyAdmin, sbind, srvRequest in Hout. rewrite Hf in Hout.
    refine (Hstop _ _ _ _ (eq_sym Hout)); cbn [profiles customClaims]; congruence. }
  destruct (anyAdmin_served s Hf) as (s1 & Hrun & Hp1 & Ha1 & Hc1 & Ht1).
  rewrite Hrun in Hout. clear Hrun.
  destruct (bool_decide (adminProfiles s <> ∅)).
  { refine (Hstop _ _ _ _ (eq_sym Hout)); cbn [profiles customClaims]; congruence. }
  unfold sbind at 1 in Hout. unfold getUser, sbind at 1, srvRequest in Hout.
  destruct (hd false (serverFaults s1)) eqn:Hf1;
    cbn [authUsers profiles customClaims] in Hout.
  { refine (Hstop _ _ _ _ (eq_sym Hout)); cbn [profiles customClaims]; congruence. }
  rewrite Ha1 in Hout. destruct (authUsers s !! uid) as [u|] eqn:Hu.
  2: { refine (Hstop _ _ _ _ (eq_sym Hout)); cbn [profiles customClaims]; congruence. }
  destruct (ur_email u) as [email|] eqn:He.
  2: { refine (Hstop _ _ _ _ (eq_sym Hout)); cbn [profiles customClaims]; congruence. }
  change (default "" (Some email)) with email in Hout.
  destruct (negb (JS.truthy (Some email))
            || negb (arrayIncludes (ADMIN_EMAILS env) (JS.toLowerCase email))) eqn:Hchk.
  { refine (Hstop _ _ _ _ (eq_sym Hout)); cbn [profiles customClaims]; congruence. }
  apply orb_false_iff in Hchk as [_ Hinc]. apply negb_false_iff in Hinc.
  assert (Hin : In (JS.toLowerCase email) (ADMIN_EMAILS env)).
  { unfold arrayIncludes in Hinc. apply existsb_exists in Hinc as (x & Hx & Heq).
    apply String.eqb_eq in Heq. by subst. }
  unfold sbind at 1 in Hout. cbn [serverTime] in Hout.
  unfold sbind at 1 in Hout. unfold setProfile, sbind at 1, srvRequest in Hout.
  cbn [serverFaults profiles authUsers customClaims serverTime fst snd] in Hout.
  destruct (hd false (tl (serverFaults s1))) eqn:Hf2.
  { refine (Hstop _ _ _ _ (eq_sym Hout)); cbn [profiles customClaims]; congruence. }
  unfold withProfiles, sbind, setCustomUserClaims, sbind, srvRequest in Hout.
  cbn [serverFaults profiles authUsers customClaims serverTime fst snd] in Hout.
  rewrite ?Ha1, ?Hu in Hout.
  destruct (hd false (tl (tl (serverFaults s1))));
    unfold withClaims, sret in Hout; injection Hout as <- <-;
    cbn [fst snd profiles customClaims]; rewrite ?Hp1, ?Hc1.
  - split; [intros other Ho; rewrite lookup_insert_ne by congruence; done|].
    split; [|done]. intros _. exists uid, u, email.
    by rewrite lookup_insert_eq.
  - split; [intros other Ho; rewrite !lookup_insert_ne by congruence; done|].
    split; [|intros _; exists uid; by rewrite lookup_insert_eq].
    intros _. exists uid, u, email. by rewrite lookup_insert_eq.
Qed.

(** X19. [setupInitialAdmin], whatever requests fail. If some profile is
    already an admin, nothing changes and the call fails. The profile and
    the claim of users other than the caller never change. A profile or a
    claim changes only for a caller whose email, lower-cased, is in the
    admin list, and the caller's profile is then an admin. When the call
    succeeds, the caller has the admin profile and the admin claim, and no
    further call of [setupInitialAdmin], by anyone, can succeed. *)
Theorem setupInitialAdmin_once (env auth : option string) (s : Server) :
  let out := setupInitialAdmin env auth s in
  (adminProfiles s <> ∅ ->
   profiles out.2 = profiles s /\ customClaims out.2 = customClaims s /\ out.1 <> Done tt)
  /\ (forall other, auth <> Some other ->
        profiles out.2 !! other = profiles s !! other
        /\ customClaims out.2 !! other = customClaims s !! other)
  /\ (profiles out.2 <> profiles s \/ customClaims out.2 <> customClaims s ->
      exists uid u email,
        auth = Some uid /\ authUsers s !! uid = Some u /\ ur_email u = Some email
        /\ In (JS.toLowerCase email) (ADMIN_EMAILS env)
        /\ (profiles out.2 !! uid ≫= pf_isAdmin) = Some true)
  /\ (out.1 = Done tt ->
      exists uid,
        auth = Some uid
        /\ (profiles out.2 !! uid ≫= pf_isAdmin) = Some true
        /\ customClaims out.2 !! uid = Some true
        /\ forall auth', (setupInitialAdmin env auth' out.2).1 <> Done tt).
Proof.
  intros out. split; [apply setupInitialAdmin_guard|].
  destruct (setupInitialAdmin_effect env auth s) as (Hframe & Hchange & Hok).
  fold out in Hframe, Hchange, Hok.
  split; [done|]. split; [intros [H|H]; apply Hchange; auto|].
  intros Hdone. destruct (Hok Hdone) as (uid & -> & Hclaim).
  destruct Hchange as (uid' & u & email & [= <-] & _ & _ & _ & Hadm); [auto|].
  exists uid. split; [done|]. split; [done|]. split; [done|].
  intros auth'. apply setupInitialAdmin_guard.
  destruct (profiles out.2 !! uid) as [d|] eqn:Hd; [|done]. cbn in Hadm.
  intros Hempty. assert (adminProfiles out.2 !! uid = Some d) as Hl.
  { by apply map_lookup_filter_Some. }
  by rewrite Hempty in Hl.
Qed.

(** X20. [setAdminRole], whatever requests fail. Only the profile and the
    claim of the target can change. Anything changes, or the call succeeds,
    only when the caller's own profile is an admin, the target identifier
    is not empty and the target has a profile. On success the target's
    profile keeps its other properties, its [isAdmin] is the requested
    value, and so is its claim. *)
Theorem setAdminRole_admin_only (auth : option string) (targetUserId : string)
    (isAdmin : bool) (s : Server) :
  let out := setAdminRole auth targetUserId isAdmin s in
  (forall other, other <> targetUserId ->
     profiles out.2 !! other = profiles s !! other
     /\ customClaims out.2 !! other = customClaims s !! other)
  /\ (profiles out.2 <> profiles s \/ customClaims out.2 <> customClaims s
      \/ (exists r, out.1 = Done r) ->
      exists caller,
        auth = Some caller
        /\ (profiles s !! caller ≫= pf_isAdmin) = Some true
        /\ targetUserId <> ""
        /\ is_Some (profiles s !! targetUserId))
  /\ (forall r, out.1 = Done r ->
      r = (targetUserId, isAdmin)
      /\ profiles out.2 !! targetUserId
         = (fun d => mkProfileDoc (pf_email d) (pf_displayName d) (Some isAdmin)
                       (pf_createdAt d)) <$> profiles s !! targetUserId
      /\ customClaims out.2 !! targetUserId = Some isAdmin).
Proof.
  intros out. subst out.
  destruct (setAdminRole auth targetUserId isAdmin s) as [res s2] eqn:Hout.
  unfold setAdminRole in Hout.
  assert (Hstop : forall e s1,
            profiles s1 = profiles s -> customClaims s1 = customClaims s ->
            (res, s2) = (Failed e, s1) ->
            (forall other, other <> targetUserId ->
               profiles (res, s2).2 !! other = profiles s !! other
               /\ customClaims (res, s2).2 !! other = customClaims s !! other)
            /\ (profiles (res, s2).2 <> profiles s \/ customClaims (res, s2).2 <> customClaims s
                \/ (exists r, (res, s2).1 = Done r) ->
                exists caller,
                  auth = Some caller
                  /\ (profiles s !! caller ≫= pf_isAdmin) = Some true
                  /\ targetUserId <> ""
                  /\ is_Some (profiles s !! targetUserId))
            /\ (forall r, (res, s2).1 = Done r ->
                r = (targetUserId, isAdmin)
                /\ profiles (res, s2).2 !! targetUserId
                   = (fun d => mkProfileDoc (pf_email d) (pf_displayName d) (Some isAdmin)
                                 (pf_createdAt d)) <$> profiles s !! targetUserId
                /\ customClaims (res, s2).2 !! targetUserId = Some isAdmin)).
  { intros e s1 Hp Hc [= -> ->]. cbn [fst snd]. rewrite Hp, Hc.
    split; [done|]. split; [|done]. by intros [?|[?|[? ?]]]. }
  destruct auth as [uid|];
    [|refine (Hstop _ _ _ _ (eq_sym Hout)); cbn [profiles customClaims]; congruence].
  unfold sbind at 1 in Hout. unfold getProfile, sbind at 1, srvRequest in Hout.
  destruct (hd false (serverFaults s)) eqn:Hf; cbn [profiles] in Hout.
  { refine (Hstop _ _ _ _ (eq_sym Hout)); cbn [profiles customClaims]; congruence. }
  destruct (JS.truthyB (profiles s !! uid ≫= pf_isAdmin)) eqn:Hadm; cbn [negb] in Hout.
  2: { refine (Hstop _ _ _ _ (eq_sym Hout)); cbn [profiles customClaims]; congruence. }
  assert (Hcaller : (profiles s !! uid ≫= pf_isAdmin) = Some true).
  { destruct (profiles s !! uid ≫= pf_isAdmin) as [[]|]; done. }
  destruct (JS.truthy (Some targetUserId)) eqn:Htgt; cbn [negb] in Hout.
  2: { refine (Hstop _ _ _ _ (eq_sym Hout)); cbn [profiles customClaims]; congruence. }
  assert (Hne : targetUserId <> "").
  { intros ->. discriminate Htgt. }
  unfold sbind at 1 in Hout. unfold updateIsAdmin, sbind at 1, srvRequest in Hout.
  cbn [serverFaults profiles authUsers customClaims serverTime fst snd] in Hout.
  destruct (hd false (tl (serverFaults s))) eqn:Hf2.
  { refine (Hstop _ _ _ _ (eq_sym Hout)); cbn [profiles customClaims]; congruence. }
  destruct (profiles s !! targetUserId) as [d|] eqn:Hd.
  2: { refine (Hstop _ _ _ _ (eq_sym Hout)); cbn [profiles customClaims]; congruence. }
  unfold withProfiles, sbind, setCustomUserClaims, sbind, srvRequest in Hout.
  cbn [serverFaults profiles authUsers customClaims serverTime fst snd] in Hout.
  destruct (hd false (tl (tl (serverFaults s)))).
  { injection Hout as <- <-. cbn [fst snd profiles customClaims].
    split; [intros other Ho; by rewrite lookup_insert_ne|].
    split; [|done]. intros _. by exists uid. }
  destruct (authUsers s !! targetUserId);
    unfold withClaims, sret in Hout; injection Hout as <- <-;
    cbn [fst snd profiles customClaims].
  - split; [intros other Ho; by rewrite !lookup_insert_ne|].
    split; [intros _; by exists uid|].
    intros r [= <-]. by rewrite !lookup_insert_eq.
  - split; [intros other Ho; by rewrite lookup_insert_ne|].
    split; [|done]. intros _. by exists uid.
Qed.

(** The entries of [ADMIN_EMAILS] are not empty. *)
Lemma ADMIN_EMAILS_nonempty env x : In x (ADMIN_EMAILS env) -> x <> "".
Proof.
  unfold ADMIN_EMAILS. intros Hin%filter_In. destruct Hin as [_ Hlen].
  intros ->. discriminate Hlen.
Qed.

(** X21. [createUserProfile] (callable). When it succeeds, the caller is a
    registered user; the result and the [isAdmin] of the caller's profile
    are [true] exactly when the user has an email whose lower-case form is
    in the admin list; the claim is set to [true] in that case and is left
    as it was otherwise; the profile and the claim of other users do not
    change. *)
Theorem createUserProfile_admin_by_list (env auth : option string) (s : Server)
    (isAdmin : bool) :
  let out := createUserProfileCallable env auth s in
  out.1 = Done isAdmin ->
  exists uid u,
    auth = Some uid /\ authUsers s !! uid = Some u
    /\ (isAdmin = true <->
        exists email, ur_email u = Some email
                      /\ In (JS.toLowerCase email) (ADMIN_EMAILS env))
    /\ (profiles out.2 !! uid ≫= pf_isAdmin) = Some isAdmin
    /\ customClaims out.2 !! uid
       = (if isAdmin then Some true else customClaims s !! uid)
    /\ forall other, other <> uid ->
         profiles out.2 !! other = profiles s !! other
         /\ customClaims out.2 !! other = customClaims s !! other.
Proof.
  intros out. subst out.
  destruct (createUserProfileCallable env auth s) as [res s2] eqn:Hout.
  cbn [fst snd]. intros ->.
  unfold createUserProfileCallable in Hout.
  destruct auth as [uid|]; [|discriminate Hout].
  unfold sbind at 1 in Hout. unfold getUser, sbind at 1, srvRequest in Hout.
  destruct (hd false (serverFaults s)); [discriminate Hout|].
  cbn [authUsers] in Hout.
  destruct (authUsers s !! uid) as [u|] eqn:Hu; [|discriminate Hout].
  exists uid, u. split; [done|]. split; [done|].
  set (email := if JS.truthy (ur_email u)
                then JS.toLowerCase (default "" (ur_email u)) else "") in *.
  assert (Hmember : arrayIncludes (ADMIN_EMAILS env) email = true <->
                    exists e, ur_email u = Some e
                              /\ In (JS.toLowerCase e) (ADMIN_EMAILS env)).
  { unfold arrayIncludes. rewrite existsb_exists. split.
    - intros (x & Hx & Heq). apply String.eqb_eq in Heq. subst x.
      pose proof (ADMIN_EMAILS_nonempty _ _ Hx) as Hne. subst email.
      destruct (ur_email u) as [e|]; [|done]. cbn in Hx, Hne.
      destruct (String.eqb e ""); [done|]. by exists e.
    - intros (e & He & Hin). exists email. split; [|apply String.eqb_refl].
      subst email. rewrite He. cbn.
      destruct (String.eqb_spec e "") as [->|_]; [|done].
      by apply ADMIN_EMAILS_nonempty in Hin.  }
  unfold sbind at 1 in Hout. cbn [serverTime] in Hout.
  unfold sbind at 1 in Hout. unfold setProfile, sbind at 1, srvRequest in Hout.
  cbn [serverFaults profiles authUsers customClaims serverTime fst snd] in Hout.
  destruct (hd false (tl (serverFaults s))); [discriminate Hout|].
  unfold withProfiles, sbind, sret in Hout.
  destruct (arrayIncludes (ADMIN_EMAILS env) email) eqn:Hinc.
  - unfold setCustomUserClaims, sbind, srvRequest in Hout.
    cbn [serverFaults profiles authUsers customClaims serverTime fst snd] in Hout.
    destruct (hd false (tl (tl (serverFaults s)))); [discriminate Hout|].
    rewrite Hu in Hout. unfold withClaims in Hout. injection Hout as <- <-.
    cbn [fst snd profiles customClaims]. rewrite !lookup_insert_eq.
    split; [done|]. split; [done|]. split; [done|].
    intros other Ho. by rewrite !lookup_insert_ne.
  - injection Hout as <- <-.
    cbn [fst snd profiles customClaims]. rewrite !lookup_insert_eq.
    split; [by rewrite <- Hmember|]. split; [done|]. split; [done|].
    intros other Ho. by rewrite !lookup_insert_ne.
Qed.

Lemma setupInitialAdmin_once_witness :
  (setupInitialAdmin officeEnv (Some "u1") officeServer).1 = Done tt
  /\ forall auth',
       (setupInitialAdmin officeEnv auth'
          (setupInitialAdmin officeEnv (Some "u1") officeServer).2).1 <> Done tt.
Proof.
  assert (Hrun : (setupInitialAdmin officeEnv (Some "u1") officeServer).1 = Done tt)
    by (vm_compute; reflexivity).
  split; [exact Hrun|].
  destruct (setupInitialAdmin_once officeEnv (Some "u1") officeServer) as (_ & _ & _ & H).
  destruct (H Hrun) as (uid & _ & _ & _ & Hno). exact Hno.
Defined.

Lemma setAdminRole_admin_only_witness :
  (setAdminRole (Some "u1") "u2" true staffedServer).1 = Done ("u2", true)
  /\ customClaims (setAdminRole (Some "u1") "u2" true staffedServer).2 !! "u2" = Some true.
Proof.
  assert (Hrun : (setAdminRole (Some "u1") "u2" true staffedServer).1 = Done ("u2", true))
    by (vm_compute; reflexivity).
  split; [exact Hrun|].
  destruct (setAdminRole_admin_only (Some "u1") "u2" true staffedServer) as (_ & _ & H).
  by destruct (H _ Hrun) as (_ & _ & Hclaim).
Defined.

Lemma createUserProfile_admin_by_list_witness :
  (createUserProfileCallable officeEnv (Some "u1") officeServer).1 = Done true
  /\ exists uid u,
       Some "u1" = Some uid /\ authUsers officeServer !! uid = Some u
       /\ (true = true <->
           exists email, ur_email u = Some email
                         /\ In (JS.toLowerCase email) (ADMIN_EMAILS officeEnv))
       /\ (profiles (createUserProfileCallable officeEnv (Some "u1") officeServer).2 !! uid
             ≫= pf_isAdmin) = Some true
       /\ customClaims (createUserProfileCallable officeEnv (Some "u1") officeServer).2 !! uid
          = Some true
       /\ forall other, other <> uid ->
            profiles (createUserProfileCallable officeEnv (Some "u1") officeServer).2 !! other
            = profiles officeServer !! other
            /\ customClaims (createUserProfileCallable officeEnv (Some "u1") officeServer).2
                 !! other
               = customClaims officeServer !! other.
Proof.
  assert (Hrun : (createUserProfileCallable officeEnv (Some "u1") officeServer).1 = Done true)
    by (vm_compute; reflexivity).
  split; [exact Hrun|].
  exact (createUserProfile_admin_by_list officeEnv (Some "u1") officeServer true Hrun).
Defined.
